(** * psoc_ble_ota_python: the DFU host protocol and the cyacd2 image parser

    A shallow embedding of [cydfu.py] (packet codec, status codes, host
    commands, cyacd2 parser) and of [Target.updateFirmware] of [update.py],
    followed by the properties the specification states about them. *)

From Stdlib Require Import ZArith List String Ascii Lia Bool Permutation.
From Stdlib.Strings Require Import Byte.
Import ListNotations.
Local Open Scope Z_scope.

(** ** Interpreter-level primitives *)

Module Py.

(** The exception classes that the two modules raise or let through.
    All of them derive from [Exception]. *)
Inductive exn : Type :=
| HostError (msg : string)
| DFUErrorVerify
| DFUErrorLength
| DFUErrorData
| DFUErrorCmd
| DFUErrorChecksum
| DFUErrorRow
| DFUErrorRowAccess
| DFUErrorUnknown
| UnexpectedError (msg : string)
| InvalidFileType (msg : string)
| InvalidApplicationFile (msg : string)
| StructError          (* struct.error *)
| ValueError
| IndexError
| StopIteration
| NameError
| FileNotFoundError.

Inductive result (A : Type) : Type :=
| Ok (a : A)
| Raise (e : exn).
Arguments Ok {A} a.
Arguments Raise {A} e.

Definition bindR {A B} (r : result A) (k : A -> result B) : result B :=
  match r with
  | Ok a => k a
  | Raise e => Raise e
  end.

(** A [bytes] object. *)
Definition bytes := list byte.

Definition int_of_byte (b : byte) : Z := Z.of_N (Byte.to_N b).

Definition byte_of_int (z : Z) : byte :=
  match Byte.of_N (Z.to_N (z mod 256)) with
  | Some b => b
  | None => x00
  end.

Definition bytes_eqb (a b : bytes) : bool :=
  if list_eq_dec Byte.byte_eq_dec a b then true else false.

(** [struct]: little-endian, standard sizes, no alignment (the "<" prefix). *)
Fixpoint to_le (n : nat) (v : Z) : bytes :=
  match n with
  | O => []
  | S n' => byte_of_int (v mod 256) :: to_le n' (v / 256)
  end.

Fixpoint from_le (bs : bytes) : Z :=
  match bs with
  | [] => 0
  | b :: bs' => int_of_byte b + 256 * from_le bs'
  end.

(** An unsigned field of [n] bytes ("B", "H", "I"): out of range is
    [struct.error]. *)
Definition pack_uint (n : nat) (v : Z) : result bytes :=
  if (0 <=? v) && (v <? 256 ^ Z.of_nat n) then Ok (to_le n v)
  else Raise StructError.

(** A "c" field: a bytes object of length 1. *)
Definition pack_char (c : bytes) : result bytes :=
  match c with
  | [b] => Ok [b]
  | _ => Raise StructError
  end.

(** An "<n>s" field: truncated or zero-padded to [n] bytes. *)
Definition pack_s (n : nat) (v : bytes) : bytes :=
  firstn n v ++ repeat x00 (n - List.length v).

(** [struct.unpack] refuses a buffer whose size is not the format's. *)
Definition unpack_exact (size : Z) (buf : bytes) : result bytes :=
  if Z.of_nat (List.length buf) =? size then Ok buf else Raise StructError.

(** Slices [b[i:j]], [b[i:]] and [b[:-k]] for [0 <= i <= j]. *)
Definition slice (b : bytes) (i j : nat) : bytes := firstn (j - i) (skipn i b).
Definition slice_from (b : bytes) (i : nat) : bytes := skipn i b.
Definition slice_drop_last (b : bytes) (k : nat) : bytes :=
  firstn (List.length b - k) b.

(** The list comprehension [[b[i:i+n] for i in range(0, len(b), n)]].
    [range] refuses a zero step and is empty for a negative one (the stop
    value is a length, so it is never negative). *)
Definition range0 (stop step : Z) : result (list Z) :=
  if step =? 0 then Raise ValueError
  else if step <? 0 then Ok []
  else Ok (map (fun k => Z.of_nat k * step)
               (seq 0 (Z.to_nat ((stop + step - 1) / step)))).

Definition chunked (b : bytes) (n : Z) : result (list bytes) :=
  bindR (range0 (Z.of_nat (List.length b)) n)
        (fun r => Ok (map (fun i => slice b (Z.to_nat i) (Z.to_nat (i + n))) r)).

(** *** Text.  A character is its code point; the model covers text whose
    code points are below 256. *)

(** [str.isspace] on one character, as [str.strip] uses it. *)
Definition isspace (c : ascii) : bool :=
  let n := N_of_ascii c in
  (((9 <=? n) && (n <=? 13)) || ((28 <=? n) && (n <=? 32))
   || (n =? 133) || (n =? 160))%N.

Fixpoint lstrip (s : string) : string :=
  match s with
  | EmptyString => EmptyString
  | String c s' => if isspace c then lstrip s' else s
  end.

Fixpoint rstrip (s : string) : string :=
  match s with
  | EmptyString => EmptyString
  | String c s' =>
      match rstrip s' with
      | EmptyString => if isspace c then EmptyString else String c EmptyString
      | r => String c r
      end
  end.

Definition strip (s : string) : string := rstrip (lstrip s).

Definition endswith (s suffix : string) : bool :=
  let n := String.length s in
  let m := String.length suffix in
  (m <=? n)%nat && String.eqb (substring (n - m) m s) suffix.

(** [s.split(sep)] for a one-character separator. *)
Fixpoint split (sep : ascii) (s : string) : list string :=
  match s with
  | EmptyString => [EmptyString]
  | String c s' =>
      if Ascii.eqb c sep then EmptyString :: split sep s'
      else match split sep s' with
           | [] => [String c EmptyString]
           | p :: ps => String c p :: ps
           end
  end.

(** [s.split(sep, 1)]. *)
Fixpoint split1 (sep : ascii) (s : string) : list string :=
  match s with
  | EmptyString => [EmptyString]
  | String c s' =>
      if Ascii.eqb c sep then [EmptyString; s']
      else match split1 sep s' with
           | [] => [String c EmptyString]
           | p :: ps => String c p :: ps
           end
  end.

Definition hexval (c : ascii) : option Z :=
  let n := Z.of_N (N_of_ascii c) in
  if (48 <=? n) && (n <=? 57) then Some (n - 48)
  else if (97 <=? n) && (n <=? 102) then Some (n - 87)
  else if (65 <=? n) && (n <=? 70) then Some (n - 55)
  else None.

(** The ASCII white space [bytes.fromhex] skips between two bytes. *)
Definition hexspace (c : ascii) : bool :=
  let n := N_of_ascii c in (((9 <=? n) && (n <=? 13)) || (n =? 32))%N.

(** [bytes.fromhex]: pairs of hexadecimal digits, white space allowed
    between pairs only; anything else is a [ValueError]. *)
Fixpoint fromhex (s : string) : result bytes :=
  match s with
  | EmptyString => Ok []
  | String c s' =>
      if hexspace c then fromhex s'
      else match hexval c, s' with
           | Some hi, String d s'' =>
               match hexval d with
               | Some lo =>
                   bindR (fromhex s'') (fun rest => Ok (byte_of_int (16 * hi + lo) :: rest))
               | None => Raise ValueError
               end
           | _, _ => Raise ValueError
           end
  end.

(** The lines of a text, each with its newline, as [readline] and the file
    iterator return them. *)
Fixpoint file_lines (text : string) : list string :=
  match text with
  | EmptyString => []
  | String c s' =>
      if Ascii.eqb c "010" then String c EmptyString :: file_lines s'
      else match file_lines s' with
           | [] => [String c EmptyString]
           | l :: ls => String c l :: ls
           end
  end.

(** *** State and exceptions: a computation on a mutable object [S] that
    returns a value or raises, and leaves the object as it is then. *)
Definition M (S A : Type) : Type := S -> result A * S.

Definition ret {S A} (a : A) : M S A := fun s => (Ok a, s).
Definition raise {S A} (e : exn) : M S A := fun s => (Raise e, s).
Definition lift {S A} (r : result A) : M S A := fun s => (r, s).
Definition bind {S A B} (m : M S A) (k : A -> M S B) : M S B :=
  fun s => match m s with
           | (Ok a, s') => k a s'
           | (Raise e, s') => (Raise e, s')
           end.
Definition get {S} : M S S := fun s => (Ok s, s).
Definition modify {S} (f : S -> S) : M S unit := fun s => (Ok tt, f s).

(** [for x in xs: body(x)]. *)
Fixpoint for_each {S A} (xs : list A) (body : A -> M S unit) : M S unit :=
  match xs with
  | [] => ret tt
  | x :: xs' => bind (body x) (fun _ => for_each xs' body)
  end.

End Py.

Import Py.

Notation "x <-? c ;; k" := (bindR c (fun x => k))
  (at level 61, c at next level, right associativity).
Notation "x <- c ;; k" := (bind c (fun x => k))
  (at level 61, c at next level, right associativity).
Notation "c ;;; k" := (bind c (fun _ => k))
  (at level 61, right associativity).

(** ** The peripheral, as the host sees it (bluepy)

    The host writes fragments to the command characteristic and waits for
    notifications.  What the peripheral answers is not decided by the host:
    [inbox] lists, for each call of [waitForNotifications] in turn, the
    notification delivered to the delegate ([None]: none before the timeout). *)

Module Btle.

(** A line printed on the standard output, before formatting. *)
Inductive Msg : Type :=
| EnterDFUSuccessful
| JtagID (v : Z)
| DeviceRevision (v : Z)
| DfuSdkVersion (v : Z)
| StartingDFU
| ProductID (v : Z)
| ApplicationInfo (appID len startAddr : Z)
| SendingData
| SentDataRow (currRow numRows : Z)
| FinishedSending
| VerifyingApplication
| ApplicationValid
| ApplicationNotValid
| EndingDFU.

Record World : Type := mkWorld {
  hasCmdChar : bool;             (* getCharacteristics(uuid=...) is not empty *)
  hasCCCD : bool;                (* getDescriptors(forUUID=0x2902) is not empty *)
  charHandle : Z;                (* _dfuCmdChar.getHandle() *)
  cccdReads : bytes;             (* what cccd.read() returns *)
  cccdWrites : list bytes;       (* values written to the CCCD *)
  writes : list bytes;           (* fragments written to the command characteristic *)
  inbox : list (option (Z * bytes));
  delegate_handle : option Z;    (* Delegate.handle *)
  delegate_data : option bytes;  (* Delegate.data *)
  stdout : list Msg
}.

Definition print (m : Msg) : M World unit :=
  modify (fun w => mkWorld (hasCmdChar w) (hasCCCD w) (charHandle w)
                           (cccdReads w) (cccdWrites w) (writes w) (inbox w)
                           (delegate_handle w) (delegate_data w)
                           (stdout w ++ [m])).

Definition cccd_write (v : bytes) : M World unit :=
  modify (fun w => mkWorld (hasCmdChar w) (hasCCCD w) (charHandle w)
                           (cccdReads w) (cccdWrites w ++ [v]) (writes w)
                           (inbox w) (delegate_handle w) (delegate_data w)
                           (stdout w)).

Definition char_write (p : bytes) : M World unit :=
  modify (fun w => mkWorld (hasCmdChar w) (hasCCCD w) (charHandle w)
                           (cccdReads w) (cccdWrites w) (writes w ++ [p])
                           (inbox w) (delegate_handle w) (delegate_data w)
                           (stdout w)).

(** [Peripheral.waitForNotifications(timeout)]: [True] once the delegate's
    [handleNotification] has run, [False] on timeout. *)
Definition waitForNotifications (timeout : Z) : M World bool :=
  fun w =>
    match inbox w with
    | [] => (Ok false, w)
    | None :: rest =>
        (Ok false,
         mkWorld (hasCmdChar w) (hasCCCD w) (charHandle w) (cccdReads w)
                 (cccdWrites w) (writes w) rest
                 (delegate_handle w) (delegate_data w) (stdout w))
    | Some (cHandle, data) :: rest =>
        (Ok true,
         mkWorld (hasCmdChar w) (hasCCCD w) (charHandle w) (cccdReads w)
                 (cccdWrites w) (writes w) rest
                 (Some cHandle) (Some data) (stdout w))
    end.

End Btle.

Import Btle.

(** ** cydfu.DFUProtocol: the packet codec and the status codes *)

Module DFUProtocol.

Definition _START_OF_PACKET : bytes := [x01].
Definition _END_OF_PACKET : bytes := [x17].

Definition _CMD_ENTER_DFU : bytes := [x38].
Definition _CMD_SYNC_DFU : bytes := [x35].
Definition _CMD_EXIT_DFU : bytes := [x3b].
Definition _CMD_SEND_DATA : bytes := [x37].
Definition _CMD_SEND_DATA_WITHOUT_RESPONSE : bytes := [x47].
Definition _CMD_PROGRAM_DATA : bytes := [x49].
Definition _CMD_VERIFY_DATA : bytes := [x4a].
Definition _CMD_ERASE_DATA : bytes := [x44].
Definition _CMD_VERIFY_APPLICATION : bytes := [x31].
Definition _CMD_SET_APPLICATION_METADATA : bytes := [x4c].
Definition _CMD_GET_METADATA : bytes := [x3c].
Definition _CMD_SET_EIVECTOR : bytes := [x4d].

(** The dict [_DFU_STATUS_CODE]: key, and the exception class or [None]. *)
Definition _DFU_STATUS_CODE : list (bytes * option exn) :=
  [ ([x00], None);
    ([x02], Some DFUErrorVerify);
    ([x03], Some DFUErrorLength);
    ([x04], Some DFUErrorData);
    ([x05], Some DFUErrorCmd);
    ([x08], Some DFUErrorChecksum);
    ([x0a], Some DFUErrorRow);
    ([x0b], Some DFUErrorRowAccess);
    ([x0f], Some DFUErrorUnknown) ].

Fixpoint dict_get {V} (d : list (bytes * V)) (k : bytes) : option V :=
  match d with
  | [] => None
  | (k', v) :: d' => if bytes_eqb k' k then Some v else dict_get d' k
  end.

Definition _calcChecksum_2sComplement_16bit (data : bytes) : Z :=
  let cs := fold_left (fun cs b => cs + int_of_byte b) data 0 in
  Z.land (- cs) 0xFFFF.

Definition _checkStatusCode (code : bytes) : result unit :=
  match dict_get _DFU_STATUS_CODE code with
  | None =>
      Raise (UnexpectedError "The target responded with an undefined status code")
  | Some None => Ok tt
  | Some (Some ex) => Raise ex
  end.

Definition _createCmdPacket (cmd payload : bytes) : result bytes :=
  if negb (Nat.eqb (List.length cmd) 1) then
    Raise (HostError "cmd must be a bytes object with a length of 1")
  else
    let payloadLength := List.length payload in
    (* struct.pack(f"<ccH{payloadLength}s", start, cmd, payloadLength, payload) *)
    packet <-? (s <-? pack_char _START_OF_PACKET ;;
                c <-? pack_char cmd ;;
                l <-? pack_uint 2 (Z.of_nat payloadLength) ;;
                Ok (s ++ c ++ l ++ pack_s payloadLength payload)) ;;
    (* struct.pack("<Hc", checksum, end) *)
    trailer <-? (h <-? pack_uint 2 (_calcChecksum_2sComplement_16bit packet) ;;
                 e <-? pack_char _END_OF_PACKET ;;
                 Ok (h ++ e)) ;;
    Ok (packet ++ trailer).

Definition malformed : exn := HostError "The response packet is malformed".
Definition corrupted : exn := HostError "The response packet is currupted".

Definition _getResponse (packet : bytes) : result (bytes * bytes) :=
  let unpacked :=
    (* struct.unpack("<ccH", packet[0:4]) *)
    hdr <-? unpack_exact 4 (slice packet 0 4) ;;
    let startByte := firstn 1 hdr in
    let statusCode := firstn 1 (skipn 1 hdr) in
    let dataLength := from_le (skipn 2 hdr) in
    (* struct.unpack(f"<{dataLength}sHc", packet[4:]) *)
    body <-? unpack_exact (dataLength + 3) (slice_from packet 4) ;;
    let n := Z.to_nat dataLength in
    let payload := firstn n body in
    let checksum := from_le (firstn 2 (skipn n body)) in
    let endByte := skipn (n + 2) body in
    Ok (startByte, statusCode, payload, checksum, endByte) in
  match unpacked with
  | Raise _ => Raise malformed
  | Ok (startByte, statusCode, payload, checksum, endByte) =>
      if negb (bytes_eqb startByte _START_OF_PACKET)
         || negb (bytes_eqb endByte _END_OF_PACKET)
      then Raise malformed
      else if negb (_calcChecksum_2sComplement_16bit (slice_drop_last packet 3)
                    =? checksum)
      then Raise corrupted
      else Ok (statusCode, payload)
  end.

(** *** The host commands *)

Definition _enableNotifications : M World unit :=
  cccd_write [x01; x00] ;;;
  cccdValue <- (fun w => (Ok (cccdReads w), w)) ;;
  if negb (bytes_eqb cccdValue [x01; x00]) then
    raise (HostError "Failed to enable Bootloader service notifications.")
  else ret tt.

(** [DFUProtocol.__init__]: indexing an empty list is an [IndexError]. *)
Definition __init__ : M World unit :=
  w <- get ;;
  if negb (hasCmdChar w) then raise IndexError
  else if negb (hasCCCD w) then raise IndexError
  else _enableNotifications.

Definition _sendPacket (packet : bytes) (maxLen : Z) : M World unit :=
  fragments <- lift (chunked packet maxLen) ;;
  for_each fragments char_write.

Definition _waitForResponse (timeout : Z) : M World bool :=
  notified <- waitForNotifications timeout ;;
  if negb notified then ret false
  else
    w <- get ;;
    match delegate_handle w with
    | Some h => if negb (h =? charHandle w) then ret false else ret true
    | None => ret false
    end.

(** The message of the [HostError] raised on a timeout names the handle;
    here it is a fixed text. *)
Definition _sendCommandGetResponse (cmd payload : bytes) (timeout : Z)
  : M World bytes :=
  packet <- lift (_createCmdPacket cmd payload) ;;
  _sendPacket packet 20 ;;;
  received <- _waitForResponse timeout ;;
  if negb received then raise (HostError "Notification not received")
  else
    w <- get ;;
    r <- lift (match delegate_data w with
               | Some data => _getResponse data
               | None => Raise malformed
               end) ;;
    let '(statusCode, respData) := r in
    lift (_checkStatusCode statusCode) ;;;
    ret respData.

(** [struct.unpack("<IBI", respData[:5] + b'\x00' + respData[5:])]. *)
Definition enterDFU_unpack (respData : bytes) : result (Z * Z * Z) :=
  buf <-? unpack_exact 9 (firstn 5 respData ++ [x00] ++ skipn 5 respData) ;;
  Ok (from_le (slice buf 0 4), from_le (slice buf 4 5), from_le (slice buf 5 9)).

Definition enterDFU (productID : Z) : M World unit :=
  payload <- lift (pack_uint 4 productID) ;;
  respData <- _sendCommandGetResponse _CMD_ENTER_DFU payload 2 ;;
  fields <- lift (enterDFU_unpack respData) ;;
  let '(jtagID, deviceRev, dfuSdkVer) := fields in
  print EnterDFUSuccessful ;;;
  print (JtagID jtagID) ;;;
  print (DeviceRevision deviceRev) ;;;
  print (DfuSdkVersion dfuSdkVer).

Definition syncDFU : M World unit :=
  packet <- lift (_createCmdPacket _CMD_SYNC_DFU []) ;;
  _sendPacket packet 20.

Definition exitDFU : M World unit :=
  packet <- lift (_createCmdPacket _CMD_EXIT_DFU []) ;;
  _sendPacket packet 20.

Definition sendData (data : bytes) : M World unit :=
  _sendCommandGetResponse _CMD_SEND_DATA data 2 ;;; ret tt.

Definition sendDataWithoutResponse (data : bytes) : M World unit :=
  packet <- lift (_createCmdPacket _CMD_SEND_DATA_WITHOUT_RESPONSE data) ;;
  _sendPacket packet 20.

(** [struct.pack("<II", a, b)]. *)
Definition pack_II (a b : Z) : result bytes :=
  x <-? pack_uint 4 a ;; y <-? pack_uint 4 b ;; Ok (x ++ y).

Definition programData (rowAddr rowDataChecksum : Z) (data : bytes)
  : M World unit :=
  hdr <- lift (pack_II rowAddr rowDataChecksum) ;;
  _sendCommandGetResponse _CMD_PROGRAM_DATA (hdr ++ data) 2 ;;; ret tt.

Definition verifyData (rowAddr rowDataChecksum : Z) (data : bytes)
  : M World unit :=
  hdr <- lift (pack_II rowAddr rowDataChecksum) ;;
  _sendCommandGetResponse _CMD_VERIFY_DATA (hdr ++ data) 1 ;;; ret tt.

Definition eraseData (rowAddr : Z) : M World unit :=
  payload <- lift (pack_uint 4 rowAddr) ;;
  _sendCommandGetResponse _CMD_ERASE_DATA payload 1 ;;; ret tt.

Definition verifyApplication (appNum : Z) : M World Z :=
  payload <- lift (pack_uint 1 appNum) ;;
  respData <- _sendCommandGetResponse _CMD_VERIFY_APPLICATION payload 2 ;;
  (* struct.unpack("<B", respData)[0] *)
  buf <- lift (unpack_exact 1 respData) ;;
  ret (from_le buf).

Definition setApplicationMetadata (appNum appStartAddr appLength : Z)
  : M World unit :=
  payload <- lift (a <-? pack_uint 1 appNum ;;
                   b <-? pack_uint 4 appStartAddr ;;
                   c <-? pack_uint 4 appLength ;;
                   Ok (a ++ b ++ c)) ;;
  _sendCommandGetResponse _CMD_SET_APPLICATION_METADATA payload 2 ;;; ret tt.

Definition getMetadata (fromRowOffset toRowOffset : Z) : M World unit :=
  payload <- lift (pack_II fromRowOffset toRowOffset) ;;
  _sendCommandGetResponse _CMD_GET_METADATA payload 1 ;;; ret tt.

Definition setEIVector (vector : bytes) : M World unit := ret tt.

End DFUProtocol.

(** ** cydfu.Application: the cyacd2 image parser *)

Module Application.

(** The open text file: its lines and the index of the next one to read. *)
Record File : Type := mkFile {
  lines : list string;
  pos : nat
}.

Record t : Type := mkApp {
  _app : File;
  numRows : Z;
  fileVersion : Z;
  siliconID : Z;
  siliconRevision : Z;
  checksumType : Z;
  appID : Z;
  productID : Z;
  startAddr : Z;
  length : Z;
  currRow : Z
}.

Definition set_file (f : File) (a : t) : t :=
  mkApp f (numRows a) (fileVersion a) (siliconID a) (siliconRevision a)
        (checksumType a) (appID a) (productID a) (startAddr a) (length a)
        (currRow a).

Definition set_numRows (n : Z) (a : t) : t :=
  mkApp (_app a) n (fileVersion a) (siliconID a) (siliconRevision a)
        (checksumType a) (appID a) (productID a) (startAddr a) (length a)
        (currRow a).

Definition set_header (fv sid srev cst aid pid : Z) (a : t) : t :=
  mkApp (_app a) (numRows a) fv sid srev cst aid pid (startAddr a) (length a)
        (currRow a).

Definition set_appinfo (sa len : Z) (a : t) : t :=
  mkApp (_app a) (numRows a) (fileVersion a) (siliconID a) (siliconRevision a)
        (checksumType a) (appID a) (productID a) sa len (currRow a).

Definition set_currRow (n : Z) (a : t) : t :=
  mkApp (_app a) (numRows a) (fileVersion a) (siliconID a) (siliconRevision a)
        (checksumType a) (appID a) (productID a) (startAddr a) (length a) n.

(** [next(self._app)]. *)
Definition next_line : M t string :=
  fun self =>
    let f := _app self in
    match nth_error (lines f) (pos f) with
    | Some l => (Ok l, set_file (mkFile (lines f) (S (pos f))) self)
    | None => (Raise StopIteration, self)
    end.

(** The loop [while self._app.readline(): lineCount += 1] on the lines
    that follow the position. *)
Fixpoint count_lines (unread : list string) (lineCount : Z) : Z :=
  match unread with
  | [] => lineCount
  | l :: rest =>
      match l with
      | EmptyString => lineCount
      | _ => count_lines rest (lineCount + 1)
      end
  end.

(** The position is saved, set to the start, and restored. *)
Definition _getNumLines (self : t) : Z :=
  count_lines (lines (_app self)) 0.

Definition getHeader : M t unit :=
  line <- next_line ;;
  header <- lift (fromhex (strip line)) ;;
  if negb (Nat.eqb (List.length header) 12) then
    raise (InvalidApplicationFile "Malformed header")
  else
    (* struct.unpack("<BIBBBI", header) *)
    modify (set_header (from_le (slice header 0 1))
                       (from_le (slice header 1 5))
                       (from_le (slice header 5 6))
                       (from_le (slice header 6 7))
                       (from_le (slice header 7 8))
                       (from_le (slice header 8 12))).

Section Parser.

(** [int(text, 0)], the interpreter's integer literal reader
    ([ValueError] when the text is no literal). *)
Variable int0 : string -> result Z.

Definition getAppInfo : M t unit :=
  line <- next_line ;;
  let appinfo := split ":" (strip line) in
  if negb (String.eqb (hd EmptyString appinfo) "@APPINFO") then
    raise (InvalidApplicationFile "Malformed application verification information")
  else
    metadata <- lift (match nth_error appinfo 1 with
                      | Some m => Ok m
                      | None => Raise IndexError
                      end) ;;
    fields <- lift (match split "," metadata with
                    | [a; b] => Ok (a, b)
                    | _ => Raise ValueError
                    end) ;;
    sa <- lift (int0 (fst fields)) ;;
    len <- lift (int0 (snd fields)) ;;
    modify (set_appinfo sa len).

(** [Application(cyacd2_file)], on a file system that gives the text of
    the files that exist.  An attribute not yet assigned is never read. *)
Definition __init__ (fs : string -> option string) (cyacd2_file : string)
  : result t :=
  if negb (endswith cyacd2_file ".cyacd2") then
    Raise (InvalidFileType "Expected an application file with the extension '.cyadc2'")
  else
    match fs cyacd2_file with
    | None => Raise FileNotFoundError
    | Some text =>
        let self := mkApp (mkFile (file_lines text) 0) 0 0 0 0 0 0 0 0 0 0 in
        let body : M t unit :=
          self <- get ;;
          modify (set_numRows (_getNumLines self)) ;;;
          getHeader ;;;
          modify (fun a => set_numRows (numRows a - 1) a) ;;;
          getAppInfo ;;;
          modify (fun a => set_numRows (numRows a - 1) a) ;;;
          modify (set_currRow 0) in
        match body self with
        | (Ok _, self') => Ok self'
        | (Raise e, _) => Raise e
        end
    end.

End Parser.

(** Lines 398 to 404 of [getNextRow]: the row of a line that starts with
    the row marker. *)
Definition row_of_line (row : string) : result (Z * bytes) :=
  rest <-? match split1 ":" row with
           | [_; r] => Ok r
           | _ => Raise ValueError
           end ;;
  row <-? fromhex (strip rest) ;;
  let dataLength := Z.of_nat (List.length row) - 4 in
  (* struct.unpack(f"<I{dataLength}s", row) *)
  if dataLength <? 0 then Raise StructError
  else
    buf <-? unpack_exact (4 + dataLength) row ;;
    Ok (from_le (firstn 4 buf), skipn 4 buf).

Definition getNextRow : M t (Z * bytes) :=
  row <- next_line ;;
  first <- lift (match row with
                 | EmptyString => Raise IndexError
                 | String c _ => Ok c
                 end) ;;
  if negb (Ascii.eqb first ":") then
    raise (InvalidApplicationFile "Malformed data row")
  else
    modify (fun a => set_currRow (currRow a + 1) a) ;;;
    lift (row_of_line row).

End Application.

(** ** update.Target: the update sequence *)

Module Target.

(** What the module-level name [fwImg] stands for when [updateFirmware]
    runs: nothing, the very object passed as [app] (the script calls
    [target.updateFirmware(fwImg)]), or another image. *)
Inductive global_fwImg : Type :=
| Unbound
| TheArgument
| Another (o : Application.t).

Definition St : Type := (Application.t * World)%type.

Definition on_app {A} (m : M Application.t A) : M St A :=
  fun s => let '(r, a') := m (fst s) in (r, (a', snd s)).

Definition on_world {A} (m : M World A) : M St A :=
  fun s => let '(r, w') := m (snd s) in (r, (fst s, w')).

(** [xs[-1]]. *)
Fixpoint last_item {A} (xs : list A) : result A :=
  match xs with
  | [] => Raise IndexError
  | x :: xs' => match xs' with
                | [] => Ok x
                | _ => last_item xs'
                end
  end.

Section UpdateFirmware.

(** [crcmod.predefined.mkCrcFun('crc-32c')]. *)
Variable crc32cFunc : bytes -> Z.

Variable fwImg : global_fwImg.

Definition send_row (maxDataLength : Z) (rowAddr : Z) (rowData : bytes)
  : M St unit :=
  let crc := crc32cFunc rowData in
  chunks <- lift (chunked rowData maxDataLength) ;;
  on_world (for_each (removelast chunks) DFUProtocol.sendData) ;;;
  lastChunk <- lift (last_item chunks) ;;
  on_world (DFUProtocol.programData rowAddr crc lastChunk) ;;;
  s <- get ;;
  on_world (print (SentDataRow (Application.currRow (fst s))
                               (Application.numRows (fst s)))).

(** The [while True] loop; [None] when [fuel] iterations were not enough
    to leave it. *)
Fixpoint row_loop (fuel : nat) (maxDataLength : Z) : M St (option unit) :=
  match fuel with
  | O => ret None
  | S fuel' =>
      fun s =>
        match on_app Application.getNextRow s with
        | (Raise _, s') => (Ok (Some tt), s')       (* except Exception: break *)
        | (Ok (rowAddr, rowData), s') =>
            (send_row maxDataLength rowAddr rowData ;;;
             row_loop fuel' maxDataLength) s'
        end
  end.

Definition read_fwImg_appID : M St Z :=
  s <- get ;;
  match fwImg with
  | Unbound => raise NameError
  | TheArgument => ret (Application.appID (fst s))
  | Another o => ret (Application.appID o)
  end.

(** Lines 183 to 195: what follows the loop. *)
Definition finish_update : M St (option unit) :=
  on_world (print FinishedSending) ;;;
  on_world (print VerifyingApplication) ;;;
  appNum <- read_fwImg_appID ;;
  result <- on_world (DFUProtocol.verifyApplication appNum) ;;
  on_world (print (if result =? 1 then ApplicationValid
                   else ApplicationNotValid)) ;;;
  on_world (print EndingDFU) ;;;
  on_world DFUProtocol.exitDFU ;;;
  ret (Some tt).

(** Lines 163 to 195: the loop and what follows it. *)
Definition stream_rows (fuel : nat) (maxDataLength : Z)
  : M St (option unit) :=
  left <- row_loop fuel maxDataLength ;;
  match left with
  | None => ret None
  | Some _ => finish_update
  end.

Definition updateFirmware (fuel : nat) (maxDataLength : Z)
  : M St (option unit) :=
  on_world DFUProtocol.__init__ ;;;
  on_world (print StartingDFU) ;;;
  app <- (s <- get ;; ret (fst s)) ;;
  on_world (DFUProtocol.enterDFU (Application.productID app)) ;;;
  on_world (print (ProductID (Application.productID app))) ;;;
  on_world (DFUProtocol.setApplicationMetadata
              (Application.appID app) (Application.startAddr app)
              (Application.length app)) ;;;
  on_world (print (ApplicationInfo (Application.appID app)
                                   (Application.length app)
                                   (Application.startAddr app))) ;;;
  on_world (print SendingData) ;;;
  stream_rows fuel maxDataLength.

End UpdateFirmware.

End Target.

(** ** update.py: the start of the script *)

Module Script.

(** A line printed by the script, before formatting. *)
Inductive Line : Type :=
| Usage                              (* usageStatement *)
| UsageAndBlank                      (* usageStatement + a newline *)
| DoesNotExist (path : string)
| SuccessfullyOpened (path : string)
| FileVersion (v : Z)
| AppID (v : Z)
| BlankLine.

(** How the start of the script ends: it goes on with the image, or
    raises.  [AttributeError] is what the evaluation of the name
    [cydfu.InvaildApplicationFile] raises: the module has no such name. *)
Inductive outcome : Type :=
| Continue (fwImg : Application.t)
| SystemExit
| Propagates (e : exn)
| AttributeError.

Section Start.

Variable int0 : string -> result Z.
Variable fs : string -> option string.

(** Lines 204 to 229, for the arguments [sys.argv[1:]].  The clauses of the
    [try] are tried in order; the expression of the third one cannot be
    evaluated, so no exception reaches the fourth. *)
Definition open_image (args : list string) : list Line * outcome :=
  if Nat.eqb (List.length args) 0 || Nat.ltb 2 (List.length args) then
    ([Usage], SystemExit)
  else
    match args with
    | [] => ([], Propagates IndexError)
    | path :: _ =>
        match Application.__init__ int0 fs path with
        | Ok fwImg =>
            ([SuccessfullyOpened path;
              FileVersion (Application.fileVersion fwImg);
              AppID (Application.appID fwImg);
              BlankLine],
             Continue fwImg)
        | Raise FileNotFoundError => ([DoesNotExist path], SystemExit)
        | Raise (InvalidFileType msg) =>
            ([UsageAndBlank], Propagates (InvalidFileType msg))
        | Raise _ => ([], AttributeError)
        end
    end.

End Start.

End Script.

(** ** Notions used to state the properties *)

(** The sum of the bytes of a buffer. *)
Definition byte_sum (data : bytes) : Z :=
  fold_right (fun b acc => int_of_byte b + acc) 0 data.

(** The buffer with the byte at index [i] replaced. *)
Definition set_nth {A} (i : nat) (x : A) (l : list A) : list A :=
  firstn i l ++ x :: skipn (S i) l.

(** The frame of a command or status byte and a payload. *)
Definition frame (c : byte) (payload : bytes) : bytes :=
  let body := [x01; c] ++ to_le 2 (Z.of_nat (List.length payload)) ++ payload in
  body ++ to_le 2 (DFUProtocol._calcChecksum_2sComplement_16bit body) ++ [x17].

(** What [_getResponse] checks of a buffer: the two markers, the declared
    length against the size of the buffer, and the transmitted checksum
    against the sum of every byte but the last three. *)
Definition valid_frame (buf : bytes) : Prop :=
  let len := List.length buf in
  nth_error buf 0 = Some x01
  /\ nth_error buf (len - 1) = Some x17
  /\ from_le (slice buf 2 4) = Z.of_nat len - 7
  /\ from_le (slice buf (len - 3) (len - 1))
     = (- byte_sum (slice_drop_last buf 3)) mod 65536.

(** The eight exception classes that derive from [DFUError]: an error the
    target names. *)
Definition is_DFUError (e : exn) : bool :=
  match e with
  | DFUErrorVerify | DFUErrorLength | DFUErrorData | DFUErrorCmd
  | DFUErrorChecksum | DFUErrorRow | DFUErrorRowAccess | DFUErrorUnknown => true
  | _ => false
  end.

(** The pieces [[b[i:i+m] for i in range(0, len(b), m)]] for a positive
    [m], by index. *)
Definition pieces (b : bytes) (m : nat) : list bytes :=
  map (fun k => firstn m (skipn (k * m) b))
      (seq 0 (Z.to_nat ((Z.of_nat (List.length b) + Z.of_nat m - 1) / Z.of_nat m))).

(** The fragments [_sendPacket] writes for a packet. *)
Definition fragments (packet : bytes) : list bytes := pieces packet 20.

(** The world after the host has written a packet. *)
Definition sent (packet : bytes) (w : World) : World :=
  mkWorld (hasCmdChar w) (hasCCCD w) (charHandle w) (cccdReads w)
          (cccdWrites w) (writes w ++ fragments packet) (inbox w)
          (delegate_handle w) (delegate_data w) (stdout w).

(** The world after the delegate has received the first notification of
    the inbox. *)
Definition notified (w : World) : World :=
  match inbox w with
  | Some (h, d) :: rest =>
      mkWorld (hasCmdChar w) (hasCCCD w) (charHandle w) (cccdReads w)
              (cccdWrites w) (writes w) rest (Some h) (Some d) (stdout w)
  | _ => w
  end.

(** The world after some lines have been printed. *)
Definition printed (ms : list Msg) (w : World) : World :=
  mkWorld (hasCmdChar w) (hasCCCD w) (charHandle w) (cccdReads w)
          (cccdWrites w) (writes w) (inbox w)
          (delegate_handle w) (delegate_data w) (stdout w ++ ms).

(** A reply that [_sendCommandGetResponse] accepts, with its payload. *)
Definition accepted (reply payload : bytes) : Prop :=
  DFUProtocol._getResponse reply = Ok ([x00], payload).

(** The world after the host has sent some packets and received a
    notification after each of them. *)
Definition exchanged (packets : list bytes) (w : World) : World :=
  fold_left (fun w p => notified (sent p w)) packets w.

(** The world after the host has enabled the notifications. *)
Definition enabled (w : World) : World :=
  mkWorld (hasCmdChar w) (hasCCCD w) (charHandle w) (cccdReads w)
          (cccdWrites w ++ [[x01; x00]]) (writes w) (inbox w)
          (delegate_handle w) (delegate_data w) (stdout w).

(** The next [n] notifications come from the command characteristic and
    carry a frame that decodes with the status 0x00. *)
Fixpoint acknowledges (h : Z) (n : nat) (box : list (option (Z * bytes)))
  : Prop :=
  match n with
  | O => True
  | S n' =>
      match box with
      | Some (h', reply) :: rest =>
          h' = h /\ (exists payload, accepted reply payload)
          /\ acknowledges h n' rest
      | _ => False
      end
  end.

(** The lines of the image that have not been read. *)
Definition unread (a : Application.t) : list string :=
  skipn (Application.pos (Application._app a))
        (Application.lines (Application._app a)).

(** A data line: the row marker, then text that [row_of_line] turns into
    the row. *)
Definition data_line (l : string) (r : Z * bytes) : Prop :=
  exists body, l = String ":" body /\ Application.row_of_line l = Ok r.

(** The unread lines are data lines, those of [rows] in this order. *)
Definition image_rows (a : Application.t) (rows : list (Z * bytes)) : Prop :=
  Forall2 data_line (unread a) rows.

(** [n] calls of [getNextRow], and the rows they return. *)
Fixpoint read_rows (n : nat) : M Application.t (list (Z * bytes)) :=
  match n with
  | O => ret []
  | S n' =>
      r <- Application.getNextRow ;;
      rs <- read_rows n' ;;
      ret (r :: rs)
  end.

(** A connected target that has received nothing yet and will deliver
    the notifications of [box]. *)
Definition fresh_world (box : list (option (Z * bytes))) : World :=
  mkWorld true true 14 [x01; x00] [] [] box None None [].

(** The image once one more line has been read. *)
Definition advance (a : Application.t) : Application.t :=
  Application.set_file
    (Application.mkFile (Application.lines (Application._app a))
                        (S (Application.pos (Application._app a))))
    a.

(** The text of a buffer in hexadecimal, and the data line of a row. *)
Definition hexdigit (n : Z) : ascii :=
  nth (Z.to_nat n)
      ["0"; "1"; "2"; "3"; "4"; "5"; "6"; "7"; "8"; "9";
       "A"; "B"; "C"; "D"; "E"; "F"]%char "0"%char.

Fixpoint hex (bs : bytes) : string :=
  match bs with
  | [] => EmptyString
  | b :: bs' =>
      String (hexdigit (int_of_byte b / 16))
             (String (hexdigit (int_of_byte b mod 16)) (hex bs'))
  end.

Definition row_line (r : Z * bytes) : string :=
  String ":" (hex (to_le 4 (fst r) ++ snd r) ++ String "010" EmptyString).


(** The image after [n] calls of [getNextRow], whatever they returned. *)
Fixpoint reads (n : nat) (a : Application.t) : Application.t :=
  match n with
  | O => a
  | S n' => reads n' (snd (Application.getNextRow a))
  end.

(** The image once a data line has been read and counted. *)
Definition counted (a : Application.t) : Application.t :=
  Application.set_currRow (Application.currRow a + 1) (advance a).

(** A computation keeps a property of the state: the state it leaves has
    the property when the state it starts from has it, whether the
    computation returns or raises. *)
Definition keeps {S A : Type} (P : S -> Prop) (m : M S A) : Prop :=
  forall s, P s -> P (snd (m s)).

(** Every fragment written so far has between 1 and 20 bytes. *)
Definition small_writes (w : World) : Prop :=
  Forall (fun f => (0 < List.length f <= 20)%nat) (writes w).

(** *** Concrete instances, for the examples *)

(** CRC-32C (Castagnoli), bit by bit: an instance of [crc32cFunc]. *)
Definition crc32c_bit (c : Z) : Z :=
  if Z.testbit c 0 then Z.lxor (Z.shiftr c 1) 0x82F63B78 else Z.shiftr c 1.

Definition crc32c_byte (c : Z) (b : byte) : Z :=
  let c := Z.lxor c (int_of_byte b) in
  crc32c_bit (crc32c_bit (crc32c_bit (crc32c_bit
    (crc32c_bit (crc32c_bit (crc32c_bit (crc32c_bit c))))))).

Definition crc32c (data : bytes) : Z :=
  Z.lxor (fold_left crc32c_byte data 0xFFFFFFFF) 0xFFFFFFFF.

(** A reader of the literals [0x...]: an instance of [int0] on them. *)
Fixpoint hex_value (s : string) (acc : Z) : result Z :=
  match s with
  | EmptyString => Ok acc
  | String c s' =>
      match hexval c with
      | Some d => hex_value s' (16 * acc + d)
      | None => Raise ValueError
      end
  end.

Definition int0_hex (s : string) : result Z :=
  match s with
  | String "0" (String "x" (String c r)) => hex_value (String c r) 0
  | _ => Raise ValueError
  end.

Definition newline : string := String "010" EmptyString.

(** An image of three rows. *)
Definition sample_text : string :=
  ("01002107E221000104030201" ++ newline
   ++ "@APPINFO:0x10000000,0x2c" ++ newline
   ++ ":000000100102030405" ++ newline
   ++ ":080000100A0B0C" ++ newline
   ++ ":10000010FF" ++ newline)%string.

Definition sample_fs (path : string) : option string :=
  if String.eqb path "fw.cyacd2" then Some sample_text else None.

Definition no_image : Application.t :=
  Application.mkApp (Application.mkFile [] 0) 0 0 0 0 0 0 0 0 0 0.

Definition sample_app : Application.t :=
  Eval vm_compute in
    match Application.__init__ int0_hex sample_fs "fw.cyacd2" with
    | Ok a => a
    | Raise _ => no_image
    end.

(** An image whose second data line lacks the row marker. *)
Definition broken_text : string :=
  ("01002107E221000104030201" ++ newline
   ++ "@APPINFO:0x10000000,0x2c" ++ newline
   ++ ":000000100102030405" ++ newline
   ++ "080000100A0B0C" ++ newline
   ++ ":10000010FF" ++ newline)%string.

Definition broken_app : Application.t :=
  Eval vm_compute in
    match Application.__init__ int0_hex (fun _ => Some broken_text) "fw.cyacd2" with
    | Ok a => a
    | Raise _ => no_image
    end.

(** The same image once its first row has been read. *)
Definition broken_app_1 : Application.t :=
  Eval vm_compute in snd (Application.getNextRow broken_app).

(** And once the read of its second data line has failed. *)
Definition broken_app_2 : Application.t :=
  Eval vm_compute in snd (Application.getNextRow broken_app_1).

(** An image of three rows whose second data line holds an address and no
    data. *)
Definition hollow_text : string :=
  ("01002107E221000104030201" ++ newline
   ++ "@APPINFO:0x10000000,0x2c" ++ newline
   ++ ":000000100102030405" ++ newline
   ++ ":08000010" ++ newline
   ++ ":10000010FF" ++ newline)%string.

Definition hollow_app : Application.t :=
  Eval vm_compute in
    match Application.__init__ int0_hex (fun _ => Some hollow_text) "fw.cyacd2" with
    | Ok a => a
    | Raise _ => no_image
    end.

(** The same image once its first row has been read, and once its second
    has. *)
Definition hollow_app_1 : Application.t :=
  Eval vm_compute in snd (Application.getNextRow hollow_app).

Definition hollow_app_2 : Application.t :=
  Eval vm_compute in snd (Application.getNextRow hollow_app_1).

(** The acknowledgement: status 0x00 and no payload. *)
Definition ack : bytes := [x01; x00; x00; x00; xff; xff; x17].

(** * Properties *)

(** ** Bytes and little-endian fields *)

Lemma int_of_byte_range (b : byte) : 0 <= int_of_byte b < 256.
Proof.
  unfold int_of_byte. pose proof (Byte.to_N_bounded b). lia.
Qed.

Lemma byte_of_int_of_byte (b : byte) : byte_of_int (int_of_byte b) = b.
Proof.
  unfold byte_of_int. pose proof (int_of_byte_range b) as R.
  rewrite Z.mod_small by lia. unfold int_of_byte.
  rewrite N2Z.id, Byte.of_to_N. reflexivity.
Qed.

Lemma int_of_byte_of_int (z : Z) : int_of_byte (byte_of_int z) = z mod 256.
Proof.
  unfold byte_of_int, int_of_byte.
  pose proof (Z.mod_pos_bound z 256 ltac:(lia)) as R.
  destruct (Byte.of_N (Z.to_N (z mod 256))) as [b|] eqn:E.
  - apply Byte.to_of_N in E. rewrite E. lia.
  - apply Byte.of_N_None_iff in E. lia.
Qed.

Lemma byte_of_int_mod (z : Z) : byte_of_int (z mod 256) = byte_of_int z.
Proof.
  unfold byte_of_int. rewrite Z.mod_mod by lia. reflexivity.
Qed.

Lemma int_of_byte_inj (a b : byte) : int_of_byte a = int_of_byte b -> a = b.
Proof.
  intros H. rewrite <- (byte_of_int_of_byte a), <- (byte_of_int_of_byte b).
  now rewrite H.
Qed.

Lemma length_to_le (n : nat) (v : Z) : List.length (to_le n v) = n.
Proof. revert v. induction n; intros; simpl; auto. Qed.

Lemma from_le_to_le (n : nat) (v : Z) :
  0 <= v < 256 ^ Z.of_nat n -> from_le (to_le n v) = v.
Proof.
  revert v. induction n as [|n IH]; intros v Hv.
  - simpl in *. lia.
  - cbn [to_le from_le]. rewrite int_of_byte_of_int, Z.mod_mod by lia.
    rewrite IH.
    + pose proof (Z.div_mod v 256 ltac:(lia)). lia.
    + rewrite Nat2Z.inj_succ, Z.pow_succ_r in Hv by lia.
      split; [apply Z.div_pos; lia | apply Z.div_lt_upper_bound; lia].
Qed.

Lemma from_le_range (bs : bytes) : 0 <= from_le bs < 256 ^ Z.of_nat (List.length bs).
Proof.
  induction bs as [|b bs IH].
  - simpl. lia.
  - cbn [from_le List.length]. rewrite Nat2Z.inj_succ, Z.pow_succ_r by lia.
    pose proof (int_of_byte_range b). lia.
Qed.

Lemma to_le_from_le (bs : bytes) : to_le (List.length bs) (from_le bs) = bs.
Proof.
  induction bs as [|b bs IH]; [reflexivity|].
  cbn [from_le List.length to_le].
  pose proof (int_of_byte_range b) as R.
  replace ((int_of_byte b + 256 * from_le bs) mod 256) with (int_of_byte b).
  2:{ rewrite (Z.mul_comm 256), Z.mod_add by lia. now rewrite Z.mod_small. }
  replace ((int_of_byte b + 256 * from_le bs) / 256) with (from_le bs).
  2:{ rewrite (Z.mul_comm 256), Z.div_add by lia.
      rewrite (Z.div_small (int_of_byte b)) by lia. lia. }
  rewrite byte_of_int_of_byte, IH. reflexivity.
Qed.

Lemma fold_left_sum (data : bytes) (acc : Z) :
  fold_left (fun cs b => cs + int_of_byte b) data acc = acc + byte_sum data.
Proof.
  revert acc. induction data as [|b data IH]; intros acc; simpl.
  - lia.
  - rewrite IH. unfold byte_sum. simpl. lia.
Qed.

Lemma calcChecksum_mod (data : bytes) :
  DFUProtocol._calcChecksum_2sComplement_16bit data = (- byte_sum data) mod 65536.
Proof.
  unfold DFUProtocol._calcChecksum_2sComplement_16bit.
  rewrite fold_left_sum. change 0xFFFF with (Z.ones 16).
  rewrite Z.land_ones by lia. reflexivity.
Qed.

Lemma calcChecksum_range (data : bytes) :
  0 <= DFUProtocol._calcChecksum_2sComplement_16bit data < 65536.
Proof. rewrite calcChecksum_mod. apply Z.mod_pos_bound. lia. Qed.

Lemma byte_sum_app (a b : bytes) : byte_sum (a ++ b) = byte_sum a + byte_sum b.
Proof. induction a; simpl; unfold byte_sum in *; simpl; lia. Qed.

Lemma bytes_eqb_refl (a : bytes) : bytes_eqb a a = true.
Proof. unfold bytes_eqb. destruct (list_eq_dec _ a a); congruence. Qed.

Lemma bytes_eqb_eq (a b : bytes) : bytes_eqb a b = true <-> a = b.
Proof. unfold bytes_eqb. destruct (list_eq_dec _ a b); split; congruence. Qed.

Lemma pack_uint_ok (n : nat) (v : Z) :
  0 <= v < 256 ^ Z.of_nat n -> pack_uint n v = Ok (to_le n v).
Proof.
  intros H. unfold pack_uint.
  destruct (0 <=? v) eqn:A; destruct (v <? 256 ^ Z.of_nat n) eqn:B; simpl; auto; lia.
Qed.

Lemma pack_s_exact (v : bytes) : pack_s (List.length v) v = v.
Proof.
  unfold pack_s. rewrite firstn_all, Nat.sub_diag. simpl. apply app_nil_r.
Qed.


Lemma createCmdPacket_frame (c : byte) (payload : bytes) :
  Z.of_nat (List.length payload) <= 65535 ->
  DFUProtocol._createCmdPacket [c] payload = Ok (frame c payload).
Proof.
  intros H. unfold DFUProtocol._createCmdPacket, frame.
  cbn [List.length Nat.eqb negb pack_char DFUProtocol._START_OF_PACKET
       DFUProtocol._END_OF_PACKET bindR].
  rewrite pack_uint_ok by (change (256 ^ Z.of_nat 2) with 65536; lia).
  cbn [bindR]. rewrite pack_s_exact.
  rewrite pack_uint_ok
    by (change (256 ^ Z.of_nat 2) with 65536; apply calcChecksum_range).
  cbn [bindR]. reflexivity.
Qed.


Lemma firstn_length_app {A} (a b : list A) : firstn (List.length a) (a ++ b) = a.
Proof. induction a; simpl; [now destruct b | now f_equal]. Qed.

Lemma skipn_length_app {A} (a b : list A) : skipn (List.length a) (a ++ b) = b.
Proof. induction a; simpl; auto. Qed.

Lemma skipn_add_app {A} (a b : list A) (k : nat) :
  skipn (List.length a + k) (a ++ b) = skipn k b.
Proof. induction a; simpl; auto. Qed.

(** [_getResponse] on a buffer of at least four bytes, step by step. *)
Lemma getResponse_cons4 (s st l0 l1 : byte) (rest : bytes) :
  DFUProtocol._getResponse (s :: st :: l0 :: l1 :: rest) =
  let n := from_le [l0; l1] in
  if Z.of_nat (List.length rest) =? n + 3 then
    if negb (bytes_eqb [s] [x01])
       || negb (bytes_eqb (skipn (Z.to_nat n + 2) rest) [x17])
    then Raise DFUProtocol.malformed
    else if negb (DFUProtocol._calcChecksum_2sComplement_16bit
                    (slice_drop_last (s :: st :: l0 :: l1 :: rest) 3)
                  =? from_le (firstn 2 (skipn (Z.to_nat n) rest)))
    then Raise DFUProtocol.corrupted
    else Ok ([st], firstn (Z.to_nat n) rest)
  else Raise DFUProtocol.malformed.
Proof.
  unfold DFUProtocol._getResponse.
  change (slice (s :: st :: l0 :: l1 :: rest) 0 4) with [s; st; l0; l1].
  change (slice_from (s :: st :: l0 :: l1 :: rest) 4) with rest.
  change (unpack_exact 4 [s; st; l0; l1]) with (Ok [s; st; l0; l1]).
  cbn [bindR firstn skipn]. unfold unpack_exact.
  cbv zeta.
  destruct (Z.of_nat (List.length rest) =? from_le [l0; l1] + 3); reflexivity.
Qed.

Lemma getResponse_short (packet : bytes) :
  (List.length packet < 4)%nat ->
  DFUProtocol._getResponse packet = Raise DFUProtocol.malformed.
Proof.
  intros H. unfold DFUProtocol._getResponse.
  assert (E : unpack_exact 4 (slice packet 0 4) = Raise StructError).
  { unfold unpack_exact, slice.
    destruct packet as [|a [|b [|c [|d p]]]]; simpl in *; try reflexivity; lia. }
  rewrite E. reflexivity.
Qed.

Lemma getResponse_frame (c : byte) (payload : bytes) :
  Z.of_nat (List.length payload) <= 65535 ->
  DFUProtocol._getResponse (frame c payload) = Ok ([c], payload).
Proof.
  intros H. unfold frame.
  set (body := [x01; c] ++ to_le 2 (Z.of_nat (List.length payload)) ++ payload).
  set (cs := DFUProtocol._calcChecksum_2sComplement_16bit body).
  assert (Hn : from_le (to_le 2 (Z.of_nat (List.length payload)))
               = Z.of_nat (List.length payload))
    by (apply from_le_to_le; change (256 ^ Z.of_nat 2) with 65536; lia).
  assert (Hc : from_le (to_le 2 cs) = cs)
    by (apply from_le_to_le; change (256 ^ Z.of_nat 2) with 65536;
        apply calcChecksum_range).
  assert (Hdrop : slice_drop_last (body ++ to_le 2 cs ++ [x17]) 3 = body).
  { unfold slice_drop_last. rewrite length_app.
    replace (List.length body + List.length (to_le 2 cs ++ [x17]) - 3)%nat
      with (List.length body) by (simpl; lia).
    apply firstn_length_app. }
  assert (Hlen : (Z.of_nat (List.length (payload ++ to_le 2 cs ++ [x17]))
                  =? Z.of_nat (List.length payload) + 3) = true).
  { apply Z.eqb_eq. rewrite length_app. simpl. lia. }
  assert (Ecs : DFUProtocol._calcChecksum_2sComplement_16bit body = cs)
    by reflexivity.
  clearbody cs. revert Hdrop Ecs. subst body. cbn [to_le app]. intros Hdrop Ecs.
  rewrite getResponse_cons4. cbv zeta.
  change [byte_of_int (Z.of_nat (List.length payload) mod 256);
          byte_of_int ((Z.of_nat (List.length payload) / 256) mod 256)]
    with (to_le 2 (Z.of_nat (List.length payload))).
  change [byte_of_int (cs mod 256); byte_of_int ((cs / 256) mod 256); x17]
    with (to_le 2 cs ++ [x17]) in *.
  rewrite Hn, Hdrop, Nat2Z.id, Hlen.
  rewrite skipn_add_app, skipn_length_app, firstn_length_app.
  cbn [skipn firstn app to_le]. rewrite !bytes_eqb_refl. cbn [negb orb].
  change [byte_of_int (cs mod 256); byte_of_int ((cs / 256) mod 256)]
    with (to_le 2 cs).
  rewrite Hc, Ecs, Z.eqb_refl. reflexivity.
Qed.

Lemma skipn_single {A} (l : list A) (k : nat) (x : A) :
  List.length l = S k -> (skipn k l = [x] <-> nth_error l k = Some x).
Proof.
  revert k. induction l as [|a l IH]; intros k Hl; [discriminate|].
  destruct k as [|k].
  - destruct l; [|discriminate]. simpl. split; congruence.
  - simpl in *. apply IH. lia.
Qed.

Lemma nth_error_skip4 {A} (a b c d : A) (l : list A) (k : nat) :
  nth_error (a :: b :: c :: d :: l) (4 + k) = nth_error l k.
Proof. reflexivity. Qed.

(** The conditions of [valid_frame] on a buffer of four bytes or more. *)
Lemma valid_frame_cons4 (s st l0 l1 : byte) (rest : bytes) :
  valid_frame (s :: st :: l0 :: l1 :: rest) <->
  let n := from_le [l0; l1] in
  Z.of_nat (List.length rest) = n + 3
  /\ s = x01
  /\ skipn (Z.to_nat n + 2) rest = [x17]
  /\ DFUProtocol._calcChecksum_2sComplement_16bit
       (slice_drop_last (s :: st :: l0 :: l1 :: rest) 3)
     = from_le (firstn 2 (skipn (Z.to_nat n) rest)).
Proof.
  unfold valid_frame. cbv zeta.
  change (slice (s :: st :: l0 :: l1 :: rest) 2 4) with [l0; l1].
  cbn [List.length nth_error].
  pose proof (from_le_range [l0; l1]) as R. cbn [List.length] in R.
  rewrite calcChecksum_mod.
  split.
  - intros (Hs & He & Hl & Hc).
    assert (Hn : Z.of_nat (List.length rest) = from_le [l0; l1] + 3) by lia.
    assert (Hk : Z.to_nat (from_le [l0; l1]) = (List.length rest - 3)%nat) by lia.
    assert (H3 : (3 <= List.length rest)%nat) by lia.
    rewrite Hk. repeat split; try congruence; try lia.
    + replace (S (S (S (S (List.length rest)))) - 1)%nat
        with (4 + (List.length rest - 1))%nat in He by lia.
      rewrite nth_error_skip4 in He.
      replace (List.length rest - 3 + 2)%nat with (List.length rest - 1)%nat by lia.
      apply skipn_single; [lia | exact He].
    + rewrite <- Hc. f_equal. unfold slice.
      replace (S (S (S (S (List.length rest)))) - 3)%nat
        with (4 + (List.length rest - 3))%nat by lia.
      replace (S (S (S (S (List.length rest)))) - 1 - (4 + (List.length rest - 3)))%nat
        with 2%nat by lia.
      reflexivity.
  - intros (Hn & Hs & He & Hc).
    assert (Hk : Z.to_nat (from_le [l0; l1]) = (List.length rest - 3)%nat) by lia.
    assert (H3 : (3 <= List.length rest)%nat) by lia.
    rewrite Hk in *. repeat split; try congruence; try lia.
    + replace (S (S (S (S (List.length rest)))) - 1)%nat
        with (4 + (List.length rest - 1))%nat by lia.
      rewrite nth_error_skip4.
      replace (List.length rest - 3 + 2)%nat with (List.length rest - 1)%nat in He by lia.
      apply skipn_single in He; [exact He | lia].
    + rewrite Hc. f_equal. unfold slice.
      replace (S (S (S (S (List.length rest)))) - 3)%nat
        with (4 + (List.length rest - 3))%nat by lia.
      replace (S (S (S (S (List.length rest)))) - 1 - (4 + (List.length rest - 3)))%nat
        with 2%nat by lia.
      reflexivity.
Qed.

Lemma valid_frame_length (buf : bytes) :
  valid_frame buf -> (4 <= List.length buf)%nat.
Proof.
  intros (_ & _ & Hl & _).
  pose proof (from_le_range (slice buf 2 4)). lia.
Qed.

Lemma getResponse_valid (buf : bytes) :
  valid_frame buf ->
  DFUProtocol._getResponse buf
  = Ok (slice buf 1 2, slice buf 4 (List.length buf - 3)).
Proof.
  intros V. pose proof (valid_frame_length buf V) as L.
  destruct buf as [|s [|st [|l0 [|l1 rest]]]]; try (simpl in L; lia).
  apply valid_frame_cons4 in V. cbv zeta in V.
  destruct V as (Hn & Hs & He & Hc). subst s.
  rewrite getResponse_cons4. cbv zeta.
  rewrite (proj2 (Z.eqb_eq _ _) Hn), He, Hc, !bytes_eqb_refl, Z.eqb_refl.
  cbn [negb orb]. unfold slice. cbn [skipn firstn Nat.sub List.length].
  repeat f_equal. lia.
Qed.

Lemma getResponse_invalid (buf : bytes) :
  ~ valid_frame buf ->
  DFUProtocol._getResponse buf = Raise DFUProtocol.malformed
  \/ DFUProtocol._getResponse buf = Raise DFUProtocol.corrupted.
Proof.
  intros NV.
  destruct (Nat.lt_ge_cases (List.length buf) 4) as [L|L].
  { left. now apply getResponse_short. }
  destruct buf as [|s [|st [|l0 [|l1 rest]]]]; try (simpl in L; lia).
  rewrite valid_frame_cons4 in NV. cbv zeta in NV.
  rewrite getResponse_cons4. cbv zeta.
  destruct (Z.eqb_spec (Z.of_nat (List.length rest)) (from_le [l0; l1] + 3)) as [Hn|Hn];
    [|now left].
  destruct (bytes_eqb [s] [x01]) eqn:Es; [|now left].
  destruct (bytes_eqb (skipn (Z.to_nat (from_le [l0; l1]) + 2) rest) [x17]) eqn:Ee;
    [|now left].
  cbn [negb orb].
  destruct (Z.eqb_spec
              (DFUProtocol._calcChecksum_2sComplement_16bit
                 (slice_drop_last (s :: st :: l0 :: l1 :: rest) 3))
              (from_le (firstn 2 (skipn (Z.to_nat (from_le [l0; l1])) rest))))
    as [Hc|Hc]; [|now right].
  exfalso. apply NV. apply bytes_eqb_eq in Es, Ee.
  repeat split; try assumption. congruence.
Qed.

Lemma byte_sum_set_nth (l : bytes) (i : nat) (b b' : byte) :
  nth_error l i = Some b ->
  byte_sum (set_nth i b' l) = byte_sum l - int_of_byte b + int_of_byte b'.
Proof.
  intros H. unfold set_nth.
  rewrite <- (firstn_skipn_middle i l H) at 3.
  rewrite !byte_sum_app. unfold byte_sum. simpl. lia.
Qed.

Lemma set_nth_app_l {A} (a t : list A) (i : nat) (x : A) :
  (i < List.length a)%nat -> set_nth i x (a ++ t) = set_nth i x a ++ t.
Proof.
  intros H. unfold set_nth.
  rewrite firstn_app, skipn_app.
  replace (i - List.length a)%nat with 0%nat by lia.
  replace (S i - List.length a)%nat with 0%nat by lia.
  simpl. rewrite app_nil_r, <- app_assoc. reflexivity.
Qed.

Lemma length_set_nth {A} (l : list A) (i : nat) (x : A) :
  (i < List.length l)%nat -> List.length (set_nth i x l) = List.length l.
Proof.
  intros H. unfold set_nth. rewrite length_app. cbn [List.length].
  rewrite length_firstn, length_skipn. lia.
Qed.

(** A frame with one byte changed before its last three is not valid. *)
Lemma corrupted_frame_invalid (c : byte) (payload : bytes) (i : nat) (b b' : byte) :
  Z.of_nat (List.length payload) <= 65535 ->
  (i + 3 < List.length (frame c payload))%nat ->
  nth_error (frame c payload) i = Some b ->
  b' <> b ->
  ~ valid_frame (set_nth i b' (frame c payload)).
Proof.
  intros Hlen Hi Hb Hne (_ & _ & _ & Hc).
  unfold frame in *.
  set (body := [x01; c] ++ to_le 2 (Z.of_nat (List.length payload)) ++ payload) in *.
  set (cs := DFUProtocol._calcChecksum_2sComplement_16bit body) in *.
  assert (Lt : List.length (to_le 2 cs ++ [x17]) = 3%nat) by reflexivity.
  rewrite length_app, Lt in Hi.
  assert (Hib : (i < List.length body)%nat) by lia.
  rewrite set_nth_app_l in Hc by exact Hib.
  rewrite nth_error_app1 in Hb by exact Hib.
  set (body' := set_nth i b' body) in *.
  assert (Lb : List.length body' = List.length body)
    by (apply length_set_nth; exact Hib).
  rewrite length_app, Lt in Hc.
  assert (E1 : slice (body' ++ to_le 2 cs ++ [x17])
                     (List.length body' + 3 - 3) (List.length body' + 3 - 1)
               = to_le 2 cs).
  { unfold slice.
    replace (List.length body' + 3 - 3)%nat with (List.length body') by lia.
    replace (List.length body' + 3 - 1 - List.length body')%nat with 2%nat by lia.
    rewrite skipn_length_app. reflexivity. }
  assert (E2 : slice_drop_last (body' ++ to_le 2 cs ++ [x17]) 3 = body').
  { unfold slice_drop_last. rewrite length_app, Lt.
    replace (List.length body' + 3 - 3)%nat with (List.length body') by lia.
    apply firstn_length_app. }
  rewrite E1, E2 in Hc.
  rewrite from_le_to_le in Hc
    by (change (256 ^ Z.of_nat 2) with 65536; apply calcChecksum_range).
  unfold cs in Hc. rewrite calcChecksum_mod in Hc.
  unfold body' in Hc. rewrite (byte_sum_set_nth body i b b' Hb) in Hc.
  pose proof (int_of_byte_range b) as Rb.
  pose proof (int_of_byte_range b') as Rb'.
  assert (Hd : (int_of_byte b' - int_of_byte b) mod 65536 = 0).
  { replace (int_of_byte b' - int_of_byte b)
      with (- byte_sum body - - (byte_sum body - int_of_byte b + int_of_byte b'))
      by lia.
    rewrite Zminus_mod, Hc, Z.sub_diag. reflexivity. }
  apply Hne. apply int_of_byte_inj.
  apply Z.mod_divide in Hd; [|lia].
  destruct Hd as [k Hk]. lia.
Qed.

(** ** The packet codec *)

(** C1. For a one-byte command and a payload whose length fits in 16 bits,
    the packet is start 0x01, the command, the length on two bytes
    little-endian, the payload, the checksum on two bytes little-endian and
    end 0x17, the checksum being minus the sum of every byte from the start
    through the last payload byte, modulo 65536. *)
Theorem createCmdPacket_layout (cmd : byte) (payload : bytes) :
  Z.of_nat (List.length payload) <= 65535 ->
  let n := Z.of_nat (List.length payload) in
  let covered :=
    [x01; cmd; byte_of_int (n mod 256); byte_of_int (n / 256)] ++ payload in
  let checksum := (- byte_sum covered) mod 65536 in
  DFUProtocol._createCmdPacket [cmd] payload
  = Ok (covered
        ++ [byte_of_int (checksum mod 256); byte_of_int (checksum / 256)]
        ++ [x17]).
Proof.
  intros H n covered checksum.
  rewrite createCmdPacket_frame by exact H.
  unfold frame. rewrite calcChecksum_mod.
  cbn [to_le app]. fold n. rewrite !(byte_of_int_mod (_ / 256)).
  reflexivity.
Qed.

Lemma createCmdPacket_layout_witness :
  DFUProtocol._createCmdPacket [x38] [x78; x56; x34; x12]
  = Ok [x01; x38; x04; x00; x78; x56; x34; x12; xaf; xfe; x17].
Proof.
  exact (createCmdPacket_layout x38 [x78; x56; x34; x12] ltac:(simpl; lia)).
Defined.

(** C2. Decoding the packet made of a command and a payload of at most
    65535 bytes succeeds and returns the payload, with the command byte in
    the place of the status code; the status 0x00 is accepted. *)
Theorem getResponse_createCmdPacket (cmd : byte) (payload : bytes) :
  Z.of_nat (List.length payload) <= 65535 ->
  exists packet,
    DFUProtocol._createCmdPacket [cmd] payload = Ok packet
    /\ DFUProtocol._getResponse packet = Ok ([cmd], payload)
    /\ (cmd = x00 -> DFUProtocol._checkStatusCode [cmd] = Ok tt).
Proof.
  intros H. exists (frame cmd payload). repeat split.
  - now apply createCmdPacket_frame.
  - now apply getResponse_frame.
  - intros ->. reflexivity.
Qed.

Lemma getResponse_createCmdPacket_witness :
  exists packet,
    DFUProtocol._createCmdPacket [x00] [x0a; x0b] = Ok packet
    /\ DFUProtocol._getResponse packet = Ok ([x00], [x0a; x0b])
    /\ (x00 = x00 -> DFUProtocol._checkStatusCode [x00] = Ok tt).
Proof.
  exact (getResponse_createCmdPacket x00 [x0a; x0b] ltac:(simpl; lia)).
Defined.

(** C3. In an encoded packet, changing any byte before the last three to a
    different value makes the decoder raise its malformed-frame error
    ([HostError]).  The decoder accepts a buffer exactly when the start and
    end markers are in place, the declared length is the size of the buffer
    minus the seven bytes of framing, and the transmitted checksum is minus
    the sum of every byte but the last three, modulo 65536; it raises
    [HostError] on any other buffer. *)
Theorem getResponse_rejects_corruption
  (cmd : byte) (payload packet : bytes) (i : nat) (b b' : byte) :
  Z.of_nat (List.length payload) <= 65535 ->
  DFUProtocol._createCmdPacket [cmd] payload = Ok packet ->
  (i + 3 < List.length packet)%nat ->
  nth_error packet i = Some b ->
  b' <> b ->
  (exists msg,
     DFUProtocol._getResponse (set_nth i b' packet) = Raise (HostError msg))
  /\ (forall buf : bytes,
        (valid_frame buf ->
         DFUProtocol._getResponse buf
         = Ok (slice buf 1 2, slice buf 4 (List.length buf - 3)))
        /\ (~ valid_frame buf ->
            exists msg, DFUProtocol._getResponse buf = Raise (HostError msg))).
Proof.
  intros Hlen Hp Hi Hb Hne.
  rewrite createCmdPacket_frame in Hp by exact Hlen.
  injection Hp as <-.
  assert (R : forall buf, ~ valid_frame buf ->
              exists msg, DFUProtocol._getResponse buf = Raise (HostError msg)).
  { intros buf NV. destruct (getResponse_invalid buf NV) as [E|E];
      rewrite E; eexists; reflexivity. }
  split.
  - apply R. now apply corrupted_frame_invalid with (b := b).
  - intros buf. split; [apply getResponse_valid | apply R].
Qed.

Lemma getResponse_rejects_corruption_witness :
  exists msg,
    DFUProtocol._getResponse
      (set_nth 5 xff [x01; x38; x04; x00; x78; x56; x34; x12; xaf; xfe; x17])
    = Raise (HostError msg).
Proof.
  exact (proj1 (getResponse_rejects_corruption
                  x38 [x78; x56; x34; x12]
                  [x01; x38; x04; x00; x78; x56; x34; x12; xaf; xfe; x17]
                  5 x56 xff
                  ltac:(simpl; lia) ltac:(reflexivity) ltac:(simpl; lia)
                  ltac:(reflexivity) ltac:(discriminate))).
Defined.

(** ** The status codes *)

(** C4. The status 0x00 is success; the codes 0x02, 0x03, 0x04, 0x05, 0x08,
    0x0A, 0x0B and 0x0F raise the verify, length, data, command, checksum,
    row, row-access and unknown errors in that order; every other byte
    raises [UnexpectedError], which is none of the eight. *)
Theorem checkStatusCode_table :
  (forall b : byte,
     DFUProtocol._checkStatusCode [b] =
     match b with
     | x00 => Ok tt
     | x02 => Raise DFUErrorVerify
     | x03 => Raise DFUErrorLength
     | x04 => Raise DFUErrorData
     | x05 => Raise DFUErrorCmd
     | x08 => Raise DFUErrorChecksum
     | x0a => Raise DFUErrorRow
     | x0b => Raise DFUErrorRowAccess
     | x0f => Raise DFUErrorUnknown
     | _ => Raise (UnexpectedError
                     "The target responded with an undefined status code")
     end)
  /\ is_DFUError (UnexpectedError
                    "The target responded with an undefined status code")
     = false
  /\ map is_DFUError
         [DFUErrorVerify; DFUErrorLength; DFUErrorData; DFUErrorCmd;
          DFUErrorChecksum; DFUErrorRow; DFUErrorRowAccess; DFUErrorUnknown]
     = [true; true; true; true; true; true; true; true].
Proof.
  split; [|split; reflexivity].
  intros b. destruct b; vm_compute; reflexivity.
Qed.

(** ** Slicing a buffer into pieces *)

Lemma firstn_add_skipn {A} (l : list A) (a b : nat) :
  firstn (a + b) l = firstn a l ++ firstn b (skipn a l).
Proof.
  revert l. induction a as [|a IH]; intros l; [reflexivity|].
  destruct l as [|x l]; simpl.
  - now rewrite firstn_nil.
  - now rewrite IH.
Qed.

Lemma concat_pieces_upto (b : bytes) (m c : nat) :
  List.concat (map (fun k => firstn m (skipn (k * m) b)) (seq 0 c))
  = firstn (c * m) b.
Proof.
  induction c as [|c IH]; [reflexivity|].
  rewrite seq_S, map_app, List.concat_app, IH. cbn [map List.concat Nat.add].
  rewrite app_nil_r.
  replace (S c * m)%nat with (c * m + m)%nat by lia.
  now rewrite firstn_add_skipn.
Qed.

Lemma pieces_count (len m : nat) :
  (0 < m)%nat ->
  let c := Z.to_nat ((Z.of_nat len + Z.of_nat m - 1) / Z.of_nat m) in
  (len <= c * m)%nat /\ (0 < len -> (c - 1) * m < len)%nat.
Proof.
  intros Hm c.
  set (q := (Z.of_nat len + Z.of_nat m - 1) / Z.of_nat m) in *.
  assert (Hq : 0 <= q) by (apply Z.div_pos; lia).
  pose proof (Z.div_mod (Z.of_nat len + Z.of_nat m - 1) (Z.of_nat m) ltac:(lia)) as D.
  pose proof (Z.mod_pos_bound (Z.of_nat len + Z.of_nat m - 1) (Z.of_nat m) ltac:(lia)) as B.
  fold q in D.
  assert (Hc : Z.of_nat c = q) by (unfold c; lia).
  split.
  - apply Nat2Z.inj_le. rewrite Nat2Z.inj_mul, Hc. nia.
  - intros Hl. apply Nat2Z.inj_lt.
    assert (1 <= q).
    { destruct (Z.eq_dec q 0) as [E|E]; [|lia]. rewrite E in D. lia. }
    rewrite Nat2Z.inj_mul, Nat2Z.inj_sub, Hc by lia. simpl. nia.
Qed.

Lemma concat_pieces (b : bytes) (m : nat) :
  (0 < m)%nat -> List.concat (pieces b m) = b.
Proof.
  intros Hm. unfold pieces. rewrite concat_pieces_upto.
  apply firstn_all2. apply (pieces_count (List.length b) m Hm).
Qed.

Lemma pieces_length_bound (b : bytes) (m : nat) :
  (0 < m)%nat ->
  Forall (fun c => (0 < List.length c <= m)%nat) (pieces b m).
Proof.
  intros Hm. unfold pieces. apply Forall_forall. intros c Hc.
  apply in_map_iff in Hc. destruct Hc as (k & <- & Hk).
  apply in_seq in Hk. rewrite length_firstn, length_skipn.
  destruct (Nat.eq_dec (List.length b) 0) as [E|E].
  - rewrite E in Hk. simpl in Hk.
    rewrite Z.div_small in Hk by lia. simpl in Hk. lia.
  - pose proof (pieces_count (List.length b) m Hm) as [_ P]. cbv zeta in P.
    specialize (P ltac:(lia)).
    assert (k * m <= (Z.to_nat ((Z.of_nat (List.length b) + Z.of_nat m - 1)
                                / Z.of_nat m) - 1) * m)%nat
      by (apply Nat.mul_le_mono_r; lia).
    lia.
Qed.

Lemma pieces_nil (m : nat) : (0 < m)%nat -> pieces [] m = [].
Proof.
  intros Hm. unfold pieces. simpl. rewrite Z.div_small by lia. reflexivity.
Qed.


Lemma pieces_nonempty (b : bytes) (m : nat) :
  (0 < m)%nat -> b <> [] -> pieces b m <> [].
Proof.
  intros Hm Hb E. apply Hb. rewrite <- (concat_pieces b m Hm), E. reflexivity.
Qed.

Lemma chunked_pos (b : bytes) (n : Z) :
  0 < n -> chunked b n = Ok (pieces b (Z.to_nat n)).
Proof.
  intros Hn. unfold chunked, range0.
  destruct (Z.eqb_spec n 0) as [E|_]; [lia|].
  destruct (Z.ltb_spec n 0) as [E|_]; [lia|].
  cbn [bindR]. f_equal. unfold pieces. rewrite map_map, Z2Nat.id by lia.
  apply map_ext. intros k. unfold slice.
  replace (Z.to_nat (Z.of_nat k * n)) with (k * Z.to_nat n)%nat by nia.
  replace (Z.to_nat (Z.of_nat k * n + n) - k * Z.to_nat n)%nat
    with (Z.to_nat n) by nia.
  reflexivity.
Qed.

Lemma pieces_1300_512 (b : bytes) :
  List.length b = 1300%nat ->
  map (@List.length byte) (pieces b 512) = [512; 512; 276]%nat.
Proof.
  intros H. unfold pieces. rewrite H.
  change (Z.to_nat ((Z.of_nat 1300 + Z.of_nat 512 - 1) / Z.of_nat 512)) with 3%nat.
  cbn [seq map]. rewrite !length_firstn, !length_skipn, H.
  reflexivity.
Qed.

(** ** The host commands, on a peripheral that answers *)

Lemma for_each_char_write (ps : list bytes) (w : World) :
  for_each ps char_write w
  = (Ok tt,
     mkWorld (hasCmdChar w) (hasCCCD w) (charHandle w) (cccdReads w)
             (cccdWrites w) (writes w ++ ps) (inbox w)
             (delegate_handle w) (delegate_data w) (stdout w)).
Proof.
  revert w. induction ps as [|p ps IH]; intros w.
  - simpl. unfold ret. rewrite app_nil_r. now destruct w.
  - cbn [for_each]. unfold bind, char_write, modify. rewrite IH. simpl.
    now rewrite <- app_assoc.
Qed.

Lemma sendPacket_run (packet : bytes) (w : World) :
  DFUProtocol._sendPacket packet 20 w = (Ok tt, sent packet w).
Proof.
  unfold DFUProtocol._sendPacket, bind, lift.
  rewrite chunked_pos by lia. apply for_each_char_write.
Qed.

Lemma sendCommandGetResponse_ok
  (c : byte) (payload : bytes) (timeout : Z) (w : World)
  (reply resp : bytes) (rest : list (option (Z * bytes))) :
  Z.of_nat (List.length payload) <= 65535 ->
  inbox w = Some (charHandle w, reply) :: rest ->
  accepted reply resp ->
  DFUProtocol._sendCommandGetResponse [c] payload timeout w
  = (Ok resp, notified (sent (frame c payload) w)).
Proof.
  intros Hlen Hin Hacc.
  unfold DFUProtocol._sendCommandGetResponse, bind, lift.
  rewrite createCmdPacket_frame by exact Hlen.
  rewrite sendPacket_run.
  unfold DFUProtocol._waitForResponse, bind, waitForNotifications.
  unfold notified. cbn [sent inbox]. rewrite Hin.
  cbn [negb get delegate_handle charHandle]. unfold get, ret.
  cbn [delegate_handle charHandle]. rewrite Z.eqb_refl. cbn [negb].
  cbn [delegate_data]. rewrite Hacc.
  reflexivity.
Qed.

Lemma print_run (m : Msg) (w : World) : print m w = (Ok tt, printed [m] w).
Proof. reflexivity. Qed.

Lemma printed_printed (a b : list Msg) (w : World) :
  printed b (printed a w) = printed (a ++ b) w.
Proof. unfold printed. simpl. now rewrite app_assoc. Qed.

Lemma enterDFU_unpack_8 (a0 a1 a2 a3 a4 a5 a6 a7 : byte) :
  DFUProtocol.enterDFU_unpack [a0; a1; a2; a3; a4; a5; a6; a7]
  = Ok (from_le [a0; a1; a2; a3], from_le [a4], from_le [x00; a5; a6; a7]).
Proof. reflexivity. Qed.

Lemma enterDFU_unpack_other (resp : bytes) :
  List.length resp <> 8%nat ->
  DFUProtocol.enterDFU_unpack resp = Raise StructError.
Proof.
  intros H. unfold DFUProtocol.enterDFU_unpack, unpack_exact.
  assert (L : List.length (firstn 5 resp ++ [x00] ++ skipn 5 resp)
              = S (List.length resp)).
  { rewrite !length_app, length_firstn, length_skipn. cbn [List.length]. lia. }
  rewrite L. destruct (Z.eqb_spec (Z.of_nat (S (List.length resp))) 9); [lia|].
  reflexivity.
Qed.

Lemma enterDFU_run (productID : Z) (w : World) (reply resp : bytes)
  (rest : list (option (Z * bytes))) :
  0 <= productID < 2 ^ 32 ->
  inbox w = Some (charHandle w, reply) :: rest ->
  accepted reply resp ->
  DFUProtocol.enterDFU productID w =
  let w1 := notified (sent (frame x38 (to_le 4 productID)) w) in
  match DFUProtocol.enterDFU_unpack resp with
  | Ok (jtagID, deviceRev, dfuSdkVer) =>
      (Ok tt, printed [EnterDFUSuccessful; JtagID jtagID;
                       DeviceRevision deviceRev; DfuSdkVersion dfuSdkVer] w1)
  | Raise e => (Raise e, w1)
  end.
Proof.
  intros Hp Hin Hacc. unfold DFUProtocol.enterDFU.
  unfold bind at 1. unfold lift at 1.
  rewrite pack_uint_ok by (change (256 ^ Z.of_nat 4) with (2 ^ 32); exact Hp).
  unfold bind at 1. unfold DFUProtocol._CMD_ENTER_DFU.
  rewrite (sendCommandGetResponse_ok x38 (to_le 4 productID) 2 w reply resp rest)
    by (rewrite ?length_to_le; simpl; try lia; assumption).
  unfold bind at 1. unfold lift at 1. cbv zeta.
  destruct (DFUProtocol.enterDFU_unpack resp) as [[[j d] v]|e]; [|reflexivity].
  unfold bind. rewrite !print_run, !printed_printed. reflexivity.
Qed.

(** ** enterDFU *)

(** C5, as the code has it.  [enterDFU] sends the product identifier as a
    payload of four bytes, little-endian.  It accepts a response payload of
    exactly eight bytes: bytes 0 to 3 are the JTAG identifier, little-endian,
    byte 4 is the device revision, and bytes 5 to 7 are the three high-order
    bytes of the SDK version, a zero byte being inserted before them as the
    low-order byte.  A response payload of any other length, nine bytes
    included, is refused with [struct.error]. *)
Theorem enterDFU_fields (productID : Z) (w : World) (reply resp : bytes)
  (rest : list (option (Z * bytes))) :
  0 <= productID < 2 ^ 32 ->
  inbox w = Some (charHandle w, reply) :: rest ->
  accepted reply resp ->
  let request :=
    frame x38 [byte_of_int productID; byte_of_int (productID / 2 ^ 8);
               byte_of_int (productID / 2 ^ 16);
               byte_of_int (productID / 2 ^ 24)] in
  let w1 := notified (sent request w) in
  (forall a0 a1 a2 a3 a4 a5 a6 a7 : byte,
     resp = [a0; a1; a2; a3; a4; a5; a6; a7] ->
     DFUProtocol.enterDFU productID w
     = (Ok tt,
        printed
          [EnterDFUSuccessful;
           JtagID (int_of_byte a0 + 2 ^ 8 * int_of_byte a1
                   + 2 ^ 16 * int_of_byte a2 + 2 ^ 24 * int_of_byte a3);
           DeviceRevision (int_of_byte a4);
           DfuSdkVersion (2 ^ 8 * int_of_byte a5 + 2 ^ 16 * int_of_byte a6
                          + 2 ^ 24 * int_of_byte a7)]
          w1))
  /\ (List.length resp <> 8%nat ->
      DFUProtocol.enterDFU productID w = (Raise StructError, w1)).
Proof.
  intros Hp Hin Hacc request w1.
  assert (Er : request = frame x38 (to_le 4 productID)).
  { unfold request. f_equal. cbn [to_le].
    rewrite !byte_of_int_mod.
    rewrite !Z.div_div by lia. reflexivity. }
  pose proof (enterDFU_run productID w reply resp rest Hp Hin Hacc) as R.
  cbv zeta in R. unfold w1. rewrite Er. split.
  - intros a0 a1 a2 a3 a4 a5 a6 a7 ->. rewrite R, enterDFU_unpack_8.
    do 3 f_equal. cbn [from_le].
    change (int_of_byte x00) with 0.
    change (2 ^ 8) with 256. change (2 ^ 16) with 65536.
    change (2 ^ 24) with 16777216.
    f_equal; [f_equal | f_equal; [f_equal | f_equal; f_equal]]; lia.
  - intros Hl. rewrite R, enterDFU_unpack_other by exact Hl. reflexivity.
Qed.

Lemma enterDFU_fields_witness :
  fst (DFUProtocol.enterDFU 305419896
         (fresh_world
            [Some (14, frame x00 [x01; x02; x03; x04; x05; x06; x07; x08])]))
  = Ok tt.
Proof.
  rewrite (proj1 (enterDFU_fields 305419896
                    (fresh_world
                       [Some (14, frame x00 [x01; x02; x03; x04; x05; x06; x07; x08])])
                    (frame x00 [x01; x02; x03; x04; x05; x06; x07; x08])
                    [x01; x02; x03; x04; x05; x06; x07; x08] []
                    ltac:(lia) ltac:(reflexivity) ltac:(vm_compute; reflexivity))
                 x01 x02 x03 x04 x05 x06 x07 x08 eq_refl).
  reflexivity.
Defined.

(** C5 as stated fails: a response payload of nine bytes is not decoded
    into three fields, it is refused. *)
Lemma enterDFU_nine_bytes_refused :
  DFUProtocol.enterDFU_unpack [x01; x02; x03; x04; x05; x06; x07; x08; x09]
  <> Ok (from_le [x01; x02; x03; x04], from_le [x05],
         from_le [x06; x07; x08; x09])
  /\ DFUProtocol.enterDFU_unpack [x01; x02; x03; x04; x05; x06; x07; x08; x09]
     = Raise StructError
  /\ fst (DFUProtocol.enterDFU 0
            (fresh_world
               [Some (14, frame x00 [x01; x02; x03; x04; x05; x06; x07; x08; x09])]))
     = Raise StructError.
Proof.
  split; [|split].
  - vm_compute. discriminate.
  - vm_compute. reflexivity.
  - vm_compute. reflexivity.
Qed.

Lemma sendData_run (data : bytes) (w : World) (reply resp : bytes)
  (rest : list (option (Z * bytes))) :
  Z.of_nat (List.length data) <= 65535 ->
  inbox w = Some (charHandle w, reply) :: rest ->
  accepted reply resp ->
  DFUProtocol.sendData data w = (Ok tt, notified (sent (frame x37 data) w)).
Proof.
  intros Hl Hin Hacc. unfold DFUProtocol.sendData, bind.
  unfold DFUProtocol._CMD_SEND_DATA.
  rewrite (sendCommandGetResponse_ok x37 data 2 w reply resp rest Hl Hin Hacc).
  reflexivity.
Qed.

Lemma programData_run (rowAddr crc : Z) (data : bytes) (w : World)
  (reply resp : bytes) (rest : list (option (Z * bytes))) :
  0 <= rowAddr < 2 ^ 32 -> 0 <= crc < 2 ^ 32 ->
  Z.of_nat (List.length data) <= 65527 ->
  inbox w = Some (charHandle w, reply) :: rest ->
  accepted reply resp ->
  DFUProtocol.programData rowAddr crc data w
  = (Ok tt,
     notified (sent (frame x49 (to_le 4 rowAddr ++ to_le 4 crc ++ data)) w)).
Proof.
  intros Ha Hc Hl Hin Hacc.
  unfold DFUProtocol.programData, DFUProtocol.pack_II, bind, lift.
  rewrite !pack_uint_ok by (change (256 ^ Z.of_nat 4) with (2 ^ 32); assumption).
  cbn [bindR]. unfold DFUProtocol._CMD_PROGRAM_DATA.
  rewrite (sendCommandGetResponse_ok x49 _ 2 w reply resp rest).
  - rewrite <- app_assoc. reflexivity.
  - rewrite !length_app, !length_to_le. lia.
  - exact Hin.
  - exact Hacc.
Qed.


Lemma verifyApplication_run (appNum : Z) (w : World) (reply : bytes) (v : byte)
  (rest : list (option (Z * bytes))) :
  0 <= appNum < 2 ^ 8 ->
  inbox w = Some (charHandle w, reply) :: rest ->
  accepted reply [v] ->
  DFUProtocol.verifyApplication appNum w
  = (Ok (int_of_byte v), notified (sent (frame x31 (to_le 1 appNum)) w)).
Proof.
  intros Hn Hin Hacc.
  unfold DFUProtocol.verifyApplication, bind, lift.
  rewrite (pack_uint_ok 1) by (change (256 ^ Z.of_nat 1) with (2 ^ 8); assumption).
  unfold DFUProtocol._CMD_VERIFY_APPLICATION.
  rewrite (sendCommandGetResponse_ok x31 _ 2 w reply [v] rest).
  - unfold unpack_exact, ret. cbn [List.length Z.of_nat Z.eqb Pos.of_succ_nat Pos.eqb from_le].
    f_equal. f_equal. lia.
  - rewrite length_to_le. lia.
  - exact Hin.
  - exact Hacc.
Qed.

Lemma exitDFU_run (w : World) :
  DFUProtocol.exitDFU w = (Ok tt, sent (frame x3b []) w).
Proof.
  unfold DFUProtocol.exitDFU, bind, lift, DFUProtocol._CMD_EXIT_DFU.
  rewrite createCmdPacket_frame by (simpl; lia).
  apply sendPacket_run.
Qed.

Lemma init_run (w : World) :
  hasCmdChar w = true -> hasCCCD w = true -> cccdReads w = [x01; x00] ->
  DFUProtocol.__init__ w = (Ok tt, enabled w).
Proof.
  intros H1 H2 H3.
  unfold DFUProtocol.__init__, bind, get. rewrite H1, H2. cbn [negb].
  unfold DFUProtocol._enableNotifications, bind, cccd_write, modify.
  cbn [cccdReads]. unfold enabled. rewrite H3. reflexivity.
Qed.

(** ** Worlds *)

Lemma writes_notified (w : World) : writes (notified w) = writes w.
Proof. unfold notified. destruct (inbox w) as [|[[h d]|] r]; reflexivity. Qed.

Lemma charHandle_notified (w : World) : charHandle (notified w) = charHandle w.
Proof. unfold notified. destruct (inbox w) as [|[[h d]|] r]; reflexivity. Qed.

Lemma stdout_notified (w : World) : stdout (notified w) = stdout w.
Proof. unfold notified. destruct (inbox w) as [|[[h d]|] r]; reflexivity. Qed.

Lemma inbox_notified_sent (p : bytes) (w : World) (n : option (Z * bytes))
  (rest : list (option (Z * bytes))) :
  inbox w = n :: rest -> n <> None -> inbox (notified (sent p w)) = rest.
Proof.
  intros H Hn. unfold notified. cbn [sent inbox]. rewrite H.
  destruct n as [[h d]|]; [reflexivity | congruence].
Qed.

Lemma writes_exchanged (ps : list bytes) (w : World) :
  writes (exchanged ps w) = writes w ++ List.concat (map fragments ps).
Proof.
  unfold exchanged. revert w. induction ps as [|p ps IH]; intros w.
  - simpl. now rewrite app_nil_r.
  - cbn [fold_left map List.concat]. rewrite IH, writes_notified.
    cbn [sent writes]. now rewrite app_assoc.
Qed.

Lemma stdout_exchanged (ps : list bytes) (w : World) :
  stdout (exchanged ps w) = stdout w.
Proof.
  unfold exchanged. revert w. induction ps as [|p ps IH]; intros w;
    [reflexivity|].
  cbn [fold_left]. now rewrite IH, stdout_notified.
Qed.

Lemma charHandle_exchanged (ps : list bytes) (w : World) :
  charHandle (exchanged ps w) = charHandle w.
Proof.
  unfold exchanged. revert w. induction ps as [|p ps IH]; intros w;
    [reflexivity|].
  cbn [fold_left]. now rewrite IH, charHandle_notified.
Qed.

Lemma exchanged_app (ps qs : list bytes) (w : World) :
  exchanged (ps ++ qs) w = exchanged qs (exchanged ps w).
Proof. unfold exchanged. apply fold_left_app. Qed.

Lemma inbox_exchanged (ps : list bytes) (w : World) :
  acknowledges (charHandle w) (List.length ps) (inbox w) ->
  inbox (exchanged ps w) = skipn (List.length ps) (inbox w).
Proof.
  unfold exchanged. revert w. induction ps as [|p ps IH]; intros w A;
    [reflexivity|].
  cbn [fold_left List.length acknowledges] in *.
  destruct (inbox w) as [|[[h r]|] rest] eqn:E; try contradiction.
  destruct A as (-> & _ & A).
  rewrite IH.
  - rewrite (inbox_notified_sent p w _ rest E) by discriminate. reflexivity.
  - rewrite charHandle_notified.
    rewrite (inbox_notified_sent p w _ rest E) by discriminate. exact A.
Qed.

Lemma acknowledges_split (h : Z) (n k : nat) (box : list (option (Z * bytes))) :
  acknowledges h (n + k) box ->
  acknowledges h n box /\ acknowledges h k (skipn n box).
Proof.
  revert box. induction n as [|n IH]; intros box A.
  - split; [exact I | exact A].
  - cbn [Nat.add acknowledges] in *.
    destruct box as [|[[h' r]|] rest]; try contradiction.
    destruct A as (E & P & A). apply IH in A. destruct A as [A1 A2].
    repeat split; assumption.
Qed.

(** ** Sending a row *)

Lemma for_each_sendData (cs : list bytes) (w : World) :
  Forall (fun c => Z.of_nat (List.length c) <= 65535) cs ->
  acknowledges (charHandle w) (List.length cs) (inbox w) ->
  for_each cs DFUProtocol.sendData w
  = (Ok tt, exchanged (map (frame x37) cs) w).
Proof.
  revert w. induction cs as [|c cs IH]; intros w F A; [reflexivity|].
  cbn [for_each List.length acknowledges map] in *.
  destruct (inbox w) as [|[[h r]|] rest] eqn:E; try contradiction.
  destruct A as (-> & [pl P] & A).
  inversion F as [|? ? Fc Fcs]; subst.
  unfold bind. rewrite (sendData_run c w r pl rest Fc E P).
  rewrite IH.
  - reflexivity.
  - exact Fcs.
  - rewrite charHandle_notified.
    rewrite (inbox_notified_sent _ w _ rest E) by discriminate. exact A.
Qed.

Lemma last_item_last {A} (xs : list A) (d : A) :
  xs <> [] -> Target.last_item xs = Ok (last xs d).
Proof.
  induction xs as [|x xs IH]; intros H; [congruence|].
  destruct xs as [|y xs]; [reflexivity|].
  cbn [Target.last_item last]. apply IH. discriminate.
Qed.

Lemma length_removelast_S {A} (xs : list A) :
  xs <> [] -> List.length xs = (List.length (removelast xs) + 1)%nat.
Proof.
  intros H. destruct xs as [|x xs]; [congruence|].
  rewrite (app_removelast_last x H) at 1.
  rewrite length_app. reflexivity.
Qed.

Lemma send_row_run (crc32cFunc : bytes -> Z) (maxDataLength rowAddr : Z)
  (rowData : bytes) (s : Target.St) :
  0 < maxDataLength <= 65527 ->
  rowData <> [] ->
  0 <= rowAddr < 2 ^ 32 ->
  0 <= crc32cFunc rowData < 2 ^ 32 ->
  let chunks := pieces rowData (Z.to_nat maxDataLength) in
  acknowledges (charHandle (snd s)) (List.length chunks) (inbox (snd s)) ->
  Target.send_row crc32cFunc maxDataLength rowAddr rowData s
  = (Ok tt,
     (fst s,
      printed [SentDataRow (Application.currRow (fst s))
                           (Application.numRows (fst s))]
        (exchanged
           (map (frame x37) (removelast chunks)
            ++ [frame x49 (to_le 4 rowAddr ++ to_le 4 (crc32cFunc rowData)
                           ++ last chunks [])])
           (snd s)))).
Proof.
  intros Hm Hd Ha Hc chunks A. destruct s as [a w]. cbn [fst snd] in *.
  assert (Hm' : (0 < Z.to_nat maxDataLength)%nat) by lia.
  assert (Hne : chunks <> []) by (apply pieces_nonempty; assumption).
  pose proof (pieces_length_bound rowData _ Hm') as B. fold chunks in B.
  rewrite (length_removelast_S chunks Hne) in A.
  apply acknowledges_split in A. destruct A as [A1 A2].
  assert (Brl : Forall (fun c => Z.of_nat (List.length c) <= 65535)
                       (removelast chunks)).
  { apply Forall_forall. intros c Hc'.
    rewrite Forall_forall in B.
    assert (In c chunks).
    { rewrite (app_removelast_last [] Hne). apply in_or_app. now left. }
    specialize (B c H). lia. }
  assert (Bl : Z.of_nat (List.length (last chunks [])) <= 65527).
  { rewrite Forall_forall in B.
    assert (In (last chunks []) chunks).
    { rewrite (app_removelast_last [] Hne) at 2. apply in_or_app. right.
      now left. }
    specialize (B _ H). lia. }
  unfold Target.send_row. cbv zeta.
  unfold bind at 1. unfold lift at 1.
  rewrite chunked_pos by lia. fold chunks.
  unfold bind at 1. unfold Target.on_world at 1. cbn [fst snd].
  rewrite (for_each_sendData _ w Brl A1).
  unfold bind at 1. unfold lift at 1.
  rewrite (last_item_last chunks [] Hne).
  set (w1 := exchanged (map (frame x37) (removelast chunks)) w).
  assert (Hh : charHandle w1 = charHandle w) by apply charHandle_exchanged.
  assert (Hi : inbox w1 = skipn (List.length (removelast chunks)) (inbox w)).
  { unfold w1. rewrite <- (length_map (frame x37)).
    apply inbox_exchanged. now rewrite length_map. }
  cbn [acknowledges] in A2. rewrite <- Hi in A2.
  destruct (inbox w1) as [|[[h r]|] rest] eqn:E; try contradiction.
  destruct A2 as (-> & [pl P] & _).
  unfold bind at 1. unfold Target.on_world at 1. cbn [fst snd].
  rewrite <- Hh in E.
  rewrite (programData_run rowAddr (crc32cFunc rowData) (last chunks []) w1
             r pl rest Ha Hc Bl E P).
  unfold bind, get, Target.on_world. cbn [fst snd]. rewrite print_run.
  rewrite exchanged_app. reflexivity.
Qed.

(** C8. For a row, the CRC-32C is computed on the whole row data and the
    data is then cut into chunks of at most [maxDataLength] bytes; every
    chunk but the last goes out with [sendData] (0x37) and the last one with
    [programData] (0x49), after the row address and that checksum.  A row of
    1300 bytes and [maxDataLength] 512 give the chunks of 512, 512 and 276
    bytes.  Here the row has data, [maxDataLength] is positive and leaves
    room for the eight bytes of address and checksum in a payload of at most
    65535 bytes, and the target acknowledges each command. *)
Theorem send_row_chunks (crc32cFunc : bytes -> Z) (maxDataLength rowAddr : Z)
  (rowData : bytes) (s : Target.St) :
  0 < maxDataLength <= 65527 ->
  rowData <> [] ->
  0 <= rowAddr < 2 ^ 32 ->
  0 <= crc32cFunc rowData < 2 ^ 32 ->
  let chunks := pieces rowData (Z.to_nat maxDataLength) in
  acknowledges (charHandle (snd s)) (List.length chunks) (inbox (snd s)) ->
  let packets :=
    map (frame x37) (removelast chunks)
    ++ [frame x49 (to_le 4 rowAddr ++ to_le 4 (crc32cFunc rowData)
                   ++ last chunks [])] in
  chunked rowData maxDataLength = Ok chunks
  /\ List.concat chunks = rowData
  /\ Forall (fun c => 0 < Z.of_nat (List.length c) <= maxDataLength) chunks
  /\ Target.send_row crc32cFunc maxDataLength rowAddr rowData s
     = (Ok tt,
        (fst s,
         printed [SentDataRow (Application.currRow (fst s))
                              (Application.numRows (fst s))]
                 (exchanged packets (snd s))))
  /\ writes (exchanged packets (snd s))
     = writes (snd s) ++ List.concat (map fragments packets)
  /\ (List.length rowData = 1300%nat -> maxDataLength = 512 ->
      map (@List.length byte) chunks = [512; 512; 276]%nat).
Proof.
  intros Hm Hd Ha Hc chunks A packets.
  assert (Hm' : (0 < Z.to_nat maxDataLength)%nat) by lia.
  split; [apply chunked_pos; lia|].
  split; [apply concat_pieces; exact Hm'|].
  split.
  { pose proof (pieces_length_bound rowData _ Hm') as B.
    eapply Forall_impl; [|exact B]. cbv beta. intros c Hcl. lia. }
  split; [apply send_row_run; assumption|].
  split; [apply writes_exchanged|].
  intros Hl ->. apply pieces_1300_512. exact Hl.
Qed.

Lemma send_row_chunks_witness :
  fst (Target.send_row crc32c 512 268435456 (repeat xab 1300)
         (sample_app, fresh_world [Some (14, ack); Some (14, ack); Some (14, ack)]))
  = Ok tt.
Proof.
  pose proof (send_row_chunks crc32c 512 268435456 (repeat xab 1300)
                (sample_app,
                 fresh_world [Some (14, ack); Some (14, ack); Some (14, ack)])
                ltac:(lia)
                ltac:(vm_compute; discriminate)
                ltac:(lia)
                ltac:(split; [apply Z.leb_le | apply Z.ltb_lt];
                      vm_compute; reflexivity)
                ltac:(vm_compute;
                      repeat split; exists []; vm_compute; reflexivity))
    as (_ & _ & _ & R & _).
  rewrite R. reflexivity.
Defined.

(** C8 as stated fails for a row without data.  The data line [:08000010]
    is a row: [getNextRow] returns its address with no data.  Such a row has no last chunk, so [rowData[-1]] raises
    [IndexError]: neither [sendData] nor [programData] is sent for it, and
    the target's acknowledgement is left unread. *)
Example send_row_address_only :
  Application.getNextRow hollow_app_1 = (Ok (268435464, []), hollow_app_2)
  /\ Target.send_row crc32c 512 268435464 []
       (hollow_app_2, fresh_world [Some (14, ack)])
     = (Raise IndexError, (hollow_app_2, fresh_world [Some (14, ack)])).
Proof. split; vm_compute; reflexivity. Qed.

(** ** The image parser *)

Lemma skipn_cons_inv {A} (l : list A) (n : nat) (x : A) (rest : list A) :
  skipn n l = x :: rest -> nth_error l n = Some x /\ skipn (S n) l = rest.
Proof.
  revert l. induction n as [|n IH]; intros l H.
  - destruct l; simpl in *; [discriminate|]. now inversion H.
  - destruct l as [|y l]; [discriminate|]. simpl in H. now apply IH.
Qed.

Lemma skipn_nil_inv {A} (l : list A) (n : nat) :
  skipn n l = [] -> nth_error l n = None.
Proof.
  revert l. induction n as [|n IH]; intros l H.
  - destruct l; [reflexivity | discriminate].
  - destruct l as [|y l]; [reflexivity|]. simpl in *. now apply IH.
Qed.

Lemma next_line_some (a : Application.t) (l : string) (rest : list string) :
  unread a = l :: rest -> Application.next_line a = (Ok l, advance a).
Proof.
  intros H. apply skipn_cons_inv in H. destruct H as [H _].
  unfold Application.next_line. rewrite H. reflexivity.
Qed.

Lemma next_line_none (a : Application.t) :
  unread a = [] -> Application.next_line a = (Raise StopIteration, a).
Proof.
  intros H. apply skipn_nil_inv in H.
  unfold Application.next_line. rewrite H. reflexivity.
Qed.

Lemma unread_advance (a : Application.t) (l : string) (rest : list string) :
  unread a = l :: rest -> unread (advance a) = rest.
Proof.
  intros H. apply skipn_cons_inv in H. destruct H as [_ H]. exact H.
Qed.

Lemma getNextRow_data (a : Application.t) (l : string) (rest : list string)
  (r : Z * bytes) :
  unread a = l :: rest -> data_line l r ->
  Application.getNextRow a
  = (Ok r, Application.set_currRow (Application.currRow a + 1) (advance a)).
Proof.
  intros H (body & -> & R).
  unfold Application.getNextRow, bind. rewrite (next_line_some a _ rest H).
  unfold lift at 1. cbn [Ascii.eqb Bool.eqb negb andb].
  unfold modify, lift. rewrite R. reflexivity.
Qed.

Lemma getNextRow_eof (a : Application.t) :
  unread a = [] ->
  Application.getNextRow a = (Raise StopIteration, a).
Proof.
  intros H. unfold Application.getNextRow, bind.
  now rewrite (next_line_none a H).
Qed.

Lemma getNextRow_malformed (a : Application.t) (c : ascii) (body : string)
  (rest : list string) :
  unread a = String c body :: rest -> c <> ":"%char ->
  Application.getNextRow a
  = (Raise (InvalidApplicationFile "Malformed data row"), advance a).
Proof.
  intros H Hc. unfold Application.getNextRow, bind.
  rewrite (next_line_some a _ rest H). unfold lift.
  destruct (Ascii.eqb_spec c ":"); [contradiction|]. reflexivity.
Qed.

Lemma getNextRow_advances (a a' : Application.t) (r : Z * bytes) :
  Application.getNextRow a = (Ok r, a') ->
  Application.currRow a' = Application.currRow a + 1
  /\ Application.pos (Application._app a')
     = S (Application.pos (Application._app a)).
Proof.
  unfold Application.getNextRow, bind, Application.next_line.
  destruct (nth_error _ _) as [l|]; [|discriminate].
  unfold lift at 1. destruct l as [|c body]; [discriminate|].
  destruct (negb (Ascii.eqb c ":")); [discriminate|].
  unfold modify, lift.
  destruct (Application.row_of_line _); [|discriminate].
  intros H. inversion H; subst. split; reflexivity.
Qed.

Lemma read_rows_image (rows : list (Z * bytes)) (a : Application.t) :
  image_rows a rows ->
  exists a',
    read_rows (List.length rows) a = (Ok rows, a')
    /\ Application.currRow a'
       = Application.currRow a + Z.of_nat (List.length rows)
    /\ Application.numRows a' = Application.numRows a
    /\ unread a' = [].
Proof.
  unfold image_rows. revert a.
  induction rows as [|r rows IH]; intros a H.
  - inversion H as [E|]. exists a. repeat split; try reflexivity.
    + simpl. lia.
    + now symmetry.
  - inversion H as [|l r' ls rs D F E1 E2]; subst.
    symmetry in E1.
    set (a1 := Application.set_currRow (Application.currRow a + 1) (advance a)).
    assert (U : unread a1 = ls) by (apply (unread_advance a l ls E1)).
    destruct (IH a1) as (a' & R & C & N & U').
    { rewrite U. exact F. }
    exists a'. cbn [read_rows List.length]. unfold bind.
    rewrite (getNextRow_data a l ls r E1 D). fold a1. rewrite R.
    repeat split; try assumption.
    + rewrite C. unfold a1. simpl. lia.
Qed.

Lemma file_lines_nonempty (text : string) :
  Forall (fun l => l <> EmptyString) (file_lines text).
Proof.
  induction text as [|c s IH]; [constructor|].
  cbn [file_lines]. destruct (Ascii.eqb c "010").
  - constructor; [discriminate | exact IH].
  - destruct (file_lines s) as [|l ls].
    + constructor; [discriminate | constructor].
    + inversion IH; subst. constructor; [discriminate | assumption].
Qed.

Lemma count_lines_all (ls : list string) (n : Z) :
  Forall (fun l => l <> EmptyString) ls ->
  Application.count_lines ls n = n + Z.of_nat (List.length ls).
Proof.
  revert n. induction ls as [|l ls IH]; intros n F.
  - simpl. lia.
  - inversion F; subst. cbn [Application.count_lines List.length].
    destruct l as [|c l]; [congruence|].
    rewrite IH by assumption. lia.
Qed.

(** What a successful [getHeader] or [getAppInfo] does to the cursor. *)
Lemma getHeader_ok (a a' : Application.t) :
  Application.getHeader a = (Ok tt, a') ->
  Application._app a' = Application._app (advance a)
  /\ Application.numRows a' = Application.numRows a
  /\ (Application.pos (Application._app a)
      < List.length (Application.lines (Application._app a)))%nat.
Proof.
  unfold Application.getHeader, bind, Application.next_line.
  destruct (nth_error _ _) as [l|] eqn:E; [|discriminate].
  assert (L : (Application.pos (Application._app a)
               < List.length (Application.lines (Application._app a)))%nat).
  { apply nth_error_Some. congruence. }
  unfold lift. destruct (fromhex (strip l)) as [h|]; [|discriminate].
  destruct (negb _); [discriminate|].
  unfold modify. intros H. inversion H; subst. repeat split. exact L.
Qed.

Lemma getAppInfo_ok (int0 : string -> result Z) (a a' : Application.t) :
  Application.getAppInfo int0 a = (Ok tt, a') ->
  Application._app a' = Application._app (advance a)
  /\ Application.numRows a' = Application.numRows a
  /\ (Application.pos (Application._app a)
      < List.length (Application.lines (Application._app a)))%nat.
Proof.
  unfold Application.getAppInfo, bind, Application.next_line.
  destruct (nth_error _ _) as [l|] eqn:E; [|discriminate].
  assert (L : (Application.pos (Application._app a)
               < List.length (Application.lines (Application._app a)))%nat).
  { apply nth_error_Some. congruence. }
  destruct (negb _); [discriminate|].
  unfold lift.
  destruct (nth_error (split ":" (strip l)) 1); [|discriminate].
  destruct (match split "," s with
            | [a; b] => Ok (a, b)
            | _ => Raise ValueError
            end) as [[x y]|]; [|discriminate].
  cbn [fst snd].
  destruct (int0 x); [|discriminate]. destruct (int0 y); [|discriminate].
  unfold modify. intros H. inversion H; subst. repeat split. exact L.
Qed.

Lemma init_ok (int0 : string -> result Z) (fs : string -> option string)
  (path : string) (a : Application.t) :
  Application.__init__ int0 fs path = Ok a ->
  Application.pos (Application._app a) = 2%nat
  /\ Application.currRow a = 0
  /\ Application.numRows a
     = Z.of_nat (List.length (Application.lines (Application._app a))) - 2
  /\ (2 <= List.length (Application.lines (Application._app a)))%nat.
Proof.
  unfold Application.__init__.
  destruct (negb (endswith path ".cyacd2")); [discriminate|].
  destruct (fs path) as [text|]; [|discriminate].
  set (a0 := Application.mkApp (Application.mkFile (file_lines text) 0)
                               0 0 0 0 0 0 0 0 0 0).
  unfold bind at 1. unfold get at 1.
  unfold bind at 1. unfold modify at 1.
  set (a1 := Application.set_numRows (Application._getNumLines a0) a0).
  unfold bind at 1.
  destruct (Application.getHeader a1) as [[[]|e] a2] eqn:EH; [|discriminate].
  unfold bind at 1. unfold modify at 1.
  set (a3 := Application.set_numRows (Application.numRows a2 - 1) a2).
  unfold bind at 1.
  destruct (Application.getAppInfo int0 a3) as [[[]|e] a4] eqn:EA; [|discriminate].
  unfold bind at 1. unfold modify at 1. unfold modify.
  intros H. inversion H; subst a. clear H.
  apply getHeader_ok in EH. destruct EH as (F2 & N2 & L2).
  apply getAppInfo_ok in EA. destruct EA as (F4 & N4 & L4).
  assert (F3 : Application._app a3 = Application._app a2) by reflexivity.
  assert (N3 : Application.numRows a3 = Application.numRows a2 - 1) by reflexivity.
  assert (N1 : Application.numRows a1 = Z.of_nat (List.length (file_lines text))).
  { unfold a1, Application._getNumLines. cbn.
    rewrite count_lines_all by apply file_lines_nonempty. lia. }
  cbn [Application.set_currRow Application.set_numRows Application._app
       Application.numRows Application.currRow].
  rewrite F4. unfold advance at 1 2 3.
  cbn [Application.set_file Application._app Application.pos Application.lines].
  rewrite F3, F2. unfold advance.
  cbn [Application.set_file Application._app Application.pos Application.lines].
  rewrite N4, N3, N2, N1.
  unfold advance in F2, F4. rewrite F3, F2 in L4.
  cbn [Application.set_file Application._app Application.pos Application.lines
       a1 a0 Application.set_numRows] in *.
  repeat split; lia.
Qed.

(** *** Hexadecimal text *)

Lemma fromhex_hex_byte (b : byte) (s : string) :
  fromhex (String (hexdigit (int_of_byte b / 16))
                  (String (hexdigit (int_of_byte b mod 16)) s))
  = bindR (fromhex s) (fun rest => Ok (b :: rest)).
Proof. destruct b; reflexivity. Qed.

Lemma fromhex_hex (bs : bytes) : fromhex (hex bs) = Ok bs.
Proof.
  induction bs as [|b bs IH]; [reflexivity|].
  cbn [hex]. rewrite fromhex_hex_byte, IH. reflexivity.
Qed.

Lemma hexdigit_not_space (b : byte) :
  isspace (hexdigit (int_of_byte b / 16)) = false
  /\ isspace (hexdigit (int_of_byte b mod 16)) = false.
Proof. destruct b; split; reflexivity. Qed.

Lemma rstrip_cons (c : ascii) (s : string) :
  isspace c = false -> rstrip (String c s) = String c (rstrip s).
Proof.
  intros H. cbn [rstrip]. rewrite H. now destruct (rstrip s).
Qed.

Lemma rstrip_hex_newline (bs : bytes) :
  rstrip (hex bs ++ String "010" EmptyString) = hex bs.
Proof.
  induction bs as [|b bs IH]; [reflexivity|].
  cbn [hex String.append].
  destruct (hexdigit_not_space b) as [H1 H2].
  rewrite !rstrip_cons by assumption. now rewrite IH.
Qed.

Lemma strip_hex_newline (bs : bytes) :
  strip (hex bs ++ String "010" EmptyString) = hex bs.
Proof.
  unfold strip. destruct bs as [|b bs]; [reflexivity|].
  cbn [hex String.append lstrip].
  destruct (hexdigit_not_space b) as [H1 _]. rewrite H1.
  apply (rstrip_hex_newline (b :: bs)).
Qed.

(** *** The row of a data line *)

Lemma row_of_line_marker (body : string) :
  Application.row_of_line (String ":" body) =
  match fromhex (strip body) with
  | Ok bs =>
      if Z.of_nat (List.length bs) - 4 <? 0 then Raise StructError
      else Ok (from_le (firstn 4 bs), skipn 4 bs)
  | Raise e => Raise e
  end.
Proof.
  unfold Application.row_of_line.
  change (split1 ":" (String ":" body)) with [EmptyString; body].
  cbn [bindR]. destruct (fromhex (strip body)) as [bs|e]; [|reflexivity].
  cbn [bindR]. destruct (Z.of_nat (List.length bs) - 4 <? 0); [reflexivity|].
  unfold unpack_exact.
  replace (Z.of_nat (List.length bs) =? 4 + (Z.of_nat (List.length bs) - 4))
    with true by (symmetry; apply Z.eqb_eq; lia).
  reflexivity.
Qed.

Lemma row_of_line_iff (body : string) (addr : Z) (data : bytes) :
  Application.row_of_line (String ":" body) = Ok (addr, data)
  <-> exists bs,
        fromhex (strip body) = Ok bs
        /\ (4 <= List.length bs)%nat
        /\ addr = from_le (firstn 4 bs)
        /\ data = skipn 4 bs.
Proof.
  rewrite row_of_line_marker. split.
  - destruct (fromhex (strip body)) as [bs|e]; [|discriminate].
    destruct (Z.ltb_spec (Z.of_nat (List.length bs) - 4) 0) as [L|L];
      [discriminate|].
    intros E. inversion E; subst. exists bs. repeat split. lia.
  - intros (bs & -> & L & -> & ->).
    destruct (Z.ltb_spec (Z.of_nat (List.length bs) - 4) 0); [lia|].
    reflexivity.
Qed.

Lemma row_line_data_line (addr : Z) (data : bytes) :
  0 <= addr < 2 ^ 32 -> data_line (row_line (addr, data)) (addr, data).
Proof.
  intros H. unfold data_line, row_line. cbn [fst snd].
  eexists. split; [reflexivity|].
  apply row_of_line_iff. exists (to_le 4 addr ++ data).
  split; [|split; [|split]].
  - rewrite strip_hex_newline. apply fromhex_hex.
  - rewrite length_app, length_to_le. lia.
  - change 4%nat with (List.length (to_le 4 addr)) at 1.
    rewrite firstn_length_app. symmetry. apply from_le_to_le. exact H.
  - change 4%nat with (List.length (to_le 4 addr)) at 1.
    now rewrite skipn_length_app.
Qed.

(** C6, as the code has it.  After a successful open, if the lines that
    follow the two metadata lines are data lines, then [numRows] is their
    number, reading [numRows] rows returns their rows in file order, the row
    counter goes from 0 to [numRows], and one more read raises
    [StopIteration].  Every read that succeeds adds one to the row counter
    and moves one line forward.  The row of a data line is obtained from the
    text after the marker: its hexadecimal decoding has at least four
    bytes, the first four are the address, little-endian, and the others
    are the data; so the line written for a row decodes to that row.  The
    line [:0000100008AB] yields the address 0x00100000 and the data 08 AB. *)
Theorem getNextRow_rows (int0 : string -> result Z)
  (fs : string -> option string) (path : string) (a : Application.t)
  (rows : list (Z * bytes)) :
  Application.__init__ int0 fs path = Ok a ->
  image_rows a rows ->
  Application.numRows a = Z.of_nat (List.length rows)
  /\ Application.currRow a = 0
  /\ (exists a',
        read_rows (List.length rows) a = (Ok rows, a')
        /\ Application.currRow a' = Application.numRows a
        /\ Application.getNextRow a' = (Raise StopIteration, a'))
  /\ (forall b b' r,
        Application.getNextRow b = (Ok r, b') ->
        Application.currRow b' = Application.currRow b + 1
        /\ Application.pos (Application._app b')
           = S (Application.pos (Application._app b)))
  /\ (forall body addr data,
        Application.row_of_line (String ":" body) = Ok (addr, data)
        <-> exists bs,
              fromhex (strip body) = Ok bs
              /\ (4 <= List.length bs)%nat
              /\ addr = from_le (firstn 4 bs)
              /\ data = skipn 4 bs)
  /\ (forall addr data,
        0 <= addr < 2 ^ 32 -> data_line (row_line (addr, data)) (addr, data))
  /\ Application.row_of_line ":0000100008AB" = Ok (0x00100000, [x08; xab]).
Proof.
  intros Hinit Hrows.
  destruct (init_ok int0 fs path a Hinit) as (P & C & N & L).
  assert (Hn : Application.numRows a = Z.of_nat (List.length rows)).
  { pose proof (Forall2_length Hrows) as E. unfold unread in E.
    rewrite length_skipn, P in E. lia. }
  split; [exact Hn|]. split; [exact C|]. split.
  { destruct (read_rows_image rows a Hrows) as (a' & R & C' & N' & U).
    exists a'. split; [exact R|]. split; [lia|].
    now apply getNextRow_eof. }
  split; [intros b b' r; apply getNextRow_advances|].
  split; [exact row_of_line_iff|].
  split; [exact row_line_data_line|].
  reflexivity.
Qed.

Lemma getNextRow_rows_witness :
  exists a',
    read_rows 3 sample_app
    = (Ok [(268435456, [x01; x02; x03; x04; x05]);
           (268435464, [x0a; x0b; x0c]);
           (268435472, [xff])], a')
    /\ Application.currRow a' = 3
    /\ Application.getNextRow a' = (Raise StopIteration, a').
Proof.
  exact (proj1 (proj2 (proj2
    (getNextRow_rows int0_hex sample_fs "fw.cyacd2" sample_app
       [(268435456, [x01; x02; x03; x04; x05]);
        (268435464, [x0a; x0b; x0c]);
        (268435472, [xff])]
       ltac:(vm_compute; reflexivity)
       ltac:(repeat constructor; eexists; split; vm_compute; reflexivity))))).
Defined.

(** C6 as stated fails on its example: the address of the line
    [:0000100008AB] is 0x00100000, not 0x00001000. *)
Lemma getNextRow_example_address :
  Application.row_of_line ":0000100008AB" <> Ok (0x00001000, [x08; xab])
  /\ fst (Application.getNextRow
            (Application.mkApp
               (Application.mkFile [":0000100008AB"%string] 0)
               1 0 0 0 0 0 0 0 0 0))
     = Ok (0x00100000, [x08; xab]).
Proof.
  split.
  - vm_compute. discriminate.
  - vm_compute. reflexivity.
Qed.




(** ** The update sequence *)

Lemma row_loop_break (crc32cFunc : bytes -> Z) (fuel : nat)
  (maxDataLength : Z) (s s' : Target.St) (e : exn) :
  Target.on_app Application.getNextRow s = (Raise e, s') ->
  Target.row_loop crc32cFunc (S fuel) maxDataLength s = (Ok (Some tt), s').
Proof. intros H. cbn [Target.row_loop]. rewrite H. reflexivity. Qed.

Lemma row_loop_step (crc32cFunc : bytes -> Z) (fuel : nat)
  (maxDataLength : Z) (s s' : Target.St) (rowAddr : Z) (rowData : bytes) :
  Target.on_app Application.getNextRow s = (Ok (rowAddr, rowData), s') ->
  Target.row_loop crc32cFunc (S fuel) maxDataLength s
  = (Target.send_row crc32cFunc maxDataLength rowAddr rowData ;;;
     Target.row_loop crc32cFunc fuel maxDataLength) s'.
Proof. intros H. cbn [Target.row_loop]. rewrite H. reflexivity. Qed.

Lemma finish_update_run (a : Application.t) (w : World) (reply : bytes)
  (v : byte) (rest : list (option (Z * bytes))) :
  0 <= Application.appID a < 2 ^ 8 ->
  inbox w = Some (charHandle w, reply) :: rest ->
  accepted reply [v] ->
  Target.finish_update Target.TheArgument (a, w)
  = (Ok (Some tt),
     (a,
      sent (frame x3b [])
        (printed [if int_of_byte v =? 1 then ApplicationValid
                  else ApplicationNotValid; EndingDFU]
           (notified
              (sent (frame x31 (to_le 1 (Application.appID a)))
                 (printed [FinishedSending; VerifyingApplication] w)))))).
Proof.
  intros Hid Hin Hacc. unfold Target.finish_update.
  unfold bind at 1. unfold Target.on_world at 1. cbn [fst snd].
  rewrite print_run.
  unfold bind at 1. unfold Target.on_world at 1. cbn [fst snd].
  rewrite print_run, printed_printed. cbn [app].
  unfold bind at 1. unfold Target.read_fwImg_appID, bind, get, ret.
  cbn [fst snd]. unfold Target.on_world at 1. cbn [fst snd].
  rewrite (verifyApplication_run _ _ reply v rest Hid) by assumption.
  unfold Target.on_world. cbn [fst snd].
  rewrite print_run. cbn [fst snd]. rewrite print_run. cbn [fst snd].
  rewrite exitDFU_run, printed_printed. reflexivity.
Qed.

(** C10. In the loop that streams the rows, an error raised by the read of
    the next row ends the loop as the end of the data does, whatever the
    error: [InvalidApplicationFile] for a line without the row marker, or
    [StopIteration] when no line is left.  The failed read sends nothing;
    the update goes on with what follows the loop, which sends
    [verifyApplication] (0x31) and [exitDFU] (0x3B) and returns normally when
    the target answers. *)
Theorem row_error_ends_loop (crc32cFunc : bytes -> Z)
  (fwImg : Target.global_fwImg) (fuel : nat) (maxDataLength : Z)
  (s s' : Target.St) (e : exn) :
  Target.on_app Application.getNextRow s = (Raise e, s') ->
  Target.row_loop crc32cFunc (S fuel) maxDataLength s = (Ok (Some tt), s')
  /\ Target.stream_rows crc32cFunc fwImg (S fuel) maxDataLength s
     = Target.finish_update fwImg s'
  /\ snd s' = snd s
  /\ (forall c body more,
        unread (fst s) = String c body :: more -> c <> ":"%char ->
        e = InvalidApplicationFile "Malformed data row")
  /\ (unread (fst s) = [] -> e = StopIteration)
  /\ (forall reply v rest,
        fwImg = Target.TheArgument ->
        0 <= Application.appID (fst s') < 2 ^ 8 ->
        inbox (snd s') = Some (charHandle (snd s'), reply) :: rest ->
        accepted reply [v] ->
        exists w',
          Target.finish_update fwImg s' = (Ok (Some tt), (fst s', w'))
          /\ writes w'
             = writes (snd s')
               ++ fragments (frame x31 (to_le 1 (Application.appID (fst s'))))
               ++ fragments (frame x3b [])).
Proof.
  intros H.
  pose proof (row_loop_break crc32cFunc fuel maxDataLength s s' e H) as B.
  split; [exact B|]. split.
  { unfold Target.stream_rows, bind. rewrite B. reflexivity. }
  destruct s as [a w]. unfold Target.on_app in H. cbn [fst snd] in *.
  destruct (Application.getNextRow a) as [r a'] eqn:G.
  inversion H; subst. clear H. cbn [fst snd].
  split; [reflexivity|]. split; [|split].
  - intros c body more U Hc.
    rewrite (getNextRow_malformed a c body more U Hc) in G.
    now inversion G.
  - intros U. rewrite (getNextRow_eof a U) in G. now inversion G.
  - intros reply v rest -> Hid Hin Hacc.
    eexists. split.
    + apply (finish_update_run a' w reply v rest Hid Hin Hacc).
    + cbn [sent printed writes]. rewrite writes_notified.
      cbn [sent printed writes]. now rewrite app_assoc.
Qed.

Lemma row_error_ends_loop_witness :
  Target.row_loop crc32c 5 512
    (broken_app_1, fresh_world [Some (14, frame x00 [x01])])
  = (Ok (Some tt), (broken_app_2, fresh_world [Some (14, frame x00 [x01])])).
Proof.
  exact (proj1 (row_error_ends_loop crc32c Target.TheArgument 4 512
                  (broken_app_1, fresh_world [Some (14, frame x00 [x01])])
                  (broken_app_2, fresh_world [Some (14, frame x00 [x01])])
                  (InvalidApplicationFile "Malformed data row")
                  ltac:(vm_compute; reflexivity))).
Defined.

(** The whole update on the image with the malformed second row: the
    commands sent are enterDFU, setApplicationMetadata, one programData,
    verifyApplication and exitDFU, and the call returns normally. *)
Example updateFirmware_broken_image :
  let '(r, (a, w)) :=
    Target.updateFirmware crc32c Target.TheArgument 10 512
      (broken_app,
       fresh_world
         [Some (14, frame x00 [x01; x02; x03; x04; x05; x06; x07; x08]);
          Some (14, ack); Some (14, ack); Some (14, frame x00 [x01])]) in
  r = Ok (Some tt)
  /\ map (fun p => nth 1 p x00) (writes w) = [x38; x4c; x49; x31; x3b]
  /\ Application.currRow a = 1.
Proof. vm_compute. repeat split. Qed.

Lemma data_line_addr (l : string) (addr : Z) (data : bytes) :
  data_line l (addr, data) -> 0 <= addr < 2 ^ 32.
Proof.
  intros (body & -> & R). apply row_of_line_iff in R.
  destruct R as (bs & _ & L & -> & _).
  pose proof (from_le_range (firstn 4 bs)) as B.
  rewrite length_firstn in B.
  replace (Nat.min 4 (List.length bs)) with 4%nat in B by lia.
  exact B.
Qed.






(** Line 187 reads the module-level name [fwImg], not the parameter [app]:
    where that name is not bound, the update stops with [NameError] once
    the rows are sent, before [verifyApplication]. *)
Example updateFirmware_fwImg_unbound :
  let '(r, (a, w)) :=
    Target.updateFirmware crc32c Target.Unbound 10 512
      (sample_app,
       fresh_world
         [Some (14, frame x00 [x01; x02; x03; x04; x05; x06; x07; x08]);
          Some (14, ack); Some (14, ack); Some (14, ack); Some (14, ack);
          Some (14, frame x00 [x01])]) in
  r = Raise NameError
  /\ map (fun p => nth 1 p x00) (writes w) = [x38; x4c; x49; x49; x49].
Proof. vm_compute. repeat split. Qed.

(** A row without data has no last chunk: [rowData[-1]] raises
    [IndexError]. *)
Example send_row_no_data :
  fst (Target.send_row crc32c 512 268435456 []
         (sample_app, fresh_world [Some (14, ack)]))
  = Raise IndexError.
Proof. vm_compute. reflexivity. Qed.

(** ** The loop ends: more fuel than unread lines is enough *)

Lemma getNextRow_consumes (a a' : Application.t) (r : Z * bytes) :
  Application.getNextRow a = (Ok r, a') ->
  (List.length (unread a') < List.length (unread a))%nat.
Proof.
  unfold Application.getNextRow, bind, Application.next_line.
  destruct (nth_error _ _) as [l|] eqn:E; [|discriminate].
  assert (L : (Application.pos (Application._app a)
               < List.length (Application.lines (Application._app a)))%nat).
  { apply nth_error_Some. congruence. }
  unfold lift at 1. destruct l as [|c body]; [discriminate|].
  destruct (negb (Ascii.eqb c ":")); [discriminate|].
  unfold modify, lift.
  destruct (Application.row_of_line _); [|discriminate].
  intros H. inversion H; subst. unfold unread.
  cbn [Application.set_currRow Application.set_file Application._app
       Application.lines Application.pos].
  rewrite !length_skipn. lia.
Qed.

Lemma send_row_keeps_image (crc32cFunc : bytes -> Z) (maxDataLength addr : Z)
  (data : bytes) (s s' : Target.St) (r : result unit) :
  Target.send_row crc32cFunc maxDataLength addr data s = (r, s') ->
  fst s' = fst s.
Proof.
  unfold Target.send_row, bind, lift, get, Target.on_world.
  destruct s as [a w]. cbn [fst snd].
  destruct (chunked data maxDataLength) as [chunks|e];
    [|intros H; now inversion H].
  destruct (for_each (removelast chunks) DFUProtocol.sendData w) as [[[]|e] w1];
    [|intros H; now inversion H].
  cbn [fst snd].
  destruct (Target.last_item chunks) as [c|e]; [|intros H; now inversion H].
  destruct (DFUProtocol.programData addr (crc32cFunc data) c w1) as [[[]|e] w2];
    [|intros H; now inversion H].
  cbn [fst snd]. intros H. now inversion H.
Qed.

Lemma row_loop_enough_fuel (crc32cFunc : bytes -> Z) (maxDataLength : Z)
  (fuel : nat) (s : Target.St) :
  (List.length (unread (fst s)) < fuel)%nat ->
  fst (Target.row_loop crc32cFunc fuel maxDataLength s) <> Ok None.
Proof.
  revert s. induction fuel as [|fuel IH]; intros s Hf; [lia|].
  cbn [Target.row_loop]. destruct s as [a w]. unfold Target.on_app.
  cbn [fst snd] in *.
  destruct (Application.getNextRow a) as [[[addr data]|e] a'] eqn:G.
  - apply getNextRow_consumes in G. unfold bind.
    destruct (Target.send_row crc32cFunc maxDataLength addr data (a', w))
      as [[[]|e] s1] eqn:R.
    + apply send_row_keeps_image in R. cbn [fst] in R.
      apply IH. rewrite R. lia.
    + cbn [fst]. discriminate.
  - cbn [fst]. discriminate.
Qed.

(** * Further properties of the code *)

(** ** The packet codec: errors and limits *)

Lemma length_frame (c : byte) (payload : bytes) :
  List.length (frame c payload) = (List.length payload + 7)%nat.
Proof.
  unfold frame. rewrite !length_app, !length_to_le. cbn [List.length]. lia.
Qed.

(** X1. [_createCmdPacket] refuses a command that is not one byte long with
    [HostError] and a payload of more than 65535 bytes with [struct.error];
    otherwise it succeeds, and the packet has seven bytes more than the
    payload. *)
Theorem createCmdPacket_cases (cmd payload : bytes) :
  DFUProtocol._createCmdPacket cmd payload =
  match cmd with
  | [c] =>
      if Z.of_nat (List.length payload) <=? 65535
      then Ok (frame c payload)
      else Raise StructError
  | _ => Raise (HostError "cmd must be a bytes object with a length of 1")
  end
  /\ match DFUProtocol._createCmdPacket cmd payload with
     | Ok packet =>
         List.length packet = (List.length payload + 7)%nat
     | Raise _ => True
     end.
Proof.
  assert (E : DFUProtocol._createCmdPacket cmd payload =
              match cmd with
              | [c] =>
                  if Z.of_nat (List.length payload) <=? 65535
                  then Ok (frame c payload)
                  else Raise StructError
              | _ => Raise (HostError "cmd must be a bytes object with a length of 1")
              end).
  { destruct cmd as [|c [|c' cmd]]; try reflexivity.
    destruct (Z.leb_spec (Z.of_nat (List.length payload)) 65535) as [L|L].
    - now apply createCmdPacket_frame.
    - unfold DFUProtocol._createCmdPacket.
      cbn [List.length Nat.eqb negb pack_char DFUProtocol._START_OF_PACKET bindR].
      unfold pack_uint. change (256 ^ Z.of_nat 2) with 65536.
      destruct (Z.ltb_spec (Z.of_nat (List.length payload)) 65536); [lia|].
      rewrite andb_false_r. reflexivity. }
  split; [exact E|]. rewrite E.
  destruct cmd as [|c [|c' cmd]]; try exact I.
  destruct (Z.of_nat (List.length payload) <=? 65535); [|exact I].
  apply length_frame.
Qed.

(** X2. [_getResponse] refuses every buffer of fewer than seven bytes as
    malformed: seven bytes is the size of a frame without payload. *)
Theorem getResponse_short_buffer (buf : bytes) :
  (List.length buf < 7)%nat ->
  DFUProtocol._getResponse buf = Raise DFUProtocol.malformed.
Proof.
  intros H.
  destruct (Nat.lt_ge_cases (List.length buf) 4) as [L|L].
  { now apply getResponse_short. }
  destruct buf as [|s [|st [|l0 [|l1 rest]]]]; try (simpl in L; lia).
  rewrite getResponse_cons4. cbv zeta.
  pose proof (from_le_range [l0; l1]) as R.
  cbn [List.length] in H.
  destruct (Z.eqb_spec (Z.of_nat (List.length rest)) (from_le [l0; l1] + 3));
    [lia | reflexivity].
Qed.

Lemma getResponse_short_buffer_witness :
  DFUProtocol._getResponse [x01; x00; x00; x00; xff; x17]
  = Raise DFUProtocol.malformed.
Proof.
  exact (getResponse_short_buffer [x01; x00; x00; x00; xff; x17]
           ltac:(simpl; lia)).
Defined.

Lemma byte_sum_perm (a b : bytes) : Permutation a b -> byte_sum a = byte_sum b.
Proof.
  induction 1; unfold byte_sum in *; cbn [fold_right] in *; lia.
Qed.

(** X3. The checksum is the 16-bit complement of the sum of the bytes: the
    sum and the checksum add up to a multiple of 65536.  It does not depend
    on the order of the bytes, so a packet whose payload bytes were put in
    another order, with the trailer left as it was, is accepted by
    [_getResponse] and returned as the payload. *)
Theorem checksum_ignores_order (c : byte) (payload payload' : bytes) :
  Z.of_nat (List.length payload) <= 65535 ->
  Permutation payload payload' ->
  let header := [x01; c] ++ to_le 2 (Z.of_nat (List.length payload)) in
  let cs := DFUProtocol._calcChecksum_2sComplement_16bit (header ++ payload) in
  (byte_sum (header ++ payload) + cs) mod 65536 = 0
  /\ DFUProtocol._calcChecksum_2sComplement_16bit (header ++ payload') = cs
  /\ DFUProtocol._createCmdPacket [c] payload
     = Ok ((header ++ payload) ++ to_le 2 cs ++ [x17])
  /\ DFUProtocol._getResponse ((header ++ payload') ++ to_le 2 cs ++ [x17])
     = Ok ([c], payload').
Proof.
  intros Hl Hp header cs.
  assert (Ecs : DFUProtocol._calcChecksum_2sComplement_16bit (header ++ payload')
                = cs).
  { unfold cs. rewrite !calcChecksum_mod, !byte_sum_app.
    now rewrite (byte_sum_perm _ _ Hp). }
  assert (El : List.length payload' = List.length payload)
    by (symmetry; now apply Permutation_length).
  split; [|split; [exact Ecs|split]].
  - unfold cs. rewrite calcChecksum_mod.
    rewrite Zplus_mod_idemp_r. replace (_ + - _) with 0 by lia. reflexivity.
  - rewrite createCmdPacket_frame by exact Hl. unfold frame.
    fold header. fold cs. now rewrite <- app_assoc.
  - rewrite <- Ecs. unfold header. rewrite <- El.
    exact (getResponse_frame c payload' ltac:(lia)).
Qed.

Lemma checksum_ignores_order_witness :
  DFUProtocol._getResponse
    [x01; x00; x02; x00; x0b; x0a; xe8; xff; x17]
  = Ok ([x00], [x0b; x0a]).
Proof.
  exact (proj2 (proj2 (proj2
    (checksum_ignores_order x00 [x0a; x0b] [x0b; x0a]
       ltac:(simpl; lia) ltac:(apply perm_swap))))).
Defined.

(** ** Cutting into pieces *)

Lemma pieces_all_but_last (b : bytes) (m : nat) :
  (0 < m)%nat ->
  Forall (fun c => List.length c = m) (removelast (pieces b m)).
Proof.
  intros Hm.
  destruct (Nat.eq_dec (List.length b) 0) as [E|E].
  { destruct b; [|discriminate]. rewrite pieces_nil by exact Hm. constructor. }
  unfold pieces.
  pose proof (pieces_count (List.length b) m Hm) as [_ P]. cbv zeta in P.
  specialize (P ltac:(lia)).
  destruct (Z.to_nat ((Z.of_nat (List.length b) + Z.of_nat m - 1) / Z.of_nat m))
    as [|n]; [constructor|].
  rewrite seq_S, map_app. cbn [map Nat.add]. rewrite removelast_last.
  apply Forall_forall. intros c Hc.
  apply in_map_iff in Hc. destruct Hc as (k & <- & Hk). apply in_seq in Hk.
  rewrite length_firstn, length_skipn.
  replace (S n - 1)%nat with n in P by lia.
  assert ((k + 1) * m <= n * m)%nat by (apply Nat.mul_le_mono_r; lia).
  lia.
Qed.

(** X4. The pieces of the list comprehension
    [[b[i:i+n] for i in range(0, len(b), n)]], used for the rows and for the
    fragments: for a positive [n] they concatenate to [b], none is empty,
    every one but the last has exactly [n] bytes and the last at most [n];
    for [n = 0] the comprehension raises [ValueError], and for a negative
    [n] it is empty whatever [b] is. *)
Theorem chunked_cases (b : bytes) (n : Z) :
  (0 < n ->
   exists cs,
     chunked b n = Ok cs
     /\ List.concat cs = b
     /\ Forall (fun c => 0 < Z.of_nat (List.length c) <= n) cs
     /\ Forall (fun c => Z.of_nat (List.length c) = n) (removelast cs)
     /\ (cs = [] <-> b = []))
  /\ (n = 0 -> chunked b n = Raise ValueError)
  /\ (n < 0 -> chunked b n = Ok []).
Proof.
  split; [|split].
  - intros Hn. assert (Hm : (0 < Z.to_nat n)%nat) by lia.
    exists (pieces b (Z.to_nat n)).
    split; [now apply chunked_pos|].
    split; [now apply concat_pieces|].
    split.
    { eapply Forall_impl; [|apply pieces_length_bound; exact Hm].
      cbv beta. intros c Hc. lia. }
    split.
    { eapply Forall_impl; [|apply pieces_all_but_last; exact Hm].
      cbv beta. intros c Hc. lia. }
    split.
    + intros E. rewrite <- (concat_pieces b _ Hm), E. reflexivity.
    + intros ->. now apply pieces_nil.
  - intros ->. reflexivity.
  - intros Hn. unfold chunked, range0.
    destruct (Z.eqb_spec n 0); [lia|].
    destruct (Z.ltb_spec n 0); [|lia]. reflexivity.
Qed.

Lemma chunked_cases_witness :
  (exists cs,
     chunked [x01; x02; x03; x04; x05] 2 = Ok cs
     /\ List.concat cs = [x01; x02; x03; x04; x05]
     /\ Forall (fun c => 0 < Z.of_nat (List.length c) <= 2) cs
     /\ Forall (fun c => Z.of_nat (List.length c) = 2) (removelast cs)
     /\ (cs = [] <-> [x01; x02; x03; x04; x05] = []))
  /\ chunked [x01] 0 = Raise ValueError
  /\ chunked [x01] (-3) = Ok [].
Proof.
  split; [|split].
  - exact (proj1 (chunked_cases [x01; x02; x03; x04; x05] 2) ltac:(lia)).
  - exact (proj1 (proj2 (chunked_cases [x01] 0)) ltac:(reflexivity)).
  - exact (proj2 (proj2 (chunked_cases [x01] (-3))) ltac:(lia)).
Defined.

(** ** Writing a packet *)

(** X5. [_sendPacket] writes the packet as fragments of at most [maxLen]
    bytes, in order and without loss: the fragments concatenate to the
    packet, and nothing else of the world changes.  With [maxLen = 0] it
    raises [ValueError] and with a negative [maxLen] it returns normally;
    in both cases nothing is written. *)
Theorem sendPacket_cases (packet : bytes) (maxLen : Z) (w : World) :
  (0 < maxLen ->
   exists frags,
     DFUProtocol._sendPacket packet maxLen w
     = (Ok tt,
        mkWorld (hasCmdChar w) (hasCCCD w) (charHandle w) (cccdReads w)
                (cccdWrites w) (writes w ++ frags) (inbox w)
                (delegate_handle w) (delegate_data w) (stdout w))
     /\ List.concat frags = packet
     /\ Forall (fun f => 0 < Z.of_nat (List.length f) <= maxLen) frags)
  /\ (maxLen = 0 ->
      DFUProtocol._sendPacket packet maxLen w = (Raise ValueError, w))
  /\ (maxLen < 0 -> DFUProtocol._sendPacket packet maxLen w = (Ok tt, w)).
Proof.
  split; [|split].
  - intros Hn. assert (Hm : (0 < Z.to_nat maxLen)%nat) by lia.
    exists (pieces packet (Z.to_nat maxLen)).
    split; [|split].
    + unfold DFUProtocol._sendPacket, bind, lift.
      rewrite chunked_pos by exact Hn. apply for_each_char_write.
    + now apply concat_pieces.
    + eapply Forall_impl; [|apply pieces_length_bound; exact Hm].
      cbv beta. intros c Hc. lia.
  - intros ->. reflexivity.
  - intros Hn. unfold DFUProtocol._sendPacket, bind, lift, chunked, range0.
    destruct (Z.eqb_spec maxLen 0); [lia|].
    destruct (Z.ltb_spec maxLen 0); [|lia]. reflexivity.
Qed.

Lemma sendPacket_cases_witness :
  (exists frags,
     DFUProtocol._sendPacket [x01; x02; x03] 2 (fresh_world [])
     = (Ok tt,
        mkWorld true true 14 [x01; x00] [] ([] ++ frags) [] None None [])
     /\ List.concat frags = [x01; x02; x03]
     /\ Forall (fun f => 0 < Z.of_nat (List.length f) <= 2) frags)
  /\ DFUProtocol._sendPacket [x01] 0 (fresh_world [])
     = (Raise ValueError, fresh_world [])
  /\ DFUProtocol._sendPacket [x01] (-1) (fresh_world [])
     = (Ok tt, fresh_world []).
Proof.
  split; [|split].
  - exact (proj1 (sendPacket_cases [x01; x02; x03] 2 (fresh_world []))
             ltac:(lia)).
  - exact (proj1 (proj2 (sendPacket_cases [x01] 0 (fresh_world [])))
             ltac:(reflexivity)).
  - exact (proj2 (proj2 (sendPacket_cases [x01] (-1) (fresh_world [])))
             ltac:(lia)).
Defined.

(** ** A command and its reply *)

Lemma sendCommandGetResponse_run (c : byte) (payload : bytes) (timeout : Z)
  (w : World) :
  Z.of_nat (List.length payload) <= 65535 ->
  DFUProtocol._sendCommandGetResponse [c] payload timeout w =
  match inbox w with
  | [] => (Raise (HostError "Notification not received"),
           sent (frame c payload) w)
  | None :: rest =>
      (Raise (HostError "Notification not received"),
       mkWorld (hasCmdChar w) (hasCCCD w) (charHandle w) (cccdReads w)
               (cccdWrites w) (writes w ++ fragments (frame c payload)) rest
               (delegate_handle w) (delegate_data w) (stdout w))
  | Some (h, reply) :: rest =>
      if h =? charHandle w then
        (bindR (DFUProtocol._getResponse reply)
               (fun r => bindR (DFUProtocol._checkStatusCode (fst r))
                               (fun _ => Ok (snd r))),
         notified (sent (frame c payload) w))
      else
        (Raise (HostError "Notification not received"),
         notified (sent (frame c payload) w))
  end.
Proof.
  intros Hlen.
  unfold DFUProtocol._sendCommandGetResponse, bind, lift.
  rewrite createCmdPacket_frame by exact Hlen.
  rewrite sendPacket_run.
  unfold DFUProtocol._waitForResponse, bind, waitForNotifications, notified.
  cbn [sent hasCmdChar hasCCCD charHandle cccdReads cccdWrites writes inbox
       delegate_handle delegate_data stdout].
  destruct (inbox w) as [|[[h reply]|] rest]; try reflexivity.
  cbn [negb]. unfold get, ret.
  cbn [hasCmdChar hasCCCD charHandle cccdReads cccdWrites writes inbox
       delegate_handle delegate_data stdout].
  destruct (h =? charHandle w); cbn [negb]; [|reflexivity].
  cbn [delegate_data].
  destruct (DFUProtocol._getResponse reply) as [[st resp]|e]; [|reflexivity].
  cbn [bindR fst snd].
  destruct (DFUProtocol._checkStatusCode st) as [[]|e]; reflexivity.
Qed.

(** X6. When no notification comes before the timeout, or the one that
    comes is from another characteristic, a command that expects a reply
    raises [HostError].  The packet has been written in full by then; a
    notification from another characteristic has been taken from the target
    and stored in the delegate, and the data the delegate held from an
    earlier reply is never decoded in place of the missing one. *)
Theorem sendCommandGetResponse_no_reply (c : byte) (payload : bytes)
  (timeout : Z) (w : World) :
  Z.of_nat (List.length payload) <= 65535 ->
  let run := DFUProtocol._sendCommandGetResponse [c] payload timeout w in
  (inbox w = [] ->
   run = (Raise (HostError "Notification not received"),
          sent (frame c payload) w))
  /\ (forall rest,
        inbox w = None :: rest ->
        fst run = Raise (HostError "Notification not received")
        /\ writes (snd run) = writes w ++ fragments (frame c payload)
        /\ inbox (snd run) = rest
        /\ delegate_data (snd run) = delegate_data w)
  /\ (forall h reply rest,
        inbox w = Some (h, reply) :: rest -> h <> charHandle w ->
        fst run = Raise (HostError "Notification not received")
        /\ writes (snd run) = writes w ++ fragments (frame c payload)
        /\ inbox (snd run) = rest
        /\ delegate_handle (snd run) = Some h
        /\ delegate_data (snd run) = Some reply).
Proof.
  intros Hlen run. unfold run.
  rewrite (sendCommandGetResponse_run c payload timeout w Hlen).
  split; [|split].
  - intros ->. reflexivity.
  - intros rest ->. repeat split.
  - intros h reply rest E Hh. rewrite E.
    destruct (Z.eqb_spec h (charHandle w)); [contradiction|].
    unfold notified. cbn [sent inbox]. rewrite E. repeat split.
Qed.

Lemma sendCommandGetResponse_no_reply_witness :
  DFUProtocol._sendCommandGetResponse [x37] [xaa] 2 (fresh_world [])
  = (Raise (HostError "Notification not received"),
     sent (frame x37 [xaa]) (fresh_world [])).
Proof.
  exact (proj1 (sendCommandGetResponse_no_reply x37 [xaa] 2 (fresh_world [])
                  ltac:(simpl; lia))
           ltac:(reflexivity)).
Defined.

Lemma checkStatusCode_ok_inv (code : bytes) :
  DFUProtocol._checkStatusCode code = Ok tt -> code = [x00].
Proof.
  unfold DFUProtocol._checkStatusCode, DFUProtocol._DFU_STATUS_CODE.
  cbn [DFUProtocol.dict_get].
  destruct (bytes_eqb [x00] code) eqn:E0.
  { intros _. symmetry. now apply bytes_eqb_eq. }
  repeat match goal with
         | |- context [bytes_eqb ?k code] =>
             destruct (bytes_eqb k code); [discriminate|]
         end.
  discriminate.
Qed.

(** X7. When the notification comes from the command characteristic, the
    command returns the payload of the reply exactly when the reply is a
    valid frame with the status 0x00.  A frame that is not valid raises
    [HostError]; a valid frame with another status raises the exception of
    that status.  In every case the packet has been written and the
    notification taken. *)
Theorem sendCommandGetResponse_reply (c : byte) (payload : bytes)
  (timeout : Z) (w : World) (reply : bytes)
  (rest : list (option (Z * bytes))) :
  Z.of_nat (List.length payload) <= 65535 ->
  inbox w = Some (charHandle w, reply) :: rest ->
  let run := DFUProtocol._sendCommandGetResponse [c] payload timeout w in
  snd run = notified (sent (frame c payload) w)
  /\ inbox (snd run) = rest
  /\ (forall resp, fst run = Ok resp <-> accepted reply resp)
  /\ (~ valid_frame reply -> exists msg, fst run = Raise (HostError msg))
  /\ (forall st resp e,
        DFUProtocol._getResponse reply = Ok ([st], resp) ->
        DFUProtocol._checkStatusCode [st] = Raise e ->
        fst run = Raise e).
Proof.
  intros Hlen Hin run. unfold run.
  rewrite (sendCommandGetResponse_run c payload timeout w Hlen), Hin.
  rewrite Z.eqb_refl. cbn [fst snd].
  split; [reflexivity|]. split.
  { apply (inbox_notified_sent _ w _ rest Hin). discriminate. }
  split; [|split].
  - intros resp. unfold accepted. split.
    + destruct (DFUProtocol._getResponse reply) as [[st r]|e] eqn:G;
        [|discriminate].
      cbn [bindR fst snd].
      destruct (DFUProtocol._checkStatusCode st) as [[]|e] eqn:S;
        [|discriminate].
      cbn [bindR]. intros H. inversion H; subst.
      now rewrite (checkStatusCode_ok_inv st S).
    + intros ->. reflexivity.
  - intros NV. destruct (getResponse_invalid reply NV) as [E|E];
      rewrite E; eexists; reflexivity.
  - intros st resp e G S. rewrite G. cbn [bindR fst snd]. rewrite S.
    reflexivity.
Qed.

Lemma sendCommandGetResponse_reply_witness :
  fst (DFUProtocol._sendCommandGetResponse [x49] [xaa] 2
         (fresh_world [Some (14, frame x08 [])]))
  = Raise DFUErrorChecksum.
Proof.
  exact (proj2 (proj2 (proj2 (proj2
    (sendCommandGetResponse_reply x49 [xaa] 2
       (fresh_world [Some (14, frame x08 [])]) (frame x08 []) []
       ltac:(simpl; lia) ltac:(reflexivity)))))
    x08 [] DFUErrorChecksum ltac:(reflexivity) ltac:(reflexivity)).
Defined.

(** ** The commands one by one *)

Lemma createCmdPacket_single (c : byte) (payload : bytes) :
  DFUProtocol._createCmdPacket [c] payload
  = if Z.of_nat (List.length payload) <=? 65535
    then Ok (frame c payload)
    else Raise StructError.
Proof.
  destruct (Z.leb_spec (Z.of_nat (List.length payload)) 65535) as [L|L].
  - now apply createCmdPacket_frame.
  - unfold DFUProtocol._createCmdPacket.
    cbn [List.length Nat.eqb negb pack_char DFUProtocol._START_OF_PACKET bindR].
    unfold pack_uint. change (256 ^ Z.of_nat 2) with 65536.
    destruct (Z.ltb_spec (Z.of_nat (List.length payload)) 65536); [lia|].
    rewrite andb_false_r. reflexivity.
Qed.

(** X8. The three commands that expect no reply, [syncDFU], [exitDFU] and
    [sendDataWithoutResponse], write their packet and nothing else: they
    take no notification and leave the delegate as it is.  The first two
    never fail and write the single fragments 01 35 00 00 CA FF 17 and
    01 3B 00 00 C4 FF 17; the third fails, before it writes anything, only
    when the data is longer than 65535 bytes. *)
Theorem commands_without_reply (w : World) (data : bytes) :
  DFUProtocol.syncDFU w
  = (Ok tt,
     mkWorld (hasCmdChar w) (hasCCCD w) (charHandle w) (cccdReads w)
             (cccdWrites w)
             (writes w ++ [[x01; x35; x00; x00; xca; xff; x17]]) (inbox w)
             (delegate_handle w) (delegate_data w) (stdout w))
  /\ DFUProtocol.exitDFU w
     = (Ok tt,
        mkWorld (hasCmdChar w) (hasCCCD w) (charHandle w) (cccdReads w)
                (cccdWrites w)
                (writes w ++ [[x01; x3b; x00; x00; xc4; xff; x17]]) (inbox w)
                (delegate_handle w) (delegate_data w) (stdout w))
  /\ DFUProtocol.sendDataWithoutResponse data w
     = if Z.of_nat (List.length data) <=? 65535
       then (Ok tt,
             mkWorld (hasCmdChar w) (hasCCCD w) (charHandle w) (cccdReads w)
                     (cccdWrites w)
                     (writes w ++ fragments (frame x47 data)) (inbox w)
                     (delegate_handle w) (delegate_data w) (stdout w))
       else (Raise StructError, w).
Proof.
  split; [|split].
  - unfold DFUProtocol.syncDFU, bind, lift, DFUProtocol._CMD_SYNC_DFU.
    rewrite createCmdPacket_frame by (simpl; lia). rewrite sendPacket_run.
    reflexivity.
  - rewrite exitDFU_run. reflexivity.
  - unfold DFUProtocol.sendDataWithoutResponse, bind, lift,
      DFUProtocol._CMD_SEND_DATA_WITHOUT_RESPONSE.
    rewrite createCmdPacket_single.
    destruct (Z.of_nat (List.length data) <=? 65535); [|reflexivity].
    rewrite sendPacket_run. reflexivity.
Qed.

Lemma pack_uint_bad (n : nat) (v : Z) :
  ~ (0 <= v < 256 ^ Z.of_nat n) -> pack_uint n v = Raise StructError.
Proof.
  intros H. unfold pack_uint.
  destruct (Z.leb_spec 0 v); destruct (Z.ltb_spec v (256 ^ Z.of_nat n));
    cbn [andb]; try reflexivity. exfalso. apply H. lia.
Qed.

(** X9. A command whose arguments do not fit their fields fails with
    [struct.error] before anything is written: the world is left as it
    was.  This holds for every integer argument of every command, and for
    data too long for the 16-bit length of the packet. *)
Theorem encode_failure_writes_nothing (w : World) :
  (forall productID,
     ~ (0 <= productID < 2 ^ 32) ->
     DFUProtocol.enterDFU productID w = (Raise StructError, w))
  /\ (forall rowAddr crc data,
        ~ (0 <= rowAddr < 2 ^ 32 /\ 0 <= crc < 2 ^ 32) ->
        DFUProtocol.programData rowAddr crc data w = (Raise StructError, w)
        /\ DFUProtocol.verifyData rowAddr crc data w = (Raise StructError, w))
  /\ (forall rowAddr crc data,
        0 <= rowAddr < 2 ^ 32 -> 0 <= crc < 2 ^ 32 ->
        65527 < Z.of_nat (List.length data) ->
        DFUProtocol.programData rowAddr crc data w = (Raise StructError, w)
        /\ DFUProtocol.verifyData rowAddr crc data w = (Raise StructError, w))
  /\ (forall data,
        65535 < Z.of_nat (List.length data) ->
        DFUProtocol.sendData data w = (Raise StructError, w))
  /\ (forall rowAddr,
        ~ (0 <= rowAddr < 2 ^ 32) ->
        DFUProtocol.eraseData rowAddr w = (Raise StructError, w))
  /\ (forall appNum,
        ~ (0 <= appNum < 2 ^ 8) ->
        DFUProtocol.verifyApplication appNum w = (Raise StructError, w))
  /\ (forall appNum sa len,
        ~ (0 <= appNum < 2 ^ 8 /\ 0 <= sa < 2 ^ 32 /\ 0 <= len < 2 ^ 32) ->
        DFUProtocol.setApplicationMetadata appNum sa len w
        = (Raise StructError, w))
  /\ (forall a b,
        ~ (0 <= a < 2 ^ 32 /\ 0 <= b < 2 ^ 32) ->
        DFUProtocol.getMetadata a b w = (Raise StructError, w)).
Proof.
  assert (P2 : forall a b, ~ (0 <= a < 2 ^ 32 /\ 0 <= b < 2 ^ 32) ->
               DFUProtocol.pack_II a b = Raise StructError).
  { intros a b H. unfold DFUProtocol.pack_II.
    destruct (Z.leb_spec 0 a); destruct (Z.ltb_spec a (2 ^ 32)).
    2-4: rewrite (pack_uint_bad 4 a)
           by (change (256 ^ Z.of_nat 4) with (2 ^ 32); lia); reflexivity.
    rewrite (pack_uint_ok 4 a) by (change (256 ^ Z.of_nat 4) with (2 ^ 32); lia).
    cbn [bindR].
    rewrite (pack_uint_bad 4 b)
      by (change (256 ^ Z.of_nat 4) with (2 ^ 32); lia). reflexivity. }
  assert (L : forall c payload t,
              65535 < Z.of_nat (List.length payload) ->
              DFUProtocol._sendCommandGetResponse [c] payload t w
              = (Raise StructError, w)).
  { intros c payload t H.
    unfold DFUProtocol._sendCommandGetResponse, bind, lift.
    rewrite createCmdPacket_single.
    destruct (Z.leb_spec (Z.of_nat (List.length payload)) 65535); [lia|].
    reflexivity. }
  repeat split.
  - intros pid H. unfold DFUProtocol.enterDFU, bind, lift.
    now rewrite (pack_uint_bad 4 pid).
  - unfold DFUProtocol.programData, bind, lift. now rewrite P2.
  - unfold DFUProtocol.verifyData, bind, lift. now rewrite P2.
  - unfold DFUProtocol.programData, DFUProtocol.pack_II, bind, lift.
    rewrite !pack_uint_ok by (change (256 ^ Z.of_nat 4) with (2 ^ 32); assumption).
    cbn [bindR]. unfold DFUProtocol._CMD_PROGRAM_DATA. rewrite L; [reflexivity|].
    rewrite !length_app, !length_to_le. lia.
  - unfold DFUProtocol.verifyData, DFUProtocol.pack_II, bind, lift.
    rewrite !pack_uint_ok by (change (256 ^ Z.of_nat 4) with (2 ^ 32); assumption).
    cbn [bindR]. unfold DFUProtocol._CMD_VERIFY_DATA. rewrite L; [reflexivity|].
    rewrite !length_app, !length_to_le. lia.
  - intros data H. unfold DFUProtocol.sendData, bind, DFUProtocol._CMD_SEND_DATA.
    now rewrite L.
  - intros a H. unfold DFUProtocol.eraseData, bind, lift.
    now rewrite (pack_uint_bad 4 a).
  - intros n H. unfold DFUProtocol.verifyApplication, bind, lift.
    now rewrite (pack_uint_bad 1 n).
  - intros n sa len H. unfold DFUProtocol.setApplicationMetadata, bind, lift.
    destruct (Z.leb_spec 0 n); destruct (Z.ltb_spec n (2 ^ 8)).
    2-4: rewrite (pack_uint_bad 1 n)
           by (change (256 ^ Z.of_nat 1) with (2 ^ 8); lia); reflexivity.
    rewrite (pack_uint_ok 1 n) by (change (256 ^ Z.of_nat 1) with (2 ^ 8); lia).
    cbn [bindR].
    destruct (Z.leb_spec 0 sa); destruct (Z.ltb_spec sa (2 ^ 32)).
    2-4: rewrite (pack_uint_bad 4 sa)
           by (change (256 ^ Z.of_nat 4) with (2 ^ 32); lia); reflexivity.
    rewrite (pack_uint_ok 4 sa) by (change (256 ^ Z.of_nat 4) with (2 ^ 32); lia).
    cbn [bindR].
    rewrite (pack_uint_bad 4 len)
      by (change (256 ^ Z.of_nat 4) with (2 ^ 32); lia). reflexivity.
  - intros a b H. unfold DFUProtocol.getMetadata, bind, lift. now rewrite P2.
Qed.

Lemma encode_failure_writes_nothing_witness :
  DFUProtocol.enterDFU 4294967296 (fresh_world [Some (14, ack)])
  = (Raise StructError, fresh_world [Some (14, ack)]).
Proof.
  exact (proj1 (encode_failure_writes_nothing (fresh_world [Some (14, ack)]))
           4294967296 ltac:(lia)).
Defined.

Lemma acknowledged_run (c : byte) (payload : bytes) (t : Z) (w : World)
  (reply resp : bytes) (rest : list (option (Z * bytes))) :
  Z.of_nat (List.length payload) <= 65535 ->
  inbox w = Some (charHandle w, reply) :: rest ->
  accepted reply resp ->
  (DFUProtocol._sendCommandGetResponse [c] payload t ;;; ret tt) w
  = (Ok tt, notified (sent (frame c payload) w)).
Proof.
  intros Hl Hin Hacc. unfold bind.
  now rewrite (sendCommandGetResponse_ok c payload t w reply resp rest Hl Hin Hacc).
Qed.

(** X10. The wire format of the commands that are acknowledged.  When the
    target answers with the status 0x00, each of them writes one packet,
    takes the notification and returns nothing, whatever payload the reply
    carries (the metadata that answers [getMetadata] is dropped):
    [sendData] 0x37 with the data; [programData] 0x49 and [verifyData] 0x4A
    with the row address and the checksum on four bytes each,
    little-endian, then the data; [eraseData] 0x44 with the row address;
    [setApplicationMetadata] 0x4C with the application number on one byte,
    then the start address and the length on four bytes each; [getMetadata]
    0x3C with the two offsets on four bytes each. *)
Theorem acknowledged_commands (w : World) (reply resp : bytes)
  (rest : list (option (Z * bytes))) :
  inbox w = Some (charHandle w, reply) :: rest ->
  accepted reply resp ->
  let done := fun packet => (Ok tt, notified (sent packet w)) in
  (forall data,
     Z.of_nat (List.length data) <= 65535 ->
     DFUProtocol.sendData data w = done (frame x37 data))
  /\ (forall rowAddr crc data,
        0 <= rowAddr < 2 ^ 32 -> 0 <= crc < 2 ^ 32 ->
        Z.of_nat (List.length data) <= 65527 ->
        DFUProtocol.programData rowAddr crc data w
        = done (frame x49 (to_le 4 rowAddr ++ to_le 4 crc ++ data))
        /\ DFUProtocol.verifyData rowAddr crc data w
           = done (frame x4a (to_le 4 rowAddr ++ to_le 4 crc ++ data)))
  /\ (forall rowAddr,
        0 <= rowAddr < 2 ^ 32 ->
        DFUProtocol.eraseData rowAddr w = done (frame x44 (to_le 4 rowAddr)))
  /\ (forall appNum sa len,
        0 <= appNum < 2 ^ 8 -> 0 <= sa < 2 ^ 32 -> 0 <= len < 2 ^ 32 ->
        DFUProtocol.setApplicationMetadata appNum sa len w
        = done (frame x4c (to_le 1 appNum ++ to_le 4 sa ++ to_le 4 len)))
  /\ (forall a b,
        0 <= a < 2 ^ 32 -> 0 <= b < 2 ^ 32 ->
        DFUProtocol.getMetadata a b w
        = done (frame x3c (to_le 4 a ++ to_le 4 b)))
  /\ (forall v : Z,
        0 <= v < 2 ^ 32 ->
        to_le 4 v = [byte_of_int v; byte_of_int (v / 2 ^ 8);
                     byte_of_int (v / 2 ^ 16); byte_of_int (v / 2 ^ 24)]
        /\ from_le (to_le 4 v) = v).
Proof.
  intros Hin Hacc done. unfold done.
  assert (U4 : forall v, 0 <= v < 2 ^ 32 -> pack_uint 4 v = Ok (to_le 4 v)).
  { intros v H. apply pack_uint_ok. change (256 ^ Z.of_nat 4) with (2 ^ 32).
    exact H. }
  repeat split.
  - intros data Hl. unfold DFUProtocol.sendData, DFUProtocol._CMD_SEND_DATA.
    apply (acknowledged_run x37 data 2 w reply resp rest Hl Hin Hacc).
  - unfold DFUProtocol.programData, DFUProtocol.pack_II, bind at 1, lift.
    rewrite !U4 by assumption. cbn [bindR].
    rewrite <- app_assoc.
    apply (acknowledged_run x49 _ 2 w reply resp rest); try assumption.
    rewrite !length_app, !length_to_le. lia.
  - unfold DFUProtocol.verifyData, DFUProtocol.pack_II, bind at 1, lift.
    rewrite !U4 by assumption. cbn [bindR].
    rewrite <- app_assoc.
    apply (acknowledged_run x4a _ 1 w reply resp rest); try assumption.
    rewrite !length_app, !length_to_le. lia.
  - intros a Ha. unfold DFUProtocol.eraseData, bind at 1, lift.
    rewrite U4 by assumption.
    apply (acknowledged_run x44 _ 1 w reply resp rest); try assumption.
    rewrite length_to_le. lia.
  - intros n sa len Hn Hs Hl.
    unfold DFUProtocol.setApplicationMetadata, bind at 1, lift.
    rewrite (pack_uint_ok 1 n) by (change (256 ^ Z.of_nat 1) with (2 ^ 8); lia).
    rewrite !U4 by assumption. cbn [bindR].
    apply (acknowledged_run x4c _ 2 w reply resp rest); try assumption.
    rewrite !length_app, !length_to_le. lia.
  - intros a b Ha Hb. unfold DFUProtocol.getMetadata, DFUProtocol.pack_II,
      bind at 1, lift.
    rewrite !U4 by assumption. cbn [bindR].
    apply (acknowledged_run x3c _ 1 w reply resp rest); try assumption.
    rewrite !length_app, !length_to_le. lia.
  - cbn [to_le]. rewrite !byte_of_int_mod, !Z.div_div by lia. reflexivity.
  - apply from_le_to_le. change (256 ^ Z.of_nat 4) with (2 ^ 32). assumption.
Qed.

Lemma acknowledged_commands_witness :
  DFUProtocol.eraseData 268435456 (fresh_world [Some (14, ack)])
  = (Ok tt,
     notified (sent (frame x44 (to_le 4 268435456))
                    (fresh_world [Some (14, ack)]))).
Proof.
  exact (proj1 (proj2 (proj2
    (acknowledged_commands (fresh_world [Some (14, ack)]) ack [] []
       ltac:(reflexivity) ltac:(reflexivity))))
    268435456 ltac:(lia)).
Defined.

(** X11. [verifyApplication] sends 0x31 with the application number on one
    byte and, when the target answers with the status 0x00, returns the one
    byte of the reply as a number; a reply payload that is not one byte
    long raises [struct.error], after the exchange. *)
Theorem verifyApplication_result (appNum : Z) (w : World) (reply resp : bytes)
  (rest : list (option (Z * bytes))) :
  0 <= appNum < 2 ^ 8 ->
  inbox w = Some (charHandle w, reply) :: rest ->
  accepted reply resp ->
  DFUProtocol.verifyApplication appNum w
  = (match resp with
     | [v] => Ok (int_of_byte v)
     | _ => Raise StructError
     end,
     notified (sent (frame x31 [byte_of_int appNum]) w)).
Proof.
  intros Hn Hin Hacc.
  unfold DFUProtocol.verifyApplication, bind, lift.
  rewrite (pack_uint_ok 1 appNum)
    by (change (256 ^ Z.of_nat 1) with (2 ^ 8); assumption).
  unfold DFUProtocol._CMD_VERIFY_APPLICATION.
  rewrite (sendCommandGetResponse_ok x31 _ 2 w reply resp rest)
    by (rewrite ?length_to_le; simpl; try lia; assumption).
  cbn [to_le]. rewrite byte_of_int_mod.
  unfold unpack_exact, ret.
  destruct resp as [|v [|v' resp]]; try reflexivity.
  - cbn [List.length Z.of_nat Pos.of_succ_nat Z.eqb Pos.eqb from_le].
    do 2 f_equal. lia.
  - cbn [List.length].
    destruct (Z.eqb_spec (Z.of_nat (S (S (List.length resp)))) 1); [lia|].
    reflexivity.
Qed.

Lemma verifyApplication_result_witness :
  DFUProtocol.verifyApplication 1
    (fresh_world [Some (14, frame x00 [x00])])
  = (Ok 0,
     notified (sent (frame x31 [x01])
                    (fresh_world [Some (14, frame x00 [x00])]))).
Proof.
  exact (verifyApplication_result 1
           (fresh_world [Some (14, frame x00 [x00])]) (frame x00 [x00]) [x00] []
           ltac:(lia) ltac:(reflexivity) ltac:(vm_compute; reflexivity)).
Defined.

(** ** The update sequence: failures *)

(** X12. A row is sent only if it has data and [maxDataLength] is
    positive.  With [maxDataLength = 0] the loop body raises [ValueError];
    with a negative [maxDataLength], or for a row without data, it raises
    [IndexError]; nothing is sent in these cases.  The error comes from the
    body of the loop, not from the read of the row, so it is not caught: it
    ends the update, the row having been counted. *)
Theorem send_row_degenerate (crc32cFunc : bytes -> Z) (maxDataLength addr : Z)
  (data : bytes) (s : Target.St) :
  (maxDataLength = 0 ->
   Target.send_row crc32cFunc maxDataLength addr data s = (Raise ValueError, s))
  /\ (maxDataLength < 0 ->
      Target.send_row crc32cFunc maxDataLength addr data s
      = (Raise IndexError, s))
  /\ (0 < maxDataLength -> data = [] ->
      Target.send_row crc32cFunc maxDataLength addr data s
      = (Raise IndexError, s))
  /\ (forall fuel l more,
        0 < maxDataLength ->
        unread (fst s) = l :: more -> data_line l (addr, []) ->
        Target.row_loop crc32cFunc (S fuel) maxDataLength s
        = (Raise IndexError,
           (Application.set_currRow (Application.currRow (fst s) + 1)
                                    (advance (fst s)),
            snd s))).
Proof.
  destruct s as [a w].
  assert (E : 0 < maxDataLength -> forall a0,
              Target.send_row crc32cFunc maxDataLength addr [] (a0, w)
              = (Raise IndexError, (a0, w))).
  { intros Hm a0. unfold Target.send_row, bind, lift.
    rewrite chunked_pos by exact Hm. rewrite pieces_nil by lia.
    reflexivity. }
  split; [|split; [|split]].
  - intros ->. reflexivity.
  - intros Hm. unfold Target.send_row, bind, lift, chunked, range0.
    destruct (Z.eqb_spec maxDataLength 0); [lia|].
    destruct (Z.ltb_spec maxDataLength 0); [|lia]. reflexivity.
  - intros Hm ->. now apply E.
  - intros fuel l more Hm U D. cbn [fst snd] in *.
    erewrite row_loop_step.
    2:{ unfold Target.on_app. cbn [fst snd].
        rewrite (getNextRow_data a l more (addr, []) U D). reflexivity. }
    unfold bind. rewrite E by exact Hm. reflexivity.
Qed.

Lemma send_row_degenerate_witness :
  Target.send_row crc32c 0 268435456 [x01]
    (sample_app, fresh_world [Some (14, ack)])
  = (Raise ValueError, (sample_app, fresh_world [Some (14, ack)])).
Proof.
  exact (proj1 (send_row_degenerate crc32c 0 268435456 [x01]
                  (sample_app, fresh_world [Some (14, ack)]))
           ltac:(reflexivity)).
Defined.

(** X13. When the target lacks the command characteristic or its
    descriptor, the update raises [IndexError] at once; when the descriptor
    does not read back as 01 00 after it was written, the update raises
    [HostError].  In both cases no packet has been written and nothing has
    been printed. *)
Theorem updateFirmware_not_enabled (crc32cFunc : bytes -> Z)
  (fwImg : Target.global_fwImg) (fuel : nat) (maxDataLength : Z)
  (a : Application.t) (w : World) :
  (hasCmdChar w = false \/ hasCCCD w = false ->
   Target.updateFirmware crc32cFunc fwImg fuel maxDataLength (a, w)
   = (Raise IndexError, (a, w)))
  /\ (hasCmdChar w = true -> hasCCCD w = true ->
      cccdReads w <> [x01; x00] ->
      Target.updateFirmware crc32cFunc fwImg fuel maxDataLength (a, w)
      = (Raise (HostError "Failed to enable Bootloader service notifications."),
         (a, enabled w))).
Proof.
  split.
  - intros H. unfold Target.updateFirmware.
    unfold bind at 1. unfold Target.on_world at 1. cbn [fst snd].
    unfold DFUProtocol.__init__, bind, get.
    destruct H as [H|H]; rewrite H; [reflexivity|].
    destruct (hasCmdChar w); reflexivity.
  - intros H1 H2 H3. unfold Target.updateFirmware.
    unfold bind at 1. unfold Target.on_world at 1. cbn [fst snd].
    unfold DFUProtocol.__init__, bind, get. rewrite H1, H2. cbn [negb].
    unfold DFUProtocol._enableNotifications, bind, cccd_write, modify.
    cbn [cccdReads].
    destruct (bytes_eqb (cccdReads w) [x01; x00]) eqn:E.
    + apply bytes_eqb_eq in E. contradiction.
    + reflexivity.
Qed.

Lemma updateFirmware_not_enabled_witness :
  Target.updateFirmware crc32c Target.TheArgument 4 512
    (sample_app, mkWorld true true 14 [x00; x00] [] [] [] None None [])
  = (Raise (HostError "Failed to enable Bootloader service notifications."),
     (sample_app,
      enabled (mkWorld true true 14 [x00; x00] [] [] [] None None []))).
Proof.
  exact (proj2 (updateFirmware_not_enabled crc32c Target.TheArgument 4 512
                  sample_app
                  (mkWorld true true 14 [x00; x00] [] [] [] None None []))
           ltac:(reflexivity) ltac:(reflexivity) ltac:(discriminate)).
Defined.

Lemma updateFirmware_start (crc32cFunc : bytes -> Z)
  (fwImg : Target.global_fwImg) (fuel : nat) (maxDataLength : Z)
  (a : Application.t) (w : World) :
  hasCmdChar w = true -> hasCCCD w = true -> cccdReads w = [x01; x00] ->
  0 <= Application.productID a < 2 ^ 32 ->
  Target.updateFirmware crc32cFunc fwImg fuel maxDataLength (a, w) =
  let w0 := printed [StartingDFU] (enabled w) in
  match DFUProtocol._sendCommandGetResponse [x38]
          (to_le 4 (Application.productID a)) 2 w0 with
  | (Raise e, w1) => (Raise e, (a, w1))
  | (Ok respData, w1) =>
      match DFUProtocol.enterDFU_unpack respData with
      | Raise e => (Raise e, (a, w1))
      | Ok (jtagID, deviceRev, dfuSdkVer) =>
          (Target.on_world (print (ProductID (Application.productID a))) ;;;
           Target.on_world
             (DFUProtocol.setApplicationMetadata
                (Application.appID a) (Application.startAddr a)
                (Application.length a)) ;;;
           Target.on_world
             (print (ApplicationInfo (Application.appID a)
                                     (Application.length a)
                                     (Application.startAddr a))) ;;;
           Target.on_world (print SendingData) ;;;
           Target.stream_rows crc32cFunc fwImg fuel maxDataLength)
            (a, printed [EnterDFUSuccessful; JtagID jtagID;
                         DeviceRevision deviceRev; DfuSdkVersion dfuSdkVer] w1)
      end
  end.
Proof.
  intros H1 H2 H3 Hp. cbv zeta. unfold Target.updateFirmware.
  unfold bind at 1. unfold Target.on_world at 1. cbn [fst snd].
  rewrite init_run by assumption.
  unfold bind at 1. unfold Target.on_world at 1. cbn [fst snd].
  rewrite print_run.
  unfold bind at 1. unfold bind at 1. unfold get at 1. unfold ret at 1.
  cbn [fst snd].
  unfold bind at 1. unfold Target.on_world at 1. cbn [fst snd].
  unfold DFUProtocol.enterDFU.
  unfold bind at 1. unfold lift at 1.
  rewrite pack_uint_ok by (change (256 ^ Z.of_nat 4) with (2 ^ 32); exact Hp).
  unfold bind at 1. unfold DFUProtocol._CMD_ENTER_DFU.
  destruct (DFUProtocol._sendCommandGetResponse [x38] _ 2 _) as [[resp|e] w1];
    [|reflexivity].
  unfold bind at 1. unfold lift at 1.
  destruct (DFUProtocol.enterDFU_unpack resp) as [[[j d] v]|e]; [|reflexivity].
  unfold bind at 1. rewrite print_run.
  unfold bind at 1. rewrite print_run.
  unfold bind at 1. rewrite print_run.
  rewrite print_run, !printed_printed. cbn [app]. reflexivity.
Qed.

(** X14. When [enterDFU] gets no reply, or a reply whose status is an
    error, the update stops with that error: the [enterDFU] packet is the
    only one written, and no later command is sent. *)
Theorem updateFirmware_enterDFU_fails (crc32cFunc : bytes -> Z)
  (fwImg : Target.global_fwImg) (fuel : nat) (maxDataLength : Z)
  (a : Application.t) (w : World) :
  hasCmdChar w = true -> hasCCCD w = true -> cccdReads w = [x01; x00] ->
  0 <= Application.productID a < 2 ^ 32 ->
  let request := frame x38 (to_le 4 (Application.productID a)) in
  let run := Target.updateFirmware crc32cFunc fwImg fuel maxDataLength (a, w) in
  (inbox w = [] ->
   fst run = Raise (HostError "Notification not received")
   /\ writes (snd (snd run)) = writes w ++ fragments request)
  /\ (forall reply rest st resp e,
        inbox w = Some (charHandle w, reply) :: rest ->
        DFUProtocol._getResponse reply = Ok ([st], resp) ->
        DFUProtocol._checkStatusCode [st] = Raise e ->
        fst run = Raise e
        /\ writes (snd (snd run)) = writes w ++ fragments request
        /\ inbox (snd (snd run)) = rest).
Proof.
  intros H1 H2 H3 Hp request run. unfold run.
  rewrite (updateFirmware_start crc32cFunc fwImg fuel maxDataLength a w
             H1 H2 H3 Hp).
  cbv zeta.
  rewrite sendCommandGetResponse_run by (rewrite length_to_le; lia).
  cbn [printed enabled inbox charHandle].
  split.
  - intros ->. cbn [fst snd sent writes]. split; reflexivity.
  - intros reply rest st resp e Hin G S.
    rewrite Hin, Z.eqb_refl, G. cbn [bindR fst snd]. rewrite S.
    cbn [bindR fst snd]. unfold notified.
    cbn [sent printed enabled inbox writes]. rewrite Hin.
    cbn [inbox writes]. repeat split.
Qed.

Lemma updateFirmware_enterDFU_fails_witness :
  fst (Target.updateFirmware crc32c Target.TheArgument 4 512
         (sample_app, fresh_world [Some (14, frame x05 [])]))
  = Raise DFUErrorCmd.
Proof.
  exact (proj1 (proj2
    (updateFirmware_enterDFU_fails crc32c Target.TheArgument 4 512
       sample_app (fresh_world [Some (14, frame x05 [])])
       ltac:(reflexivity) ltac:(reflexivity) ltac:(reflexivity)
       ltac:(simpl; lia))
    (frame x05 []) [] x05 [] DFUErrorCmd
    ltac:(reflexivity) ltac:(reflexivity) ltac:(reflexivity))).
Defined.

(** X15. An error status in the reply to [programData] ends the update
    with the exception of that status: unlike an error of the read of a row,
    it is not caught by the loop.  This holds for a row of any number of
    chunks, the [sendData] of every chunk but the last having been
    acknowledged.  The row has been counted, its [programData] packet is
    the last one written, and neither [verifyApplication] nor [exitDFU] is
    sent.  Here the row has data and [maxDataLength] is positive and at
    most 65527. *)
Theorem row_failure_aborts (crc32cFunc : bytes -> Z)
  (fwImg : Target.global_fwImg) (fuel : nat) (maxDataLength : Z)
  (a : Application.t) (w : World) (l : string) (more : list string)
  (addr : Z) (data reply resp : bytes) (rest : list (option (Z * bytes)))
  (st : byte) (e : exn) :
  0 < maxDataLength <= 65527 ->
  unread a = l :: more -> data_line l (addr, data) ->
  data <> [] ->
  0 <= crc32cFunc data < 2 ^ 32 ->
  let chunks := pieces data (Z.to_nat maxDataLength) in
  let n := List.length (removelast chunks) in
  acknowledges (charHandle w) n (inbox w) ->
  skipn n (inbox w) = Some (charHandle w, reply) :: rest ->
  DFUProtocol._getResponse reply = Ok ([st], resp) ->
  DFUProtocol._checkStatusCode [st] = Raise e ->
  Target.stream_rows crc32cFunc fwImg (S fuel) maxDataLength (a, w)
  = (Raise e,
     (Application.set_currRow (Application.currRow a + 1) (advance a),
      notified
        (sent (frame x49 (to_le 4 addr ++ to_le 4 (crc32cFunc data)
                          ++ last chunks []))
              (exchanged (map (frame x37) (removelast chunks)) w)))).
Proof.
  intros Hm U D Hd Hc chunks n A Hin G S.
  assert (Hm' : (0 < Z.to_nat maxDataLength)%nat) by lia.
  assert (Hne : chunks <> []) by (apply pieces_nonempty; assumption).
  pose proof (pieces_length_bound data _ Hm') as B. fold chunks in B.
  assert (Brl : Forall (fun c => Z.of_nat (List.length c) <= 65535)
                       (removelast chunks)).
  { apply Forall_forall. intros c Hc'. rewrite Forall_forall in B.
    assert (In c chunks).
    { rewrite (app_removelast_last [] Hne). apply in_or_app. now left. }
    specialize (B c H). lia. }
  assert (Bl : Z.of_nat (List.length (last chunks [])) <= 65527).
  { rewrite Forall_forall in B.
    assert (In (last chunks []) chunks).
    { rewrite (app_removelast_last [] Hne) at 2. apply in_or_app. right.
      now left. }
    specialize (B _ H). lia. }
  unfold Target.stream_rows. unfold bind at 1.
  erewrite row_loop_step.
  2:{ unfold Target.on_app. cbn [fst snd].
      rewrite (getNextRow_data a l more (addr, data) U D). reflexivity. }
  unfold bind at 1. unfold Target.send_row. cbv zeta.
  unfold bind at 1. unfold lift at 1.
  rewrite chunked_pos by lia. fold chunks.
  unfold bind at 1. unfold Target.on_world at 1. cbn [fst snd].
  rewrite (for_each_sendData _ w Brl A).
  unfold bind at 1. unfold lift at 1.
  rewrite (last_item_last chunks [] Hne).
  set (w1 := exchanged (map (frame x37) (removelast chunks)) w).
  assert (Hh : charHandle w1 = charHandle w) by apply charHandle_exchanged.
  assert (Hi : inbox w1 = Some (charHandle w1, reply) :: rest).
  { unfold w1 at 1. rewrite inbox_exchanged by (rewrite length_map; exact A).
    rewrite length_map, Hh. exact Hin. }
  unfold bind at 1. unfold Target.on_world at 1. cbn [fst snd].
  unfold DFUProtocol.programData, DFUProtocol.pack_II, bind at 1, lift.
  pose proof (data_line_addr l addr data D) as Ha.
  rewrite !pack_uint_ok by (change (256 ^ Z.of_nat 4) with (2 ^ 32); assumption).
  cbn [bindR]. unfold bind at 1. unfold DFUProtocol._CMD_PROGRAM_DATA.
  rewrite sendCommandGetResponse_run
    by (rewrite !length_app, !length_to_le; lia).
  rewrite Hi, Z.eqb_refl, G. cbn [bindR fst snd]. rewrite S.
  cbn [bindR]. rewrite <- app_assoc. reflexivity.
Qed.

Lemma row_failure_aborts_witness :
  fst (Target.stream_rows crc32c Target.TheArgument 4 2
         (sample_app,
          fresh_world [Some (14, ack); Some (14, ack);
                       Some (14, frame x0a [])]))
  = Raise DFUErrorRow.
Proof.
  rewrite (row_failure_aborts crc32c Target.TheArgument 3 2 sample_app
             (fresh_world [Some (14, ack); Some (14, ack);
                           Some (14, frame x0a [])])
             (":000000100102030405" ++ newline)%string
             [(":080000100A0B0C" ++ newline)%string;
              (":10000010FF" ++ newline)%string]
             268435456 [x01; x02; x03; x04; x05] (frame x0a []) []
             [] x0a DFUErrorRow
             ltac:(lia) ltac:(reflexivity)
             ltac:(eexists; split; vm_compute; reflexivity)
             ltac:(discriminate)
             ltac:(split; [apply Z.leb_le | apply Z.ltb_lt];
                   vm_compute; reflexivity)
             ltac:(vm_compute; repeat split; eexists; reflexivity)
             ltac:(reflexivity) ltac:(reflexivity) ltac:(reflexivity)).
  reflexivity.
Defined.

Lemma finish_update_number (fwImg : Target.global_fwImg) (n : Z)
  (a : Application.t) (w : World) (reply : bytes) (v : byte)
  (rest : list (option (Z * bytes))) :
  Target.read_fwImg_appID fwImg
    (a, printed [FinishedSending; VerifyingApplication] w)
  = (Ok n, (a, printed [FinishedSending; VerifyingApplication] w)) ->
  0 <= n < 2 ^ 8 ->
  inbox w = Some (charHandle w, reply) :: rest ->
  accepted reply [v] ->
  Target.finish_update fwImg (a, w)
  = (Ok (Some tt),
     (a,
      sent (frame x3b [])
        (printed [if int_of_byte v =? 1 then ApplicationValid
                  else ApplicationNotValid; EndingDFU]
           (notified
              (sent (frame x31 (to_le 1 n))
                 (printed [FinishedSending; VerifyingApplication] w)))))).
Proof.
  intros R Hn Hin Hacc. unfold Target.finish_update.
  unfold bind at 1. unfold Target.on_world at 1. cbn [fst snd].
  rewrite print_run.
  unfold bind at 1. unfold Target.on_world at 1. cbn [fst snd].
  rewrite print_run, printed_printed. cbn [app].
  unfold bind at 1. rewrite R.
  unfold bind at 1. unfold Target.on_world at 1. cbn [fst snd].
  rewrite (verifyApplication_run _ _ reply v rest Hn) by assumption.
  unfold bind, ret, Target.on_world. cbn [fst snd].
  rewrite print_run. cbn [fst snd]. rewrite print_run. cbn [fst snd].
  rewrite exitDFU_run, printed_printed. reflexivity.
Qed.

(** X16. What follows the loop.  The application number sent with
    [verifyApplication] is that of the module-level [fwImg], whatever image
    was passed as argument; where [fwImg] is not bound the update raises
    [NameError] after it has printed that it verifies the application, and
    sends neither [verifyApplication] nor [exitDFU].  A result other than 1
    is only printed as "not valid": [exitDFU] is sent all the same and the
    update returns normally. *)
Theorem finish_update_cases (a : Application.t) (w : World) (reply : bytes)
  (v : byte) (rest : list (option (Z * bytes))) :
  inbox w = Some (charHandle w, reply) :: rest ->
  accepted reply [v] ->
  let after := fun n =>
    (Ok (Some tt),
     (a,
      sent (frame x3b [])
        (printed [if int_of_byte v =? 1 then ApplicationValid
                  else ApplicationNotValid; EndingDFU]
           (notified
              (sent (frame x31 [byte_of_int n])
                 (printed [FinishedSending; VerifyingApplication] w)))))) in
  Target.finish_update Target.Unbound (a, w)
  = (Raise NameError, (a, printed [FinishedSending; VerifyingApplication] w))
  /\ (0 <= Application.appID a < 2 ^ 8 ->
      Target.finish_update Target.TheArgument (a, w)
      = after (Application.appID a))
  /\ (forall o,
        0 <= Application.appID o < 2 ^ 8 ->
        Target.finish_update (Target.Another o) (a, w)
        = after (Application.appID o)).
Proof.
  intros Hin Hacc after. unfold after.
  assert (B : forall n, to_le 1 n = [byte_of_int n])
    by (intros n; cbn [to_le]; now rewrite byte_of_int_mod).
  split; [|split].
  - unfold Target.finish_update.
    unfold bind at 1. unfold Target.on_world at 1. cbn [fst snd].
    rewrite print_run.
    unfold bind at 1. unfold Target.on_world at 1. cbn [fst snd].
    rewrite print_run, printed_printed. reflexivity.
  - intros Hn. rewrite <- B.
    apply (finish_update_number _ _ a w reply v rest); try assumption.
    reflexivity.
  - intros o Hn. rewrite <- B.
    apply (finish_update_number _ _ a w reply v rest); try assumption.
    reflexivity.
Qed.

Lemma finish_update_cases_witness :
  fst (Target.finish_update (Target.Another sample_app)
         (broken_app, fresh_world [Some (14, frame x00 [x00])]))
  = Ok (Some tt).
Proof.
  rewrite (proj2 (proj2
    (finish_update_cases broken_app
       (fresh_world [Some (14, frame x00 [x00])]) (frame x00 [x00]) x00 []
       ltac:(reflexivity) ltac:(vm_compute; reflexivity)))
    sample_app ltac:(simpl; lia)).
  reflexivity.
Defined.

(** ** The update sequence: any number of rows *)





(** ** The image parser: opening *)

Lemma fromhex_error (s : string) (e : exn) :
  fromhex s = Raise e -> e = ValueError.
Proof.
  revert e.
  assert (P : forall n s, (String.length s <= n)%nat ->
              forall e, fromhex s = Raise e -> e = ValueError).
  { induction n as [|n IH]; intros s' L e H.
    - destruct s'; [discriminate | simpl in L; lia].
    - destruct s' as [|c s']; [discriminate|].
      cbn [fromhex] in H. cbn [String.length] in L.
      destruct (hexspace c).
      + apply (IH s'); [lia | exact H].
      + destruct (hexval c); [|congruence].
        destruct s' as [|d s']; [congruence|].
        destruct (hexval d); [|congruence].
        cbn [String.length] in L.
        destruct (fromhex s') eqn:F; [discriminate|].
        cbn [bindR] in H. inversion H; subst.
        apply (IH s'); [lia | exact F]. }
  intros e. apply (P (String.length s) s). lia.
Qed.

(** X18. Opening succeeds on a file with the extension [.cyacd2] whose
    first line decodes to twelve bytes and whose second line is
    [@APPINFO:start,length] with two integer literals.  The header fields
    are read little-endian at the offsets 0, 1 to 4, 5, 6, 7 and 8 to 11,
    the row count is the number of the lines that follow the first two, the
    row counter is 0 and the next line to read is the third. *)
Theorem init_success (int0 : string -> result Z)
  (fs : string -> option string) (path text l1 l2 : string)
  (more : list string) (h0 h1 h2 h3 h4 h5 h6 h7 h8 h9 h10 h11 : byte)
  (metadata f1 f2 : string) (others : list string) (sa len : Z) :
  endswith path ".cyacd2" = true ->
  fs path = Some text ->
  file_lines text = l1 :: l2 :: more ->
  fromhex (strip l1) = Ok [h0; h1; h2; h3; h4; h5; h6; h7; h8; h9; h10; h11] ->
  split ":" (strip l2) = "@APPINFO"%string :: metadata :: others ->
  split "," metadata = [f1; f2] ->
  int0 f1 = Ok sa -> int0 f2 = Ok len ->
  Application.__init__ int0 fs path
  = Ok (Application.mkApp
          (Application.mkFile (l1 :: l2 :: more) 2)
          (Z.of_nat (List.length more))
          (int_of_byte h0)
          (int_of_byte h1 + 2 ^ 8 * int_of_byte h2 + 2 ^ 16 * int_of_byte h3
           + 2 ^ 24 * int_of_byte h4)
          (int_of_byte h5) (int_of_byte h6) (int_of_byte h7)
          (int_of_byte h8 + 2 ^ 8 * int_of_byte h9 + 2 ^ 16 * int_of_byte h10
           + 2 ^ 24 * int_of_byte h11)
          sa len 0).
Proof.
  intros E F L H A C I1 I2.
  unfold Application.__init__. rewrite E, F, L. cbn [negb].
  unfold bind, get, modify, Application.getHeader, Application.getAppInfo,
    Application.next_line, bind.
  cbn [Application.set_numRows Application._app Application.lines
       Application.pos nth_error].
  unfold lift. rewrite H. cbn [List.length Nat.eqb negb].
  unfold modify.
  cbn [Application.set_header Application.set_numRows Application.set_file
       Application._app Application.lines Application.pos nth_error].
  rewrite A. cbn [hd nth_error]. rewrite String.eqb_refl. cbn [negb].
  rewrite C. cbn [fst snd]. rewrite I1, I2.
  unfold Application._getNumLines.
  cbn [Application._app Application.lines].
  rewrite <- L, count_lines_all by apply file_lines_nonempty. rewrite L.
  cbv [Application.set_appinfo Application.set_currRow Application.set_numRows
       Application.set_header Application.set_file
       Application._app Application.numRows Application.fileVersion
       Application.siliconID Application.siliconRevision
       Application.checksumType Application.appID Application.productID
       Application.startAddr Application.length Application.currRow
       Application.lines Application.pos].
  f_equal. unfold slice. cbn [skipn firstn Nat.sub from_le List.length].
  change (2 ^ 8) with 256. change (2 ^ 16) with 65536.
  change (2 ^ 24) with 16777216.
  f_equal; lia.
Qed.

Lemma init_success_witness :
  Application.__init__ int0_hex sample_fs "fw.cyacd2" = Ok sample_app.
Proof.
  exact (init_success int0_hex sample_fs "fw.cyacd2" sample_text
           ("01002107E221000104030201" ++ newline)%string
           ("@APPINFO:0x10000000,0x2c" ++ newline)%string
           [(":000000100102030405" ++ newline)%string;
            (":080000100A0B0C" ++ newline)%string;
            (":10000010FF" ++ newline)%string]
           x01 x00 x21 x07 xe2 x21 x00 x01 x04 x03 x02 x01
           "0x10000000,0x2c"%string "0x10000000"%string "0x2c"%string []
           268435456 44
           ltac:(reflexivity) ltac:(reflexivity) ltac:(reflexivity)
           ltac:(reflexivity) ltac:(reflexivity) ltac:(reflexivity)
           ltac:(reflexivity) ltac:(reflexivity)).
Defined.

Ltac open_header E F L H N :=
  unfold Application.__init__; rewrite E, F, L; cbn [negb];
  unfold bind, get, modify, Application.getHeader, Application.getAppInfo,
    Application.next_line, bind;
  cbn [Application.set_numRows Application._app Application.lines
       Application.pos nth_error];
  unfold lift; rewrite H, N; cbn [Nat.eqb negb];
  unfold modify;
  cbn [Application.set_header Application.set_numRows Application.set_file
       Application._app Application.lines Application.pos nth_error].

(** X19. The other ways in which opening fails, none of them with an error
    of the module: a file that does not exist raises [FileNotFoundError]; a
    first line that is not hexadecimal text raises [ValueError]; a second
    line that is the label alone raises [IndexError]; a second line whose
    text after the label has not exactly two fields separated by a comma
    raises [ValueError]; a field that is no integer literal raises the
    error of [int]. *)
Theorem init_other_errors (int0 : string -> result Z)
  (fs : string -> option string) (path : string) :
  endswith path ".cyacd2" = true ->
  (fs path = None ->
   Application.__init__ int0 fs path = Raise FileNotFoundError)
  /\ (forall text l1 more e,
        fs path = Some text -> file_lines text = l1 :: more ->
        fromhex (strip l1) = Raise e ->
        Application.__init__ int0 fs path = Raise ValueError)
  /\ (forall text l1 l2 more header,
        fs path = Some text -> file_lines text = l1 :: l2 :: more ->
        fromhex (strip l1) = Ok header -> List.length header = 12%nat ->
        (split ":" (strip l2) = ["@APPINFO"%string] ->
         Application.__init__ int0 fs path = Raise IndexError)
        /\ (forall metadata others fields,
              split ":" (strip l2) = "@APPINFO"%string :: metadata :: others ->
              split "," metadata = fields ->
              List.length fields <> 2%nat ->
              Application.__init__ int0 fs path = Raise ValueError)
        /\ (forall metadata others f1 f2 e,
              split ":" (strip l2) = "@APPINFO"%string :: metadata :: others ->
              split "," metadata = [f1; f2] ->
              int0 f1 = Raise e ->
              Application.__init__ int0 fs path = Raise e)
        /\ (forall metadata others f1 f2 sa e,
              split ":" (strip l2) = "@APPINFO"%string :: metadata :: others ->
              split "," metadata = [f1; f2] ->
              int0 f1 = Ok sa -> int0 f2 = Raise e ->
              Application.__init__ int0 fs path = Raise e)).
Proof.
  intros E. split; [|split].
  - intros F. unfold Application.__init__. rewrite E, F. reflexivity.
  - intros text l1 more e F L H.
    pose proof (fromhex_error _ _ H) as ->.
    unfold Application.__init__. rewrite E, F, L. cbn [negb].
    unfold bind, get, modify, Application.getHeader, Application.next_line, bind.
    cbn [Application.set_numRows Application._app Application.lines
         Application.pos nth_error].
    unfold lift. rewrite H. reflexivity.
  - intros text l1 l2 more header F L H N.
    split; [|split; [|split]].
    + intros A. open_header E F L H N. rewrite A. reflexivity.
    + intros metadata others fields A C Hf. open_header E F L H N.
      rewrite A. cbn [hd nth_error]. rewrite String.eqb_refl. cbn [negb].
      rewrite C. destruct fields as [|a [|b [|c fields]]]; try reflexivity.
      cbn [List.length] in Hf. congruence.
    + intros metadata others f1 f2 e A C I1. open_header E F L H N.
      rewrite A. cbn [hd nth_error]. rewrite String.eqb_refl. cbn [negb].
      rewrite C. cbn [fst snd]. rewrite I1. reflexivity.
    + intros metadata others f1 f2 sa e A C I1 I2. open_header E F L H N.
      rewrite A. cbn [hd nth_error]. rewrite String.eqb_refl. cbn [negb].
      rewrite C. cbn [fst snd]. rewrite I1, I2. reflexivity.
Qed.

Lemma init_other_errors_witness :
  Application.__init__ int0_hex
    (fun _ => Some ("01002107E221000104030201" ++ newline
                    ++ "@APPINFO")%string) "fw.cyacd2"
  = Raise IndexError.
Proof.
  exact (proj1 (proj2 (proj2
    (init_other_errors int0_hex
       (fun _ => Some ("01002107E221000104030201" ++ newline
                       ++ "@APPINFO")%string) "fw.cyacd2"
       ltac:(reflexivity)))
    ("01002107E221000104030201" ++ newline ++ "@APPINFO")%string
    ("01002107E221000104030201" ++ newline)%string
    "@APPINFO"%string []
    [x01; x00; x21; x07; xe2; x21; x00; x01; x04; x03; x02; x01]
    ltac:(reflexivity) ltac:(reflexivity) ltac:(reflexivity)
    ltac:(reflexivity))
    ltac:(reflexivity)).
Defined.

Lemma getHeader_ranges (a a' : Application.t) :
  Application.getHeader a = (Ok tt, a') ->
  0 <= Application.fileVersion a' < 2 ^ 8
  /\ 0 <= Application.siliconID a' < 2 ^ 32
  /\ 0 <= Application.siliconRevision a' < 2 ^ 8
  /\ 0 <= Application.checksumType a' < 2 ^ 8
  /\ 0 <= Application.appID a' < 2 ^ 8
  /\ 0 <= Application.productID a' < 2 ^ 32.
Proof.
  unfold Application.getHeader, bind, Application.next_line.
  destruct (nth_error _ _) as [l|]; [|discriminate].
  unfold lift. destruct (fromhex (strip l)) as [h|]; [|discriminate].
  destruct (Nat.eqb_spec (List.length h) 12) as [L|L]; [|discriminate].
  cbn [negb]. unfold modify. intros H. inversion H; subst. clear H.
  cbn [Application.set_header Application.fileVersion Application.siliconID
       Application.siliconRevision Application.checksumType Application.appID
       Application.productID].
  assert (R : forall i j, (i <= j <= 12)%nat ->
              0 <= from_le (slice h i j) < 256 ^ Z.of_nat (j - i)).
  { intros i j Hij. pose proof (from_le_range (slice h i j)) as B.
    unfold slice in *. rewrite length_firstn, length_skipn, L in B.
    replace (Nat.min (j - i) (12 - i)) with (j - i)%nat in B by lia.
    exact B. }
  pose proof (R 0 1 ltac:(lia))%nat. pose proof (R 1 5 ltac:(lia))%nat.
  pose proof (R 5 6 ltac:(lia))%nat. pose proof (R 6 7 ltac:(lia))%nat.
  pose proof (R 7 8 ltac:(lia))%nat. pose proof (R 8 12 ltac:(lia))%nat.
  repeat split; try tauto.
Qed.

Lemma getAppInfo_keeps_header (int0 : string -> result Z)
  (a a' : Application.t) :
  Application.getAppInfo int0 a = (Ok tt, a') ->
  Application.fileVersion a' = Application.fileVersion a
  /\ Application.siliconID a' = Application.siliconID a
  /\ Application.siliconRevision a' = Application.siliconRevision a
  /\ Application.checksumType a' = Application.checksumType a
  /\ Application.appID a' = Application.appID a
  /\ Application.productID a' = Application.productID a.
Proof.
  unfold Application.getAppInfo, bind, Application.next_line.
  destruct (nth_error _ _) as [l|]; [|discriminate].
  destruct (negb _); [discriminate|].
  unfold lift.
  destruct (nth_error (split ":" (strip l)) 1); [|discriminate].
  destruct (match split "," s with
            | [a; b] => Ok (a, b)
            | _ => Raise ValueError
            end) as [[x y]|]; [|discriminate].
  cbn [fst snd].
  destruct (int0 x); [|discriminate]. destruct (int0 y); [|discriminate].
  unfold modify. intros H. inversion H; subst. repeat split.
Qed.

(** X20. The header fields of an image that was opened fit their fields on
    the wire: the file version, the silicon revision, the checksum type and
    the application number are below 256, the silicon and product
    identifiers below 2^32, and the row count is not negative.  So
    [enterDFU(app.productID)] and [verifyApplication(app.appID)] never fail
    to encode their argument.  (The start address and the length are what
    [int] returns and are not bounded.) *)
Theorem init_field_ranges (int0 : string -> result Z)
  (fs : string -> option string) (path : string) (a : Application.t) :
  Application.__init__ int0 fs path = Ok a ->
  0 <= Application.fileVersion a < 2 ^ 8
  /\ 0 <= Application.siliconID a < 2 ^ 32
  /\ 0 <= Application.siliconRevision a < 2 ^ 8
  /\ 0 <= Application.checksumType a < 2 ^ 8
  /\ 0 <= Application.appID a < 2 ^ 8
  /\ 0 <= Application.productID a < 2 ^ 32
  /\ 0 <= Application.numRows a
  /\ pack_uint 4 (Application.productID a)
     = Ok (to_le 4 (Application.productID a))
  /\ pack_uint 1 (Application.appID a) = Ok [byte_of_int (Application.appID a)].
Proof.
  intros Hinit.
  destruct (init_ok int0 fs path a Hinit) as (_ & _ & N & L).
  revert Hinit. unfold Application.__init__.
  destruct (negb (endswith path ".cyacd2")); [discriminate|].
  destruct (fs path) as [text|]; [|discriminate].
  unfold bind at 1. unfold get at 1.
  unfold bind at 1. unfold modify at 1.
  unfold bind at 1.
  destruct (Application.getHeader _) as [[[]|e] a2] eqn:EH; [|discriminate].
  unfold bind at 1. unfold modify at 1.
  unfold bind at 1.
  destruct (Application.getAppInfo int0 _) as [[[]|e] a4] eqn:EA; [|discriminate].
  unfold bind at 1. unfold modify at 1. unfold modify.
  intros H. inversion H; subst a. clear H.
  apply getHeader_ranges in EH.
  apply getAppInfo_keeps_header in EA.
  cbn [Application.set_currRow Application.set_numRows Application.fileVersion
       Application.siliconID Application.siliconRevision
       Application.checksumType Application.appID Application.productID] in *.
  destruct EA as (-> & -> & -> & -> & -> & ->).
  destruct EH as (R1 & R2 & R3 & R4 & R5 & R6).
  repeat (split; [assumption|]).
  split; [lia|]. split.
  - apply pack_uint_ok. change (256 ^ Z.of_nat 4) with (2 ^ 32). exact R6.
  - rewrite pack_uint_ok by (change (256 ^ Z.of_nat 1) with (2 ^ 8); exact R5).
    cbn [to_le]. now rewrite byte_of_int_mod.
Qed.

Lemma init_field_ranges_witness :
  pack_uint 4 (Application.productID sample_app)
  = Ok (to_le 4 (Application.productID sample_app)).
Proof.
  exact (proj1 (proj2 (proj2 (proj2 (proj2 (proj2 (proj2 (proj2
    (init_field_ranges int0_hex sample_fs "fw.cyacd2" sample_app
       ltac:(vm_compute; reflexivity)))))))))).
Defined.

(** ** The image parser: reading rows *)

(** X21. The ways in which the read of a row fails when a line is left.  A
    line that does not start with the row marker raises
    [InvalidApplicationFile] and is not counted.  A line with the marker is
    counted before it is decoded: text that is not hexadecimal raises
    [ValueError], fewer than four bytes raise [struct.error], and in both
    cases the row counter has been increased although no row was
    returned.  In every case the line has been consumed. *)
Theorem getNextRow_failures (a : Application.t) (l : string)
  (more : list string) :
  unread a = l :: more ->
  (forall c body,
     l = String c body -> c <> ":"%char ->
     Application.getNextRow a
     = (Raise (InvalidApplicationFile "Malformed data row"), advance a))
  /\ (forall body e,
        l = String ":" body -> fromhex (strip body) = Raise e ->
        Application.getNextRow a = (Raise ValueError, counted a))
  /\ (forall body bs,
        l = String ":" body -> fromhex (strip body) = Ok bs ->
        (List.length bs < 4)%nat ->
        Application.getNextRow a = (Raise StructError, counted a))
  /\ Application.currRow (advance a) = Application.currRow a
  /\ Application.currRow (counted a) = Application.currRow a + 1
  /\ unread (advance a) = more
  /\ unread (counted a) = more.
Proof.
  intros U. split; [|split; [|split]].
  - intros c body -> Hc. now apply (getNextRow_malformed a c body more).
  - intros body e -> H. pose proof (fromhex_error _ _ H) as ->.
    unfold Application.getNextRow, bind.
    rewrite (next_line_some a _ more U). unfold lift at 1.
    cbn [Ascii.eqb Bool.eqb negb andb]. unfold modify, lift.
    rewrite row_of_line_marker, H. reflexivity.
  - intros body bs -> H L.
    unfold Application.getNextRow, bind.
    rewrite (next_line_some a _ more U). unfold lift at 1.
    cbn [Ascii.eqb Bool.eqb negb andb]. unfold modify, lift.
    rewrite row_of_line_marker, H.
    destruct (Z.ltb_spec (Z.of_nat (List.length bs) - 4) 0); [|lia].
    reflexivity.
  - repeat split; try reflexivity; apply (unread_advance a l more U).
Qed.

Lemma getNextRow_failures_witness :
  Application.getNextRow
    (Application.mkApp (Application.mkFile [":0102"%string] 0)
                       1 0 0 0 0 0 0 0 0 0)
  = (Raise StructError,
     counted (Application.mkApp (Application.mkFile [":0102"%string] 0)
                                1 0 0 0 0 0 0 0 0 0)).
Proof.
  exact (proj1 (proj2 (proj2
    (getNextRow_failures
       (Application.mkApp (Application.mkFile [":0102"%string] 0)
                          1 0 0 0 0 0 0 0 0 0)
       ":0102"%string [] ltac:(reflexivity))))
    "0102"%string [x01; x02] ltac:(reflexivity) ltac:(reflexivity)
    ltac:(simpl; lia)).
Defined.

Lemma getNextRow_state (a : Application.t) :
  (snd (Application.getNextRow a) = a /\ unread a = [])
  \/ (unread a <> []
      /\ (snd (Application.getNextRow a) = advance a
          \/ snd (Application.getNextRow a) = counted a)).
Proof.
  destruct (unread a) as [|l more] eqn:U.
  - left. now rewrite (getNextRow_eof a U).
  - right. split; [discriminate|].
    unfold Application.getNextRow, bind.
    rewrite (next_line_some a l more U). unfold lift, modify.
    destruct l as [|c body]; [now left|].
    cbv beta iota.
    destruct (Ascii.eqb c ":") eqn:Ec; cbn [negb]; [|now left].
    right. destruct (Application.row_of_line _); reflexivity.
Qed.

Lemma unread_nonempty_pos (a : Application.t) :
  unread a <> [] ->
  (Application.pos (Application._app a)
   < List.length (Application.lines (Application._app a)))%nat.
Proof.
  intros H. unfold unread in H.
  destruct (Nat.lt_ge_cases (Application.pos (Application._app a))
              (List.length (Application.lines (Application._app a))))
    as [L|L]; [exact L|].
  exfalso. apply H. now apply skipn_all2.
Qed.

(** X22. The row counter stays within the row count.  After an image was
    opened, and after any number of calls of [getNextRow], whatever they
    returned or raised: the row counter is between 0 and [numRows] and at
    most the number of calls; the row count, the lines and the header
    fields are those of the opening; and the position in the file never
    goes back. *)
Theorem currRow_bounded (int0 : string -> result Z)
  (fs : string -> option string) (path : string) (a : Application.t)
  (n : nat) :
  Application.__init__ int0 fs path = Ok a ->
  let a' := reads n a in
  0 <= Application.currRow a' <= Application.numRows a'
  /\ Application.currRow a' <= Z.of_nat n
  /\ Application.numRows a' = Application.numRows a
  /\ Application.lines (Application._app a')
     = Application.lines (Application._app a)
  /\ (Application.pos (Application._app a)
      <= Application.pos (Application._app a'))%nat
  /\ Application.appID a' = Application.appID a
  /\ Application.productID a' = Application.productID a
  /\ Application.startAddr a' = Application.startAddr a
  /\ Application.length a' = Application.length a.
Proof.
  intros Hinit.
  destruct (init_ok int0 fs path a Hinit) as (P & C & N & L).
  cbv zeta.
  assert (G : forall n b,
            (2 <= Application.pos (Application._app b)
             <= List.length (Application.lines (Application._app b)))%nat ->
            0 <= Application.currRow b
              <= Z.of_nat (Application.pos (Application._app b)) - 2 ->
            let b' := reads n b in
            (Application.pos (Application._app b)
             <= Application.pos (Application._app b')
             <= List.length (Application.lines (Application._app b')))%nat
            /\ 0 <= Application.currRow b'
                 <= Z.of_nat (Application.pos (Application._app b')) - 2
            /\ Application.currRow b' <= Application.currRow b + Z.of_nat n
            /\ Application.numRows b' = Application.numRows b
            /\ Application.lines (Application._app b')
               = Application.lines (Application._app b)
            /\ Application.appID b' = Application.appID b
            /\ Application.productID b' = Application.productID b
            /\ Application.startAddr b' = Application.startAddr b
            /\ Application.length b' = Application.length b).
  { clear. induction n as [|n IH]; intros b Hp Hc; cbv zeta.
    - cbn [reads]. repeat split; lia.
    - cbn [reads].
      destruct (getNextRow_state b) as [[E _]|[U [E|E]]]; rewrite E.
      + specialize (IH b Hp Hc). cbv zeta in IH.
        destruct IH as (I1 & I2 & I3 & I4). repeat split; try tauto; lia.
      + apply unread_nonempty_pos in U.
        assert (Hp' : (2 <= Application.pos (Application._app (advance b))
                       <= List.length
                            (Application.lines (Application._app (advance b))))%nat)
          by (cbn; lia).
        assert (Hc' : 0 <= Application.currRow (advance b)
                      <= Z.of_nat (Application.pos
                                     (Application._app (advance b))) - 2)
          by (cbn [advance Application.set_file Application.currRow
                   Application._app Application.pos]; lia).
        specialize (IH (advance b) Hp' Hc'). cbv zeta in IH.
        destruct IH as (I1 & I2 & I3 & I4 & I5 & I6 & I7 & I8 & I9).
        cbn [advance Application.set_file Application.currRow
             Application._app Application.pos Application.lines
             Application.numRows Application.appID Application.productID
             Application.startAddr Application.length] in *.
        repeat split; try assumption; lia.
      + apply unread_nonempty_pos in U.
        assert (Hp' : (2 <= Application.pos (Application._app (counted b))
                       <= List.length
                            (Application.lines (Application._app (counted b))))%nat)
          by (cbn; lia).
        assert (Hc' : 0 <= Application.currRow (counted b)
                      <= Z.of_nat (Application.pos
                                     (Application._app (counted b))) - 2)
          by (cbn [counted advance Application.set_file
                   Application.set_currRow Application.currRow
                   Application._app Application.pos]; lia).
        specialize (IH (counted b) Hp' Hc'). cbv zeta in IH.
        destruct IH as (I1 & I2 & I3 & I4 & I5 & I6 & I7 & I8 & I9).
        cbn [counted advance Application.set_file Application.set_currRow
             Application.currRow
             Application._app Application.pos Application.lines
             Application.numRows Application.appID Application.productID
             Application.startAddr Application.length] in *.
        repeat split; try assumption; lia. }
  specialize (G n a ltac:(lia) ltac:(lia)). cbv zeta in G.
  destruct G as (I1 & I2 & I3 & I4 & I5 & I6 & I7 & I8 & I9).
  repeat split; try assumption; try lia.
  rewrite I4, N, <- I5. lia.
Qed.

Lemma currRow_bounded_witness :
  0 <= Application.currRow (reads 7 broken_app)
    <= Application.numRows (reads 7 broken_app).
Proof.
  exact (proj1 (currRow_bounded int0_hex (fun _ => Some broken_text)
                  "fw.cyacd2" broken_app 7 ltac:(vm_compute; reflexivity))).
Defined.

(** ** The start of the script *)

Lemma init_malformed_header (int0 : string -> result Z)
  (fs : string -> option string) (path text l1 : string)
  (more : list string) (header : bytes) :
  endswith path ".cyacd2" = true -> fs path = Some text ->
  file_lines text = l1 :: more ->
  fromhex (strip l1) = Ok header ->
  List.length header <> 12%nat ->
  Application.__init__ int0 fs path
  = Raise (InvalidApplicationFile "Malformed header").
Proof.
  intros E F L H N.
  unfold Application.__init__. rewrite E, F, L. cbn [negb].
  unfold bind, get, modify, Application.getHeader, Application.next_line, bind.
  cbn [Application.set_numRows Application._app Application.lines
       Application.pos nth_error].
  unfold lift. rewrite H.
  destruct (Nat.eqb_spec (List.length header) 12); [contradiction|].
  reflexivity.
Qed.

(** X23. The script and an image that cannot be parsed.  With one or two
    arguments, when opening the image raises anything but
    [FileNotFoundError] or [InvalidFileType], the script ends with
    [AttributeError] and prints nothing: the third clause of the [try]
    names [cydfu.InvaildApplicationFile], which does not exist, so neither
    [InvalidApplicationFile] nor any other error of the parser reaches the
    user, and the clause that would print the usage is never reached.  A
    header of the wrong length is such a case. *)
Theorem script_malformed_image (int0 : string -> result Z)
  (fs : string -> option string) (path : string) (others : list string)
  (e : exn) :
  (List.length others <= 1)%nat ->
  Application.__init__ int0 fs path = Raise e ->
  e <> FileNotFoundError ->
  (forall msg, e <> InvalidFileType msg) ->
  Script.open_image int0 fs (path :: others) = ([], Script.AttributeError)
  /\ (forall text l1 more header,
        endswith path ".cyacd2" = true -> fs path = Some text ->
        file_lines text = l1 :: more ->
        fromhex (strip l1) = Ok header ->
        List.length header <> 12%nat ->
        e = InvalidApplicationFile "Malformed header").
Proof.
  intros Hl Hi H1 H2. split.
  - unfold Script.open_image. cbn [List.length Nat.eqb orb].
    destruct (Nat.ltb_spec 2 (S (List.length others))); [lia|].
    rewrite Hi. destruct e; try reflexivity.
    + exfalso. now apply (H2 msg).
    + congruence.
  - intros text l1 more header E F L H N.
    pose proof (init_malformed_header int0 fs path text l1 more header
                  E F L H N) as R.
    congruence.
Qed.

Lemma script_malformed_image_witness :
  Script.open_image int0_hex
    (fun _ => Some "01002107E2210001040302"%string) ["fw.cyacd2"%string]
  = ([], Script.AttributeError).
Proof.
  exact (proj1 (script_malformed_image int0_hex
                  (fun _ => Some "01002107E2210001040302"%string)
                  "fw.cyacd2" []
                  (InvalidApplicationFile "Malformed header")
                  ltac:(simpl; lia) ltac:(vm_compute; reflexivity)
                  ltac:(discriminate) ltac:(intros msg; discriminate))).
Defined.

(** X24. The script and its arguments.  Without argument or with more than
    two the script prints the usage and exits; it exits as well, after
    saying so, when the file does not exist; a path without the extension
    prints the usage and lets [InvalidFileType] through; an image that
    opens is announced with its file version and application number. *)
Theorem script_arguments (int0 : string -> result Z)
  (fs : string -> option string) (args : list string) :
  (List.length args = 0%nat \/ (2 < List.length args)%nat ->
   Script.open_image int0 fs args = ([Script.Usage], Script.SystemExit))
  /\ (forall path others,
        args = path :: others -> (List.length others <= 1)%nat ->
        (fs path = None -> endswith path ".cyacd2" = true ->
         Script.open_image int0 fs args
         = ([Script.DoesNotExist path], Script.SystemExit))
        /\ (endswith path ".cyacd2" = false ->
            Script.open_image int0 fs args
            = ([Script.UsageAndBlank],
               Script.Propagates
                 (InvalidFileType
                    "Expected an application file with the extension '.cyadc2'")))
        /\ (forall a,
              Application.__init__ int0 fs path = Ok a ->
              Script.open_image int0 fs args
              = ([Script.SuccessfullyOpened path;
                  Script.FileVersion (Application.fileVersion a);
                  Script.AppID (Application.appID a);
                  Script.BlankLine],
                 Script.Continue a))).
Proof.
  split.
  - intros H. unfold Script.open_image.
    destruct H as [H|H].
    + rewrite H. reflexivity.
    + destruct (Nat.ltb_spec 2 (List.length args)); [|lia].
      now rewrite orb_true_r.
  - intros path others -> Hl.
    unfold Script.open_image. cbn [List.length Nat.eqb orb].
    destruct (Nat.ltb_spec 2 (S (List.length others))); [lia|].
    split; [|split].
    + intros F E. unfold Application.__init__. rewrite E, F. reflexivity.
    + intros E. unfold Application.__init__. rewrite E. reflexivity.
    + intros a Ha. rewrite Ha. reflexivity.
Qed.

Lemma script_arguments_witness :
  Script.open_image int0_hex sample_fs [] = ([Script.Usage], Script.SystemExit).
Proof.
  exact (proj1 (script_arguments int0_hex sample_fs [])
           ltac:(left; reflexivity)).
Defined.

(** ** What is written to the target *)

Lemma keeps_bind {S A B} (P : S -> Prop) (m : M S A) (k : A -> M S B) :
  keeps P m -> (forall a, keeps P (k a)) -> keeps P (bind m k).
Proof.
  intros Hm Hk s Hs. unfold bind. specialize (Hm s Hs).
  destruct (m s) as [[a|e] s']; cbn [snd] in *.
  - now apply Hk.
  - exact Hm.
Qed.

Lemma keeps_ret {S A} (P : S -> Prop) (a : A) : keeps P (ret a).
Proof. intros s Hs. exact Hs. Qed.

Lemma keeps_raise {S A} (P : S -> Prop) (e : exn) : keeps P (@raise S A e).
Proof. intros s Hs. exact Hs. Qed.

Lemma keeps_lift {S A} (P : S -> Prop) (r : result A) : keeps P (@lift S A r).
Proof. intros s Hs. exact Hs. Qed.

Lemma keeps_get {S} (P : S -> Prop) : keeps P (@get S).
Proof. intros s Hs. exact Hs. Qed.

Lemma keeps_for_each {S A} (P : S -> Prop) (xs : list A) (body : A -> M S unit) :
  (forall x, In x xs -> keeps P (body x)) -> keeps P (for_each xs body).
Proof.
  induction xs as [|x xs IH]; intros H.
  - apply keeps_ret.
  - cbn [for_each]. apply keeps_bind.
    + apply H. now left.
    + intros _. apply IH. intros y Hy. apply H. now right.
Qed.

Lemma keeps_print (m : Msg) : keeps small_writes (print m).
Proof. intros w Hw. exact Hw. Qed.

Lemma keeps_sendPacket (packet : bytes) :
  keeps small_writes (DFUProtocol._sendPacket packet 20).
Proof.
  intros w Hw. rewrite sendPacket_run. unfold small_writes in *.
  cbn [snd sent writes]. apply Forall_app. split; [exact Hw|].
  apply pieces_length_bound. lia.
Qed.

Lemma keeps_waitForResponse (t : Z) :
  keeps small_writes (DFUProtocol._waitForResponse t).
Proof.
  intros w Hw. unfold DFUProtocol._waitForResponse, bind, waitForNotifications.
  destruct (inbox w) as [|[[h d]|] rest]; cbn [negb]; try exact Hw.
  unfold get, ret. cbn [delegate_handle charHandle].
  destruct (negb (h =? charHandle w)); exact Hw.
Qed.

Lemma keeps_sendCommandGetResponse (cmd payload : bytes) (t : Z) :
  keeps small_writes (DFUProtocol._sendCommandGetResponse cmd payload t).
Proof.
  unfold DFUProtocol._sendCommandGetResponse.
  apply keeps_bind; [apply keeps_lift|]. intros packet.
  apply keeps_bind; [apply keeps_sendPacket|]. intros _.
  apply keeps_bind; [apply keeps_waitForResponse|]. intros received.
  destruct (negb received); [apply keeps_raise|].
  apply keeps_bind; [apply keeps_get|]. intros w.
  apply keeps_bind; [apply keeps_lift|]. intros [st resp].
  apply keeps_bind; [apply keeps_lift|]. intros _. apply keeps_ret.
Qed.

Lemma keeps_acknowledged (cmd payload : bytes) (t : Z) :
  keeps small_writes
    (DFUProtocol._sendCommandGetResponse cmd payload t ;;; ret tt).
Proof.
  apply keeps_bind; [apply keeps_sendCommandGetResponse|].
  intros _. apply keeps_ret.
Qed.

Lemma keeps_init : keeps small_writes DFUProtocol.__init__.
Proof.
  unfold DFUProtocol.__init__.
  apply keeps_bind; [apply keeps_get|]. intros w.
  destruct (negb (hasCmdChar w)); [apply keeps_raise|].
  destruct (negb (hasCCCD w)); [apply keeps_raise|].
  unfold DFUProtocol._enableNotifications.
  apply keeps_bind; [intros s Hs; exact Hs|]. intros _.
  apply keeps_bind; [intros s Hs; exact Hs|]. intros v.
  destruct (negb _); [apply keeps_raise | apply keeps_ret].
Qed.

Lemma keeps_enterDFU (productID : Z) :
  keeps small_writes (DFUProtocol.enterDFU productID).
Proof.
  unfold DFUProtocol.enterDFU.
  apply keeps_bind; [apply keeps_lift|]. intros payload.
  apply keeps_bind; [apply keeps_sendCommandGetResponse|]. intros resp.
  apply keeps_bind; [apply keeps_lift|]. intros [[j d] v].
  repeat (apply keeps_bind; [apply keeps_print|]; intros _).
  apply keeps_print.
Qed.

Lemma keeps_sendData (data : bytes) :
  keeps small_writes (DFUProtocol.sendData data).
Proof. apply keeps_acknowledged. Qed.

Lemma keeps_programData (rowAddr crc : Z) (data : bytes) :
  keeps small_writes (DFUProtocol.programData rowAddr crc data).
Proof.
  unfold DFUProtocol.programData.
  apply keeps_bind; [apply keeps_lift|]. intros hdr. apply keeps_acknowledged.
Qed.

Lemma keeps_setApplicationMetadata (n sa len : Z) :
  keeps small_writes (DFUProtocol.setApplicationMetadata n sa len).
Proof.
  unfold DFUProtocol.setApplicationMetadata.
  apply keeps_bind; [apply keeps_lift|]. intros p. apply keeps_acknowledged.
Qed.

Lemma keeps_verifyApplication (n : Z) :
  keeps small_writes (DFUProtocol.verifyApplication n).
Proof.
  unfold DFUProtocol.verifyApplication.
  apply keeps_bind; [apply keeps_lift|]. intros p.
  apply keeps_bind; [apply keeps_sendCommandGetResponse|]. intros resp.
  apply keeps_bind; [apply keeps_lift|]. intros buf. apply keeps_ret.
Qed.

Lemma keeps_exitDFU : keeps small_writes DFUProtocol.exitDFU.
Proof.
  unfold DFUProtocol.exitDFU.
  apply keeps_bind; [apply keeps_lift|]. intros p. apply keeps_sendPacket.
Qed.

Lemma keeps_on_world {A} (P : World -> Prop) (m : M World A) :
  keeps P m -> keeps (fun s : Target.St => P (snd s)) (Target.on_world m).
Proof.
  intros H [a w] Hs. unfold Target.on_world. cbn [fst snd] in *.
  specialize (H w Hs). destruct (m w) as [r w']. exact H.
Qed.

Lemma keeps_on_app {A} (P : World -> Prop) (m : M Application.t A) :
  keeps (fun s : Target.St => P (snd s)) (Target.on_app m).
Proof.
  intros [a w] Hs. unfold Target.on_app. cbn [fst snd] in *.
  destruct (m a) as [r a']. exact Hs.
Qed.

Lemma keeps_send_row (crc32cFunc : bytes -> Z) (maxDataLength addr : Z)
  (data : bytes) :
  keeps (fun s : Target.St => small_writes (snd s))
        (Target.send_row crc32cFunc maxDataLength addr data).
Proof.
  unfold Target.send_row. cbv zeta.
  apply keeps_bind; [apply keeps_lift|]. intros chunks.
  apply keeps_bind.
  { apply keeps_on_world. apply keeps_for_each. intros c _.
    apply keeps_sendData. }
  intros _. apply keeps_bind; [apply keeps_lift|]. intros lastChunk.
  apply keeps_bind; [apply keeps_on_world, keeps_programData|]. intros _.
  apply keeps_bind; [apply keeps_get|]. intros s.
  apply keeps_on_world, keeps_print.
Qed.

Lemma keeps_row_loop (crc32cFunc : bytes -> Z) (maxDataLength : Z)
  (fuel : nat) :
  keeps (fun s : Target.St => small_writes (snd s))
        (Target.row_loop crc32cFunc fuel maxDataLength).
Proof.
  induction fuel as [|fuel IH]; [apply keeps_ret|].
  intros s Hs. cbn [Target.row_loop].
  pose proof (keeps_on_app small_writes Application.getNextRow s Hs) as H1.
  destruct (Target.on_app Application.getNextRow s) as [[[addr data]|e] s'];
    cbn [snd] in *; [|exact H1].
  apply (keeps_bind (fun s : Target.St => small_writes (snd s))); try assumption.
  - apply keeps_send_row.
  - intros _. exact IH.
Qed.

(** X25. Whatever the target answers, and whether the update returns or
    raises, everything [updateFirmware] writes to the command
    characteristic is a fragment of at least 1 and at most 20 bytes: if the
    fragments written before the update have this size, so have those
    written once it has ended. *)
Theorem updateFirmware_small_writes (crc32cFunc : bytes -> Z)
  (fwImg : Target.global_fwImg) (fuel : nat) (maxDataLength : Z)
  (s : Target.St) :
  small_writes (snd s) ->
  small_writes
    (snd (snd (Target.updateFirmware crc32cFunc fwImg fuel maxDataLength s))).
Proof.
  revert s.
  change (keeps (fun s : Target.St => small_writes (snd s))
                (Target.updateFirmware crc32cFunc fwImg fuel maxDataLength)).
  unfold Target.updateFirmware.
  apply keeps_bind; [apply keeps_on_world, keeps_init|]. intros _.
  apply keeps_bind; [apply keeps_on_world, keeps_print|]. intros _.
  apply keeps_bind.
  { apply keeps_bind; [apply keeps_get|]. intros s. apply keeps_ret. }
  intros app.
  apply keeps_bind; [apply keeps_on_world, keeps_enterDFU|]. intros _.
  apply keeps_bind; [apply keeps_on_world, keeps_print|]. intros _.
  apply keeps_bind; [apply keeps_on_world, keeps_setApplicationMetadata|].
  intros _.
  apply keeps_bind; [apply keeps_on_world, keeps_print|]. intros _.
  apply keeps_bind; [apply keeps_on_world, keeps_print|]. intros _.
  unfold Target.stream_rows.
  apply keeps_bind; [apply keeps_row_loop|]. intros [[]|]; [|apply keeps_ret].
  unfold Target.finish_update.
  apply keeps_bind; [apply keeps_on_world, keeps_print|]. intros _.
  apply keeps_bind; [apply keeps_on_world, keeps_print|]. intros _.
  apply keeps_bind.
  { unfold Target.read_fwImg_appID.
    apply keeps_bind; [apply keeps_get|]. intros s.
    destruct fwImg; [apply keeps_raise | apply keeps_ret | apply keeps_ret]. }
  intros appNum.
  apply keeps_bind; [apply keeps_on_world, keeps_verifyApplication|].
  intros result.
  apply keeps_bind; [apply keeps_on_world, keeps_print|]. intros _.
  apply keeps_bind; [apply keeps_on_world, keeps_print|]. intros _.
  apply keeps_bind; [apply keeps_on_world, keeps_exitDFU|]. intros _.
  apply keeps_ret.
Qed.

Lemma updateFirmware_small_writes_witness :
  small_writes
    (snd (snd (Target.updateFirmware crc32c Target.TheArgument 4 512
                 (sample_app, fresh_world [Some (14, frame x05 [])])))).
Proof.
  exact (updateFirmware_small_writes crc32c Target.TheArgument 4 512
           (sample_app, fresh_world [Some (14, frame x05 [])])
           ltac:(constructor)).
Defined.
